(** * wolfEngine AES-GCM: a shallow embedding of [src/aes_gcm.c]

    The session object [we_AesGcm], the payload entry point
    [we_aes_gcm_cipher] (one-shot and TLS-record variants) and the control
    entry point [we_aes_gcm_ctrl] are transcribed as functions over an explicit
    state.  Buffers are lists of bytes, C integers are [Z] with their
    conversions written out, and every access outside an object yields
    [Undefined].  wolfCrypt and the OpenSSL allocator are collaborators: the
    first is an interface ([WolfCrypt]), the second succeeds or fails as an
    explicit argument of each call says. *)

From Stdlib Require Import ZArith NArith List Bool Lia.
From Stdlib Require Import Strings.Byte.
Import ListNotations.
Open Scope Z_scope.

(** ** C integers and bytes *)

(** Conversion to [int] (32 bits, two's complement). *)
Definition to_int (z : Z) : Z := (z + 2 ^ 31) mod 2 ^ 32 - 2 ^ 31.

(** Conversion to [word32] / [unsigned int]. *)
Definition to_word32 (z : Z) : Z := z mod 2 ^ 32.

(** Value of an [unsigned char]. *)
Definition byte_to_Z (b : byte) : Z := Z.of_N (Byte.to_N b).

(** Conversion to [unsigned char]: the low eight bits. *)
Definition to_uchar (z : Z) : byte :=
  match Byte.of_N (Z.to_N (z mod 256)) with
  | Some b => b
  | None => x00
  end.

(** ** Outcomes

    [Undefined] stands for C undefined behaviour met by the engine itself: a
    NULL pointer dereferenced, or bytes read or written outside the object a
    pointer designates. *)
Inductive result (A : Type) : Type :=
| Ok (a : A)
| Undefined.
Arguments Ok {A} a.
Arguments Undefined {A}.

Definition bind {A B : Type} (r : result A) (k : A -> result B) : result B :=
  match r with
  | Ok a => k a
  | Undefined => Undefined
  end.

Notation "'let*' x ':=' r 'in' k" := (bind r (fun x => k))
  (at level 10, x pattern, r at level 100, k at level 200).

(** ** Buffers and pointers into them *)

Definition buffer := list byte.

(** [n] bytes starting at offset [off] lie inside [buf]. *)
Definition in_bounds (buf : buffer) (off n : Z) : bool :=
  (0 <=? off) && (0 <=? n) && (off + n <=? Z.of_nat (length buf)).

(** Read the [n] bytes at [buf + off]. *)
Definition load (buf : buffer) (off n : Z) : result buffer :=
  if in_bounds buf off n
  then Ok (firstn (Z.to_nat n) (skipn (Z.to_nat off) buf))
  else Undefined.

(** Write [data] at [buf + off]. *)
Definition store (buf : buffer) (off : Z) (data : buffer) : result buffer :=
  if in_bounds buf off (Z.of_nat (length data))
  then Ok (firstn (Z.to_nat off) buf ++ data
             ++ skipn (Z.to_nat off + length data) buf)
  else Undefined.

(** [buf[i]] as an rvalue and as an lvalue. *)
Definition load1 (buf : buffer) (i : Z) : result byte :=
  if (0 <=? i) && (i <? Z.of_nat (length buf))
  then Ok (nth (Z.to_nat i) buf x00)
  else Undefined.

Definition store1 (buf : buffer) (i : Z) (b : byte) : result buffer :=
  store buf i [b].

(** A pointer that may be NULL, with the object it designates. *)
Definition deref (p : option buffer) : result buffer :=
  match p with
  | Some b => Ok b
  | None => Undefined
  end.

(** The [n] bytes behind a (pointer, size) pair handed to wolfCrypt; NULL is
    acceptable only together with size 0. *)
Definition load_ptr (p : option buffer) (n : Z) : result buffer :=
  match p with
  | Some b => load b 0 n
  | None => if n =? 0 then Ok [] else Undefined
  end.

(** [XMEMCPY(dst + doff, src + soff, n)]. *)
Definition XMEMCPY (dst : buffer) (doff : Z) (src : buffer) (soff n : Z)
  : result buffer :=
  let* data := load src soff n in
  store dst doff data.

(** ** The OpenSSL allocator

    Whether an allocation succeeds is the environment's choice, given by
    [ok].  A request of no bytes, or one whose [int] size is negative (a size
    above any object once converted to [size_t]), returns NULL.  Fresh bytes
    are indeterminate in C; they read as [x00] here and the engine overwrites
    them before use. *)
Definition OPENSSL_malloc (ok : bool) (num : Z) : option buffer :=
  if ok && (0 <? num) then Some (repeat x00 (Z.to_nat num)) else None.

Definition OPENSSL_realloc (ok : bool) (old : option buffer) (num : Z)
  : option buffer :=
  if ok && (0 <? num)
  then
    let b := match old with Some b => b | None => [] end in
    Some (firstn (Z.to_nat num) (b ++ repeat x00 (Z.to_nat num - length b)))
  else None.

(** ** Constants of the OpenSSL and wolfSSL headers *)

(** Modelled from the spec: the macros below come from OpenSSL's [evp.h] and
    wolfSSL's [aes.h], which are not part of the repository.  The tag size
    (16), the TLS AAD header size (13) and the nonce sizes (12 nominal, 16
    maximal) are the ones the spec fixes; the explicit part of a TLS nonce is
    the 8 bytes that follow its 4 fixed bytes in a 12-byte nonce. *)
Definition GCM_NONCE_MAX_SZ : Z := 16.
Definition GCM_NONCE_MID_SZ : Z := 12.
Definition AES_BLOCK_SIZE : Z := 16.
Definition EVP_GCM_TLS_FIXED_IV_LEN : Z := 4.
Definition EVP_GCM_TLS_EXPLICIT_IV_LEN : Z := 8.
Definition EVP_GCM_TLS_TAG_LEN : Z := 16.
Definition EVP_AEAD_TLS1_AAD_LEN : Z := 13.

(** The control commands [we_aes_gcm_ctrl] switches on; every other value of
    [type] is [EVP_CTRL_other]. *)
Inductive ctrl_type : Type :=
| EVP_CTRL_AEAD_SET_IVLEN
| EVP_CTRL_GCM_SET_IV_FIXED
| EVP_CTRL_GET_IVLEN
| EVP_CTRL_GCM_IV_GEN
| EVP_CTRL_AEAD_GET_TAG
| EVP_CTRL_AEAD_SET_TAG
| EVP_CTRL_AEAD_TLS1_AAD
| EVP_CTRL_other (type : Z).

(** The [void *ptr] argument of a control command: NULL, a byte buffer, or
    an [int] object. *)
Inductive ctrl_ptr : Type :=
| PtrNull
| PtrBuf (b : buffer)
| PtrInt (v : Z).

Definition ptr_buf (p : ctrl_ptr) : result buffer :=
  match p with
  | PtrBuf b => Ok b
  | _ => Undefined
  end.

(** ** wolfCrypt, the AEAD primitive

    Each function receives the bytes of the regions its pointer arguments
    designate and returns its status code together with the new contents of
    the regions it may write.  Sizes are the lengths of the lists. *)
Record gcm_encrypt_result (Aes : Type) : Type := {
  enc_rc : Z;
  enc_aes : Aes;
  enc_out : buffer;
  enc_iv : buffer;
  enc_tag : buffer
}.
Arguments enc_rc {Aes} _.
Arguments enc_aes {Aes} _.
Arguments enc_out {Aes} _.
Arguments enc_iv {Aes} _.
Arguments enc_tag {Aes} _.

Record gcm_decrypt_result (Aes : Type) : Type := {
  dec_rc : Z;
  dec_aes : Aes;
  dec_out : buffer
}.
Arguments dec_rc {Aes} _.
Arguments dec_aes {Aes} _.
Arguments dec_out {Aes} _.

Class WolfCrypt : Type := {
  Aes : Type;
  WC_RNG : Type;
  (** The engine's global random generator. *)
  we_rng : WC_RNG;
  (** [OPENSSL_VERSION_NUMBER < 0x30000000L] at build time. *)
  openssl_before_3 : bool;
  (** The field [aes.reg]. *)
  aes_reg : Aes -> buffer;
  (** [wc_AesGcmSetKey(aes, key, len)]. *)
  wc_AesGcmSetKey : Aes -> buffer -> Z -> Z * Aes;
  (** [wc_AesGcmSetExtIV(aes, iv, ivSz)]. *)
  wc_AesGcmSetExtIV : Aes -> buffer -> Z * Aes;
  (** [wc_AesGcmSetIV(aes, ivSz, ivFixed, ivFixedSz, rng)]. *)
  wc_AesGcmSetIV : Aes -> Z -> ctrl_ptr -> Z -> WC_RNG -> Z * Aes;
  (** [wc_AesGcmEncrypt_ex(aes, out, in, sz, ivOut, ivOutSz, authTag,
      authTagSz, authIn, authInSz)], as [f aes out in ivOut authTag authIn]. *)
  wc_AesGcmEncrypt_ex :
    Aes -> buffer -> buffer -> buffer -> buffer -> buffer ->
    gcm_encrypt_result Aes;
  (** [wc_AesGcmDecrypt(aes, out, in, sz, iv, ivSz, authTag, authTagSz,
      authIn, authInSz)], as [f aes out in iv authTag authIn]. *)
  wc_AesGcmDecrypt :
    Aes -> buffer -> buffer -> buffer -> buffer -> buffer ->
    gcm_decrypt_result Aes;
  (** [aes.reg] is an array of [AES_BLOCK_SIZE] bytes. *)
  aes_reg_length : forall a, Z.of_nat (length (aes_reg a)) = 16;
  (** The primitive writes inside the regions it is given. *)
  enc_out_length : forall a o i v t d,
    length (enc_out (wc_AesGcmEncrypt_ex a o i v t d)) = length o;
  enc_iv_length : forall a o i v t d,
    length (enc_iv (wc_AesGcmEncrypt_ex a o i v t d)) = length v;
  enc_tag_length : forall a o i v t d,
    length (enc_tag (wc_AesGcmEncrypt_ex a o i v t d)) = length t;
  dec_out_length : forall a o i v t d,
    length (dec_out (wc_AesGcmDecrypt a o i v t d)) = length o
}.

(** ** The session object *)

Section Engine.
Context {W : WolfCrypt}.

(** [struct we_AesGcm].  [aad] is the heap pointer: [None] is NULL, [Some b]
    an allocation whose size is the length of [b]. *)
Record we_AesGcm : Type := {
  aes : Aes;
  iv : buffer;
  ivLen : Z;
  ivSet : Z;
  tag : buffer;
  tagLen : Z;
  aad : option buffer;
  aadLen : Z;
  init : bool;
  enc : bool;
  tls : bool
}.

Definition set_aes (s : we_AesGcm) (v : Aes) : we_AesGcm :=
  {| aes := v; iv := iv s; ivLen := ivLen s; ivSet := ivSet s; tag := tag s;
     tagLen := tagLen s; aad := aad s; aadLen := aadLen s; init := init s;
     enc := enc s; tls := tls s |}.

Definition set_iv (s : we_AesGcm) (v : buffer) : we_AesGcm :=
  {| aes := aes s; iv := v; ivLen := ivLen s; ivSet := ivSet s; tag := tag s;
     tagLen := tagLen s; aad := aad s; aadLen := aadLen s; init := init s;
     enc := enc s; tls := tls s |}.

Definition set_ivLen (s : we_AesGcm) (v : Z) : we_AesGcm :=
  {| aes := aes s; iv := iv s; ivLen := v; ivSet := ivSet s; tag := tag s;
     tagLen := tagLen s; aad := aad s; aadLen := aadLen s; init := init s;
     enc := enc s; tls := tls s |}.

Definition set_ivSet (s : we_AesGcm) (v : Z) : we_AesGcm :=
  {| aes := aes s; iv := iv s; ivLen := ivLen s; ivSet := v; tag := tag s;
     tagLen := tagLen s; aad := aad s; aadLen := aadLen s; init := init s;
     enc := enc s; tls := tls s |}.

Definition set_tag (s : we_AesGcm) (v : buffer) : we_AesGcm :=
  {| aes := aes s; iv := iv s; ivLen := ivLen s; ivSet := ivSet s; tag := v;
     tagLen := tagLen s; aad := aad s; aadLen := aadLen s; init := init s;
     enc := enc s; tls := tls s |}.

Definition set_tagLen (s : we_AesGcm) (v : Z) : we_AesGcm :=
  {| aes := aes s; iv := iv s; ivLen := ivLen s; ivSet := ivSet s; tag := tag s;
     tagLen := v; aad := aad s; aadLen := aadLen s; init := init s;
     enc := enc s; tls := tls s |}.

Definition set_aad (s : we_AesGcm) (v : option buffer) : we_AesGcm :=
  {| aes := aes s; iv := iv s; ivLen := ivLen s; ivSet := ivSet s; tag := tag s;
     tagLen := tagLen s; aad := v; aadLen := aadLen s; init := init s;
     enc := enc s; tls := tls s |}.

Definition set_aadLen (s : we_AesGcm) (v : Z) : we_AesGcm :=
  {| aes := aes s; iv := iv s; ivLen := ivLen s; ivSet := ivSet s; tag := tag s;
     tagLen := tagLen s; aad := aad s; aadLen := v; init := init s;
     enc := enc s; tls := tls s |}.

Definition set_tls (s : we_AesGcm) (v : bool) : we_AesGcm :=
  {| aes := aes s; iv := iv s; ivLen := ivLen s; ivSet := ivSet s; tag := tag s;
     tagLen := tagLen s; aad := aad s; aadLen := aadLen s; init := init s;
     enc := enc s; tls := v |}.

(** The part of [EVP_CIPHER_CTX] the engine reaches:
    [EVP_CIPHER_CTX_get_cipher_data] (NULL is [None]),
    [EVP_CIPHER_CTX_iv_noconst] and [EVP_CIPHER_CTX_key_length]. *)
Record EVP_CIPHER_CTX : Type := {
  cipher_data : option we_AesGcm;
  ctx_iv : buffer;
  key_length : Z
}.

Definition set_cipher_data (ctx : EVP_CIPHER_CTX) (s : we_AesGcm)
  : EVP_CIPHER_CTX :=
  {| cipher_data := Some s; ctx_iv := ctx_iv ctx;
     key_length := key_length ctx |}.

Definition set_ctx_iv (ctx : EVP_CIPHER_CTX) (v : buffer) : EVP_CIPHER_CTX :=
  {| cipher_data := cipher_data ctx; ctx_iv := v;
     key_length := key_length ctx |}.

(** "Dispose of any AAD": [OPENSSL_free(aes->aad); aes->aad = NULL;
    aes->aadLen = 0]. *)
Definition dispose_aad (s : we_AesGcm) : we_AesGcm :=
  set_aadLen (set_aad s None) 0.

(** ** [we_aes_gcm_init] *)

(** [key] and [iv_arg] are [None] when the caller passes NULL; [enc_arg] is
    stored in a one-bit field. *)
Definition we_aes_gcm_init (ctx : EVP_CIPHER_CTX) (key iv_arg : option buffer)
    (enc_arg : Z) : result (Z * EVP_CIPHER_CTX) :=
  match cipher_data ctx with
  | None => Ok (0, ctx)
  | Some s =>
      let s :=
        if (match key, iv_arg with None, None => true | _, _ => false end)
           || negb (init s)
        then {| aes := aes s; iv := iv s; ivLen := 0; ivSet := 0;
                tag := tag s; tagLen := 0; aad := None; aadLen := 0;
                init := true; enc := Z.odd enc_arg; tls := false |}
        else s in
      let '(ret, s) :=
        match key with
        | Some k =>
            let '(rc, a) := wc_AesGcmSetKey (aes s) k (key_length ctx) in
            (if negb (rc =? 0) then 0 else 1, set_aes s a)
        | None => (1, s)
        end in
      let* s :=
        match iv_arg with
        | Some v =>
            if ret =? 1
            then
              let s := set_ivLen s GCM_NONCE_MID_SZ in
              let* b := XMEMCPY (iv s) 0 v 0 GCM_NONCE_MID_SZ in
              Ok (set_iv s b)
            else Ok s
        | None => Ok s
        end in
      Ok (ret, set_cipher_data ctx s)
  end.

(** ** [we_aes_gcm_tls_cipher] *)

Definition we_aes_gcm_tls_cipher (s : we_AesGcm) (out : option buffer)
    (inp : buffer) (len : Z) : result (Z * we_AesGcm * option buffer) :=
  let* (ret, s, out) :=
    if enc s then
      (* Plaintext is input buffer without IV and tag. *)
      let encLen :=
        to_word32 (to_word32 len - EVP_GCM_TLS_EXPLICIT_IV_LEN
                   - EVP_GCM_TLS_TAG_LEN) in
      let* (ret, s, out) :=
        if negb (len =? 0) then
          (* Copy the explicit part of the IV into out. *)
          let* o := deref out in
          let* o := XMEMCPY o 0 (iv s) EVP_GCM_TLS_FIXED_IV_LEN
                      EVP_GCM_TLS_EXPLICIT_IV_LEN in
          (* Encrypt the data except explicit IV; tag at end of out. *)
          let* p_out := load o EVP_GCM_TLS_EXPLICIT_IV_LEN encLen in
          let* p_in := load inp EVP_GCM_TLS_EXPLICIT_IV_LEN encLen in
          let* p_iv := load (iv s) 0 (ivLen s) in
          let* p_tag := load o (len - EVP_GCM_TLS_TAG_LEN)
                          EVP_GCM_TLS_TAG_LEN in
          let* p_aad := load_ptr (aad s) (aadLen s) in
          let r := wc_AesGcmEncrypt_ex (aes s) p_out p_in p_iv p_tag p_aad in
          let* o := store o EVP_GCM_TLS_EXPLICIT_IV_LEN (enc_out r) in
          let* o := store o (len - EVP_GCM_TLS_TAG_LEN) (enc_tag r) in
          let* v := store (iv s) 0 (enc_iv r) in
          let s := set_iv (set_aes s (enc_aes r)) v in
          Ok (if negb (enc_rc r =? 0) then 0 else 1, s, Some o)
        else Ok (1, s, out) in
      Ok (if ret =? 1 then to_int len else ret, s, out)
    else
      (* Cipher text is input buffer without IV and tag. *)
      let decLen :=
        to_word32 (to_word32 len - EVP_GCM_TLS_EXPLICIT_IV_LEN
                   - EVP_GCM_TLS_TAG_LEN) in
      let* (ret, s, out) :=
        if negb (len =? 0) then
          (* Copy the explicit part of the IV from input. *)
          let* v := XMEMCPY (iv s) EVP_GCM_TLS_FIXED_IV_LEN inp 0
                      EVP_GCM_TLS_EXPLICIT_IV_LEN in
          let s := set_iv s v in
          (* Decrypt the data except explicit IV; tag at end of input. *)
          let* o := deref out in
          let* p_out := load o EVP_GCM_TLS_EXPLICIT_IV_LEN decLen in
          let* p_in := load inp EVP_GCM_TLS_EXPLICIT_IV_LEN decLen in
          let* p_iv := load (iv s) 0 (ivLen s) in
          let* p_tag := load inp (len - EVP_GCM_TLS_TAG_LEN)
                          EVP_GCM_TLS_TAG_LEN in
          let* p_aad := load_ptr (aad s) (aadLen s) in
          let r := wc_AesGcmDecrypt (aes s) p_out p_in p_iv p_tag p_aad in
          let* o := store o EVP_GCM_TLS_EXPLICIT_IV_LEN (dec_out r) in
          let s := set_aes s (dec_aes r) in
          Ok (if negb (dec_rc r =? 0) then 0 else 1, s, Some o)
        else Ok (1, s, out) in
      Ok (if ret =? 1
          then (if openssl_before_3 then to_int decLen else to_int len)
          else ret, s, out) in
  (* Dispose of any AAD - all used now. *)
  Ok (ret, dispose_aad s, out).

(** ** [we_aes_gcm_cipher] *)

(** The one-shot encryption of the branch [len > 0]. *)
Definition gcm_encrypt (s : we_AesGcm) (o inp : buffer) (len : Z)
  : result (Z * we_AesGcm * buffer) :=
  let* (ret, s) :=
    if ivSet s =? 0 then
      (* Set extern IV. *)
      let* p_iv := load (iv s) 0 (ivLen s) in
      let '(rc, a) := wc_AesGcmSetExtIV (aes s) p_iv in
      Ok (if negb (rc =? 0) then 0 else 1, set_aes s a)
    else Ok (1, s) in
  let* (ret, s, o) :=
    if ret =? 1 then
      (* Tag always full size on calculation. *)
      let s := set_tagLen s EVP_GCM_TLS_TAG_LEN in
      (* Encrypt the data. *)
      let* p_out := load o 0 (to_word32 len) in
      let* p_in := load inp 0 (to_word32 len) in
      let* p_iv := load (iv s) 0 (ivLen s) in
      let* p_tag := load (tag s) 0 (tagLen s) in
      let* p_aad := load_ptr (aad s) (aadLen s) in
      let r := wc_AesGcmEncrypt_ex (aes s) p_out p_in p_iv p_tag p_aad in
      let* o := store o 0 (enc_out r) in
      let* v := store (iv s) 0 (enc_iv r) in
      let* t := store (tag s) 0 (enc_tag r) in
      let s := set_tag (set_iv (set_aes s (enc_aes r)) v) t in
      Ok (if negb (enc_rc r =? 0) then 0 else 1, s, o)
    else Ok (ret, s, o) in
  let* s :=
    if ret =? 1 then
      (* Cache nonce/IV. *)
      let* v := XMEMCPY (iv s) 0 (aes_reg (aes s)) 0 (ivLen s) in
      Ok (set_iv s v)
    else Ok s in
  Ok (ret, s, o).

(** The one-shot decryption of the branch [len > 0]. *)
Definition gcm_decrypt (s : we_AesGcm) (o inp : buffer) (len : Z)
  : result (Z * we_AesGcm * buffer) :=
  (* Decrypt the data. *)
  let* p_out := load o 0 (to_word32 len) in
  let* p_in := load inp 0 (to_word32 len) in
  let* p_iv := load (iv s) 0 (ivLen s) in
  let* p_tag := load (tag s) 0 (tagLen s) in
  let* p_aad := load_ptr (aad s) (aadLen s) in
  let r := wc_AesGcmDecrypt (aes s) p_out p_in p_iv p_tag p_aad in
  let* o := store o 0 (dec_out r) in
  let s := set_aes s (dec_aes r) in
  let ret := if negb (dec_rc r =? 0) then 0 else 1 in
  let* s :=
    if ret =? 1 then
      (* Cache nonce/IV. *)
      let* v := XMEMCPY (iv s) 0 (aes_reg (aes s)) 0 (ivLen s) in
      Ok (set_iv s v)
    else Ok s in
  Ok (ret, s, o).

(** [out] is [None] when the caller passes NULL ("AAD in"); [alloc] tells
    whether [OPENSSL_realloc] finds memory.  The result is the returned
    [int], the context and the contents of the output buffer. *)
Definition we_aes_gcm_cipher (alloc : bool) (ctx : EVP_CIPHER_CTX)
    (out : option buffer) (inp : buffer) (len : Z)
  : result (Z * EVP_CIPHER_CTX * option buffer) :=
  match cipher_data ctx with
  | None => Ok (0, ctx, out)
  | Some s =>
      if tls s then
        let* (ret, s, out) := we_aes_gcm_tls_cipher s out inp len in
        Ok (ret, set_cipher_data ctx s, out)
      else
        match out with
        | None =>
            (* Resize stored AAD and append new data. *)
            match OPENSSL_realloc alloc (aad s)
                    (to_int (aadLen s + to_int len)) with
            | None => Ok (0, ctx, out)
            | Some p =>
                (* Copy in new data after existing data. *)
                let* p := XMEMCPY p (aadLen s) inp 0 len in
                let s := set_aad s (Some p) in
                let s := set_aadLen s (to_int (aadLen s + len)) in
                Ok (0, set_cipher_data ctx s, out)
            end
        | Some o =>
            if len =? 0 then Ok (0, ctx, out)
            else if 0 <? len then
              let* (_, s, o) :=
                if enc s then gcm_encrypt s o inp len
                else gcm_decrypt s o inp len in
              (* Dispose of any AAD - all used now. *)
              let s := dispose_aad s in
              Ok (to_int len, set_cipher_data ctx s, Some o)
            else Ok (1, ctx, out)
        end
  end.

(** ** [we_aes_gcm_ctrl] *)

(** The loop of [EVP_CTRL_GCM_IV_GEN],
    [for (i = hi; i >= lo; i--) if ((++iv[i]) != 0) break;], with [n] the
    number of values of [i] still to visit, [hi - lo + 1] at entry. *)
Fixpoint iv_gen_loop (n : nat) (i : Z) (v : buffer) : result buffer :=
  match n with
  | O => Ok v
  | S n' =>
      let* b := load1 v i in
      let b' := to_uchar (byte_to_Z b + 1) in
      let* v := store1 v i b' in
      if negb (byte_to_Z b' =? 0) then Ok v
      else iv_gen_loop n' (i - 1) v
  end.

(** The case [EVP_CTRL_AEAD_TLS1_AAD]. *)
Definition ctrl_tls1_aad (alloc : bool) (s : we_AesGcm) (arg : Z)
    (ptr : ctrl_ptr) : result (Z * we_AesGcm) :=
  if negb (arg =? EVP_AEAD_TLS1_AAD_LEN) then Ok (0, s)
  else
    (* Set modified AAD based on record header *)
    match OPENSSL_malloc alloc arg with
    | None => Ok (0, set_aad s None)
    | Some a =>
        let* src := ptr_buf ptr in
        let* a := XMEMCPY a 0 src 0 arg in
        let s := set_aadLen (set_aad s (Some a)) arg in
        let* hi := load1 a (arg - 2) in
        let* lo := load1 a (arg - 1) in
        let len := Z.lor (Z.shiftl (byte_to_Z hi) 8) (byte_to_Z lo) in
        if len <? EVP_GCM_TLS_EXPLICIT_IV_LEN then Ok (0, s)
        else
          let len := to_word32 (len - EVP_GCM_TLS_EXPLICIT_IV_LEN) in
          let '(ret, len) :=
            if negb (enc s) then
              if len <? EVP_GCM_TLS_TAG_LEN then (0, len)
              else (1, to_word32 (len - EVP_GCM_TLS_TAG_LEN))
            else (1, len) in
          if ret =? 1 then
            let* a := store1 a (arg - 2) (to_uchar (Z.shiftr len 8)) in
            let* a := store1 a (arg - 1) (to_uchar len) in
            Ok (EVP_GCM_TLS_TAG_LEN, set_tls (set_aad s (Some a)) true)
          else Ok (ret, s)
    end.

(** [alloc] tells whether [OPENSSL_malloc] finds memory.  The result is the
    returned [int], the context and the object behind [ptr]. *)
Definition we_aes_gcm_ctrl (alloc : bool) (ctx : EVP_CIPHER_CTX)
    (type : ctrl_type) (arg : Z) (ptr : ctrl_ptr)
  : result (Z * EVP_CIPHER_CTX * ctrl_ptr) :=
  match cipher_data ctx with
  | None => Ok (0, ctx, ptr)
  | Some s =>
      match type with
      | EVP_CTRL_AEAD_SET_IVLEN =>
          if (arg <=? 0) || (GCM_NONCE_MAX_SZ <? arg) then Ok (0, ctx, ptr)
          else Ok (1, set_cipher_data ctx (set_ivLen s arg), ptr)
      | EVP_CTRL_GCM_SET_IV_FIXED =>
          let s :=
            if ivLen s =? 0 then set_ivLen s GCM_NONCE_MID_SZ else s in
          if arg =? -1 then
            (* arg of -1 means copy all data. *)
            let* src := ptr_buf ptr in
            let* v := XMEMCPY (iv s) 0 src 0 (ivLen s) in
            let* c := XMEMCPY (ctx_iv ctx) 0 src 0 (ivLen s) in
            Ok (1, set_ctx_iv (set_cipher_data ctx (set_iv s v)) c, ptr)
          else
            (* Set a fixed IV and have the rest generated. *)
            let '(rc, a) :=
              wc_AesGcmSetIV (aes s) (ivLen s) ptr arg we_rng in
            let s := set_aes s a in
            if negb (rc =? 0) then Ok (0, set_cipher_data ctx s, ptr)
            else
              let s := set_ivSet s 1 in
              let* v := XMEMCPY (iv s) 0 (aes_reg (aes s)) 0 (ivLen s) in
              let* c := XMEMCPY (ctx_iv ctx) 0 v 0 (ivLen s) in
              Ok (1, set_ctx_iv (set_cipher_data ctx (set_iv s v)) c, ptr)
      | EVP_CTRL_GET_IVLEN =>
          match ptr with
          | PtrInt _ => Ok (1, ctx, PtrInt (ivLen s))
          | _ => Undefined
          end
      | EVP_CTRL_GCM_IV_GEN =>
          if (arg <=? 0) || (GCM_NONCE_MAX_SZ <? arg) then Ok (0, ctx, ptr)
          else
            let* src := ptr_buf ptr in
            let* v := XMEMCPY (iv s) 0 src 0 arg in
            let* v := iv_gen_loop
                        (Z.to_nat ((ivLen s - 1) - (ivLen s - 8) + 1))
                        (ivLen s - 1) v in
            Ok (1, set_cipher_data ctx (set_iv s v), ptr)
      | EVP_CTRL_AEAD_GET_TAG =>
          if negb (enc s) || (arg <=? 0) || (tagLen s <? arg)
          then Ok (0, ctx, ptr)
          else
            let* dst := ptr_buf ptr in
            let* dst := XMEMCPY dst 0 (tag s) 0 arg in
            Ok (1, ctx, PtrBuf dst)
      | EVP_CTRL_AEAD_SET_TAG =>
          if (arg <=? 0) || (AES_BLOCK_SIZE <? arg) then Ok (0, ctx, ptr)
          else
            match enc s, ptr with
            | false, PtrNull => Ok (0, ctx, ptr)
            | false, _ =>
                let* src := ptr_buf ptr in
                let* t := XMEMCPY (tag s) 0 src 0 arg in
                Ok (1, set_cipher_data ctx (set_tagLen (set_tag s t) arg),
                    ptr)
            | true, _ =>
                Ok (1, set_cipher_data ctx (set_tagLen s arg), ptr)
            end
      | EVP_CTRL_AEAD_TLS1_AAD =>
          let* (ret, s) := ctrl_tls1_aad alloc s arg ptr in
          Ok (ret, set_cipher_data ctx s, ptr)
      | EVP_CTRL_other _ => Ok (0, ctx, ptr)
      end
  end.

End Engine.

(** ** Vocabulary of the properties *)

(** A byte string read as a big-endian number, and the [n]-byte big-endian
    string of a number (modulo [256 ^ n]). *)
Definition be_value (l : buffer) : Z :=
  fold_left (fun acc b => acc * 256 + byte_to_Z b) l 0.

Fixpoint be_encode (n : nat) (z : Z) : buffer :=
  match n with
  | O => []
  | S n' => be_encode n' (z / 256) ++ [to_uchar z]
  end.

(** The nonce that follows [v] when its bytes [n - 8 .. n - 1] are a
    big-endian counter: the counter plus one, modulo [2 ^ 64]. *)
Definition next_nonce (n : Z) (v : buffer) : buffer :=
  let k := Z.to_nat (n - 8) in
  firstn k v ++ be_encode 8 (be_value (firstn 8 (skipn k v)) + 1)
    ++ skipn (k + 8) v.

(** The all-zero 8-byte seed, and the 16-byte IV buffer whose bytes 4 to 11
    hold the counter value [n] while all others are zero. *)
Definition zero_seed : buffer := repeat x00 8.

Definition counter_iv (n : Z) : buffer :=
  repeat x00 4 ++ be_encode 8 n ++ repeat x00 4.

(** The record length a TLS header carries in its bytes 11 and 12. *)
Definition tls_record_length (hdr : buffer) : Z :=
  byte_to_Z (nth 11 hdr x00) * 256 + byte_to_Z (nth 12 hdr x00).

Section Vocabulary.
Context {W : WolfCrypt}.

(** The counter of a nonce: its bytes [ivLen - 8 .. ivLen - 1], big-endian. *)
Definition nonce_counter (s : we_AesGcm) : Z :=
  be_value (firstn 8 (skipn (Z.to_nat (ivLen s - 8)) (iv s))).

(** One [EVP_CTRL_GCM_IV_GEN] command, and [n] of them in a row. *)
Definition iv_gen_call (seed : buffer) (arg : Z) (ctx : EVP_CIPHER_CTX)
  : result EVP_CIPHER_CTX :=
  let* (_, c, _) :=
    we_aes_gcm_ctrl true ctx EVP_CTRL_GCM_IV_GEN arg (PtrBuf seed) in
  Ok c.

Definition iv_gen_calls (n : N) (seed : buffer) (arg : Z)
    (ctx : EVP_CIPHER_CTX) : result EVP_CIPHER_CTX :=
  N.iter n (fun r => let* c := r in iv_gen_call seed arg c) (Ok ctx).

(** One AAD-only call ([out] is NULL) with the bytes [chunk]. *)
Definition aad_push (alloc : bool) (chunk : buffer) (ctx : EVP_CIPHER_CTX)
  : result EVP_CIPHER_CTX :=
  let* (_, c, _) :=
    we_aes_gcm_cipher alloc ctx None chunk (Z.of_nat (length chunk)) in
  Ok c.

(** The accumulated AAD as the payload call hands it to wolfCrypt. *)
Definition aad_bytes (s : we_AesGcm) : buffer :=
  match aad s with
  | Some b => b
  | None => []
  end.

(** [aadLen] is the size of the AAD allocation (0 when there is none). *)
Definition aad_consistent (s : we_AesGcm) : Prop :=
  aadLen s = Z.of_nat (length (aad_bytes s)).

(** The session once [acc] was appended to its AAD. *)
Definition with_aad (s : we_AesGcm) (acc : buffer) : we_AesGcm :=
  set_aadLen (set_aad s (Some (aad_bytes s ++ acc)))
    (aadLen s + Z.of_nat (length acc)).

(** The session once [EVP_CTRL_AEAD_TLS1_AAD] has copied the 13-byte header
    [hdr] into a fresh AAD buffer. *)
Definition with_raw_header (s : we_AesGcm) (hdr : buffer) : we_AesGcm :=
  set_aadLen (set_aad s (Some hdr)) 13.

End Vocabulary.

(** ** Registration of the methods ([we_init_aesgcm_meths]) and the
    look-up functions of [src/internal.c] *)

(** Numeric identifiers of OpenSSL the engine names; any other value of the
    [int] is [NID_other]. *)
Inductive nid : Type :=
| NID_sha1 | NID_sha224 | NID_sha256 | NID_sha384 | NID_sha512
| NID_sha3_224 | NID_sha3_256 | NID_sha3_384 | NID_sha3_512
| NID_des_ede3_cbc
| NID_aes_128_ecb | NID_aes_192_ecb | NID_aes_256_ecb
| NID_aes_128_cbc | NID_aes_192_cbc | NID_aes_256_cbc
| NID_aes_128_ctr | NID_aes_192_ctr | NID_aes_256_ctr
| NID_aes_128_gcm | NID_aes_192_gcm | NID_aes_256_gcm
| NID_aes_128_ccm | NID_aes_192_ccm | NID_aes_256_ccm
| NID_rsaEncryption | NID_X9_62_id_ecPublicKey
| NID_X9_62_prime256v1 | NID_secp384r1
| NID_other (n : Z).

(** The build options ([#ifdef]) the two files test. *)
Record we_config : Type := {
  WE_HAVE_SHA1 : bool;
  WE_HAVE_SHA224 : bool;
  WE_HAVE_SHA256 : bool;
  WE_HAVE_SHA384 : bool;
  WE_HAVE_SHA512 : bool;
  WE_HAVE_SHA3_224 : bool;
  WE_HAVE_SHA3_256 : bool;
  WE_HAVE_SHA3_384 : bool;
  WE_HAVE_SHA3_512 : bool;
  WE_HAVE_DES3CBC : bool;
  WE_HAVE_AESECB : bool;
  WE_HAVE_AESCBC : bool;
  WE_HAVE_AESCTR : bool;
  WE_HAVE_AESGCM : bool;
  WE_HAVE_AESCCM : bool;
  WE_HAVE_RSA : bool;
  WE_HAVE_ECC : bool;
  WE_HAVE_ECKEYGEN : bool;
  WE_HAVE_EC_P256 : bool;
  WE_HAVE_EC_P384 : bool
}.

(** An array initialiser entry under [#ifdef]. *)
Definition ifdef {A : Type} (b : bool) (l : list A) : list A :=
  if b then l else [].

(** *** [we_init_aesgcm_meth] and [we_init_aesgcm_meths] *)

(** The bits of [AES_GCM_FLAGS], by name. *)
Inductive evp_flag : Type :=
| EVP_CIPH_FLAG_CUSTOM_CIPHER
| EVP_CIPH_CUSTOM_IV
| EVP_CIPH_CUSTOM_IV_LENGTH
| EVP_CIPH_ALWAYS_CALL_INIT
| EVP_CIPH_FLAG_AEAD_CIPHER
| EVP_CIPH_GCM_MODE.

Definition AES_GCM_FLAGS : list evp_flag :=
  [EVP_CIPH_FLAG_CUSTOM_CIPHER; EVP_CIPH_CUSTOM_IV;
   EVP_CIPH_CUSTOM_IV_LENGTH; EVP_CIPH_ALWAYS_CALL_INIT;
   EVP_CIPH_FLAG_AEAD_CIPHER; EVP_CIPH_GCM_MODE].

(** The three functions of [aes_gcm.c] a method points to, and the size
    [sizeof(we_AesGcm)]. *)
Inductive gcm_function : Type :=
| fn_we_aes_gcm_init
| fn_we_aes_gcm_cipher
| fn_we_aes_gcm_ctrl.

Inductive impl_size : Type :=
| sizeof_we_AesGcm.

(** An [EVP_CIPHER] method object, as [EVP_CIPHER_meth_new] and the
    [EVP_CIPHER_meth_set_*] functions build it. *)
Record EVP_CIPHER : Type := {
  meth_nid : nid;
  meth_block_size : Z;
  meth_key_len : Z;
  meth_iv_length : Z;
  meth_flags : list evp_flag;
  meth_init : option gcm_function;
  meth_do_cipher : option gcm_function;
  meth_ctrl : option gcm_function;
  meth_impl_ctx_size : option impl_size
}.

(** The calls into OpenSSL made for one method; whether each succeeds is
    the environment's choice, a function [ok] of the method and the call. *)
Inductive meth_call : Type :=
| call_meth_new
| call_set_iv_length
| call_set_flags
| call_set_init
| call_set_do_cipher
| call_set_ctrl
| call_set_impl_ctx_size.

Definition EVP_CIPHER_meth_new (ok : nid -> meth_call -> bool)
    (n : nid) (block_size key_len : Z) : option EVP_CIPHER :=
  if ok n call_meth_new
  then Some {| meth_nid := n; meth_block_size := block_size;
               meth_key_len := key_len; meth_iv_length := 0;
               meth_flags := []; meth_init := None;
               meth_do_cipher := None; meth_ctrl := None;
               meth_impl_ctx_size := None |}
  else None.

(** A setter: it returns 1 and stores, or returns 0. *)
Definition meth_set (ok : nid -> meth_call -> bool) (c : meth_call)
    (upd : EVP_CIPHER -> EVP_CIPHER) (m : EVP_CIPHER) : Z * EVP_CIPHER :=
  if ok (meth_nid m) c then (1, upd m) else (0, m).

Definition with_iv_length (v : Z) (m : EVP_CIPHER) : EVP_CIPHER :=
  {| meth_nid := meth_nid m; meth_block_size := meth_block_size m;
     meth_key_len := meth_key_len m; meth_iv_length := v;
     meth_flags := meth_flags m; meth_init := meth_init m;
     meth_do_cipher := meth_do_cipher m; meth_ctrl := meth_ctrl m;
     meth_impl_ctx_size := meth_impl_ctx_size m |}.

Definition with_flags (v : list evp_flag) (m : EVP_CIPHER) : EVP_CIPHER :=
  {| meth_nid := meth_nid m; meth_block_size := meth_block_size m;
     meth_key_len := meth_key_len m; meth_iv_length := meth_iv_length m;
     meth_flags := v; meth_init := meth_init m;
     meth_do_cipher := meth_do_cipher m; meth_ctrl := meth_ctrl m;
     meth_impl_ctx_size := meth_impl_ctx_size m |}.

Definition with_init (v : gcm_function) (m : EVP_CIPHER) : EVP_CIPHER :=
  {| meth_nid := meth_nid m; meth_block_size := meth_block_size m;
     meth_key_len := meth_key_len m; meth_iv_length := meth_iv_length m;
     meth_flags := meth_flags m; meth_init := Some v;
     meth_do_cipher := meth_do_cipher m; meth_ctrl := meth_ctrl m;
     meth_impl_ctx_size := meth_impl_ctx_size m |}.

Definition with_do_cipher (v : gcm_function) (m : EVP_CIPHER) : EVP_CIPHER :=
  {| meth_nid := meth_nid m; meth_block_size := meth_block_size m;
     meth_key_len := meth_key_len m; meth_iv_length := meth_iv_length m;
     meth_flags := meth_flags m; meth_init := meth_init m;
     meth_do_cipher := Some v; meth_ctrl := meth_ctrl m;
     meth_impl_ctx_size := meth_impl_ctx_size m |}.

Definition with_ctrl (v : gcm_function) (m : EVP_CIPHER) : EVP_CIPHER :=
  {| meth_nid := meth_nid m; meth_block_size := meth_block_size m;
     meth_key_len := meth_key_len m; meth_iv_length := meth_iv_length m;
     meth_flags := meth_flags m; meth_init := meth_init m;
     meth_do_cipher := meth_do_cipher m; meth_ctrl := Some v;
     meth_impl_ctx_size := meth_impl_ctx_size m |}.

Definition with_impl_ctx_size (v : impl_size) (m : EVP_CIPHER) : EVP_CIPHER :=
  {| meth_nid := meth_nid m; meth_block_size := meth_block_size m;
     meth_key_len := meth_key_len m; meth_iv_length := meth_iv_length m;
     meth_flags := meth_flags m; meth_init := meth_init m;
     meth_do_cipher := meth_do_cipher m; meth_ctrl := meth_ctrl m;
     meth_impl_ctx_size := Some v |}.

(** [we_init_aesgcm_meth]: each step runs while [ret == 1]. *)
Definition we_init_aesgcm_meth (ok : nid -> meth_call -> bool)
    (cipher : EVP_CIPHER) : Z * EVP_CIPHER :=
  let '(ret, cipher) :=
    meth_set ok call_set_iv_length (with_iv_length GCM_NONCE_MID_SZ) cipher in
  let '(ret, cipher) :=
    if ret =? 1
    then meth_set ok call_set_flags (with_flags AES_GCM_FLAGS) cipher
    else (ret, cipher) in
  let '(ret, cipher) :=
    if ret =? 1
    then meth_set ok call_set_init (with_init fn_we_aes_gcm_init) cipher
    else (ret, cipher) in
  let '(ret, cipher) :=
    if ret =? 1
    then meth_set ok call_set_do_cipher
           (with_do_cipher fn_we_aes_gcm_cipher) cipher
    else (ret, cipher) in
  let '(ret, cipher) :=
    if ret =? 1
    then meth_set ok call_set_ctrl (with_ctrl fn_we_aes_gcm_ctrl) cipher
    else (ret, cipher) in
  if ret =? 1
  then meth_set ok call_set_impl_ctx_size
         (with_impl_ctx_size sizeof_we_AesGcm) cipher
  else (ret, cipher).

(** The three global method pointers of [aes_gcm.c]. *)
Record gcm_methods : Type := {
  we_aes128_gcm_ciph : option EVP_CIPHER;
  we_aes192_gcm_ciph : option EVP_CIPHER;
  we_aes256_gcm_ciph : option EVP_CIPHER
}.

Definition AES_128_KEY_SIZE : Z := 16.
Definition AES_192_KEY_SIZE : Z := 24.
Definition AES_256_KEY_SIZE : Z := 32.

(** "if (ret == 1) ret = we_init_aesgcm_meth(p)" on a pointer that is not
    NULL when [ret == 1]. *)
Definition init_meth_if (ok : nid -> meth_call -> bool) (ret : Z)
    (p : option EVP_CIPHER) : Z * option EVP_CIPHER :=
  if ret =? 1
  then match p with
       | Some m => let '(r, m) := we_init_aesgcm_meth ok m in (r, Some m)
       | None => (ret, p)
       end
  else (ret, p).

(** "Cleanup": [if ((ret == 0) && (p != NULL)) { free(p); p = NULL; }]. *)
Definition free_on_failure (ret : Z) (p : option EVP_CIPHER)
  : option EVP_CIPHER :=
  if ret =? 0 then None else p.

Definition we_init_aesgcm_meths (ok : nid -> meth_call -> bool)
    (g : gcm_methods) : Z * gcm_methods :=
  (* AES128-GCM *)
  let c128 := EVP_CIPHER_meth_new ok NID_aes_128_gcm 1 AES_128_KEY_SIZE in
  let ret := match c128 with None => 0 | Some _ => 1 end in
  let '(ret, c128) := init_meth_if ok ret c128 in
  (* AES192-GCM *)
  let '(ret, c192) :=
    if ret =? 1
    then
      let c := EVP_CIPHER_meth_new ok NID_aes_192_gcm 1 AES_192_KEY_SIZE in
      (match c with None => 0 | Some _ => ret end, c)
    else (ret, we_aes192_gcm_ciph g) in
  let '(ret, c192) := init_meth_if ok ret c192 in
  (* AES256-GCM *)
  let '(ret, c256) :=
    if ret =? 1
    then
      let c := EVP_CIPHER_meth_new ok NID_aes_256_gcm 1 AES_256_KEY_SIZE in
      (match c with None => 0 | Some _ => ret end, c)
    else (ret, we_aes256_gcm_ciph g) in
  let '(ret, c256) := init_meth_if ok ret c256 in
  (* Cleanup *)
  (ret, {| we_aes128_gcm_ciph := free_on_failure ret c128;
           we_aes192_gcm_ciph := free_on_failure ret c192;
           we_aes256_gcm_ciph := free_on_failure ret c256 |}).

(** The AES-GCM method the engine means to register for [n] with key size
    [k]. *)
Definition gcm_method (n : nid) (k : Z) : EVP_CIPHER :=
  {| meth_nid := n; meth_block_size := 1; meth_key_len := k;
     meth_iv_length := GCM_NONCE_MID_SZ; meth_flags := AES_GCM_FLAGS;
     meth_init := Some fn_we_aes_gcm_init;
     meth_do_cipher := Some fn_we_aes_gcm_cipher;
     meth_ctrl := Some fn_we_aes_gcm_ctrl;
     meth_impl_ctx_size := Some sizeof_we_AesGcm |}.

(** The calls of a run in which nothing fails. *)
Definition gcm_nids : list nid :=
  [NID_aes_128_gcm; NID_aes_192_gcm; NID_aes_256_gcm].

Definition meth_calls : list meth_call :=
  [call_meth_new; call_set_iv_length; call_set_flags; call_set_init;
   call_set_do_cipher; call_set_ctrl; call_set_impl_ctx_size].

Definition all_calls_ok (ok : nid -> meth_call -> bool) : bool :=
  forallb (fun n => forallb (ok n) meth_calls) gcm_nids.

(** *** The tables and look-ups of [src/internal.c] *)

(** wolfCrypt's hash types. *)
Inductive wc_HashType : Type :=
| WC_HASH_TYPE_NONE
| WC_HASH_TYPE_SHA
| WC_HASH_TYPE_SHA224
| WC_HASH_TYPE_SHA256
| WC_HASH_TYPE_SHA384
| WC_HASH_TYPE_SHA512
| WC_HASH_TYPE_SHA3_224
| WC_HASH_TYPE_SHA3_256
| WC_HASH_TYPE_SHA3_384
| WC_HASH_TYPE_SHA3_512.

(** What a look-up stores through its output pointers: the table of NIDs
    (through [nids]) or a method pointer, possibly NULL (through [digest],
    [cipher] or [pkey]). *)
Inductive lookup_out (M : Type) : Type :=
| out_nids (l : list nid)
| out_method (m : option M).
Arguments out_nids {M} l.
Arguments out_method {M} m.

Definition we_pkey_nids (cfg : we_config) : list nid :=
  ifdef (WE_HAVE_RSA cfg) [NID_rsaEncryption]
  ++ ifdef (WE_HAVE_ECC cfg)
       ([NID_X9_62_id_ecPublicKey]
        ++ ifdef (WE_HAVE_ECKEYGEN cfg)
             (ifdef (WE_HAVE_EC_P256 cfg) [NID_X9_62_prime256v1]
              ++ ifdef (WE_HAVE_EC_P384 cfg) [NID_secp384r1])).

(** [we_pkey_get_nids]: the number of entries of the table, and the table. *)
Definition we_pkey_get_nids (cfg : we_config) : Z * list nid :=
  (Z.of_nat (length (we_pkey_nids cfg)), we_pkey_nids cfg).

Definition we_digest_nids (cfg : we_config) : list nid :=
  ifdef (WE_HAVE_SHA1 cfg) [NID_sha1]
  ++ ifdef (WE_HAVE_SHA224 cfg) [NID_sha224]
  ++ ifdef (WE_HAVE_SHA256 cfg) [NID_sha256]
  ++ ifdef (WE_HAVE_SHA384 cfg) [NID_sha384]
  ++ ifdef (WE_HAVE_SHA512 cfg) [NID_sha512]
  ++ ifdef (WE_HAVE_SHA3_224 cfg) [NID_sha3_224]
  ++ ifdef (WE_HAVE_SHA3_256 cfg) [NID_sha3_256]
  ++ ifdef (WE_HAVE_SHA3_384 cfg) [NID_sha3_384]
  ++ ifdef (WE_HAVE_SHA3_512 cfg) [NID_sha3_512].

Definition we_cipher_nids (cfg : we_config) : list nid :=
  ifdef (WE_HAVE_DES3CBC cfg) [NID_des_ede3_cbc]
  ++ ifdef (WE_HAVE_AESECB cfg)
       [NID_aes_128_ecb; NID_aes_192_ecb; NID_aes_256_ecb]
  ++ ifdef (WE_HAVE_AESCBC cfg)
       [NID_aes_128_cbc; NID_aes_192_cbc; NID_aes_256_cbc]
  ++ ifdef (WE_HAVE_AESCTR cfg)
       [NID_aes_128_ctr; NID_aes_192_ctr; NID_aes_256_ctr]
  ++ ifdef (WE_HAVE_AESGCM cfg)
       [NID_aes_128_gcm; NID_aes_192_gcm; NID_aes_256_gcm]
  ++ ifdef (WE_HAVE_AESCCM cfg)
       [NID_aes_128_ccm; NID_aes_192_ccm; NID_aes_256_ccm].

(** The hash type [we_nid_to_wc_hash_oid] selects before it calls
    [wc_HashGetOID]; a [case] compiled out leaves [WC_HASH_TYPE_NONE]. *)
Definition nid_hash_type (cfg : we_config) (n : nid) : wc_HashType :=
  match n with
  | NID_sha1 =>
      if WE_HAVE_SHA1 cfg then WC_HASH_TYPE_SHA else WC_HASH_TYPE_NONE
  | NID_sha224 =>
      if WE_HAVE_SHA224 cfg then WC_HASH_TYPE_SHA224 else WC_HASH_TYPE_NONE
  | NID_sha256 =>
      if WE_HAVE_SHA256 cfg then WC_HASH_TYPE_SHA256 else WC_HASH_TYPE_NONE
  | NID_sha384 =>
      if WE_HAVE_SHA384 cfg then WC_HASH_TYPE_SHA384 else WC_HASH_TYPE_NONE
  | NID_sha512 =>
      if WE_HAVE_SHA512 cfg then WC_HASH_TYPE_SHA512 else WC_HASH_TYPE_NONE
  | NID_sha3_224 =>
      if WE_HAVE_SHA3_224 cfg then WC_HASH_TYPE_SHA3_224
      else WC_HASH_TYPE_NONE
  | NID_sha3_256 =>
      if WE_HAVE_SHA3_256 cfg then WC_HASH_TYPE_SHA3_256
      else WC_HASH_TYPE_NONE
  | NID_sha3_384 =>
      if WE_HAVE_SHA3_384 cfg then WC_HASH_TYPE_SHA3_384
      else WC_HASH_TYPE_NONE
  | NID_sha3_512 =>
      if WE_HAVE_SHA3_512 cfg then WC_HASH_TYPE_SHA3_512
      else WC_HASH_TYPE_NONE
  | _ => WC_HASH_TYPE_NONE
  end.

(** [we_nid_to_wc_hash_oid], over wolfCrypt's [wc_HashGetOID]. *)
Definition we_nid_to_wc_hash_oid (wc_HashGetOID : wc_HashType -> Z)
    (cfg : we_config) (n : nid) : Z :=
  wc_HashGetOID (nid_hash_type cfg n).

(** The global cipher method pointers [we_ciphers] reads. *)
Record cipher_methods : Type := {
  we_des3_cbc_ciph : option EVP_CIPHER;
  we_aes128_ecb_ciph : option EVP_CIPHER;
  we_aes192_ecb_ciph : option EVP_CIPHER;
  we_aes256_ecb_ciph : option EVP_CIPHER;
  we_aes128_cbc_ciph : option EVP_CIPHER;
  we_aes192_cbc_ciph : option EVP_CIPHER;
  we_aes256_cbc_ciph : option EVP_CIPHER;
  we_aes128_ctr_ciph : option EVP_CIPHER;
  we_aes192_ctr_ciph : option EVP_CIPHER;
  we_aes256_ctr_ciph : option EVP_CIPHER;
  we_gcm_ciphs : gcm_methods;
  we_aes128_ccm_ciph : option EVP_CIPHER;
  we_aes192_ccm_ciph : option EVP_CIPHER;
  we_aes256_ccm_ciph : option EVP_CIPHER
}.

(** A [case] under [#ifdef]: compiled out, the value falls to [default]. *)
Definition case_ifdef {M : Type} (b : bool) (m : option M)
  : Z * lookup_out M :=
  if b then (1, out_method m) else (0, out_method None).

(** [we_ciphers]; [cipher_is_null] tells whether [cipher == NULL]. *)
Definition we_ciphers (cfg : we_config) (g : cipher_methods)
    (cipher_is_null : bool) (n : nid) : Z * lookup_out EVP_CIPHER :=
  if cipher_is_null
  then (Z.of_nat (length (we_cipher_nids cfg)), out_nids (we_cipher_nids cfg))
  else
    match n with
    | NID_des_ede3_cbc =>
        case_ifdef (WE_HAVE_DES3CBC cfg) (we_des3_cbc_ciph g)
    | NID_aes_128_ecb => case_ifdef (WE_HAVE_AESECB cfg) (we_aes128_ecb_ciph g)
    | NID_aes_192_ecb => case_ifdef (WE_HAVE_AESECB cfg) (we_aes192_ecb_ciph g)
    | NID_aes_256_ecb => case_ifdef (WE_HAVE_AESECB cfg) (we_aes256_ecb_ciph g)
    | NID_aes_128_cbc => case_ifdef (WE_HAVE_AESCBC cfg) (we_aes128_cbc_ciph g)
    | NID_aes_192_cbc => case_ifdef (WE_HAVE_AESCBC cfg) (we_aes192_cbc_ciph g)
    | NID_aes_256_cbc => case_ifdef (WE_HAVE_AESCBC cfg) (we_aes256_cbc_ciph g)
    | NID_aes_128_ctr => case_ifdef (WE_HAVE_AESCTR cfg) (we_aes128_ctr_ciph g)
    | NID_aes_192_ctr => case_ifdef (WE_HAVE_AESCTR cfg) (we_aes192_ctr_ciph g)
    | NID_aes_256_ctr => case_ifdef (WE_HAVE_AESCTR cfg) (we_aes256_ctr_ciph g)
    | NID_aes_128_gcm =>
        case_ifdef (WE_HAVE_AESGCM cfg) (we_aes128_gcm_ciph (we_gcm_ciphs g))
    | NID_aes_192_gcm =>
        case_ifdef (WE_HAVE_AESGCM cfg) (we_aes192_gcm_ciph (we_gcm_ciphs g))
    | NID_aes_256_gcm =>
        case_ifdef (WE_HAVE_AESGCM cfg) (we_aes256_gcm_ciph (we_gcm_ciphs g))
    | NID_aes_128_ccm => case_ifdef (WE_HAVE_AESCCM cfg) (we_aes128_ccm_ciph g)
    | NID_aes_192_ccm => case_ifdef (WE_HAVE_AESCCM cfg) (we_aes192_ccm_ciph g)
    | NID_aes_256_ccm => case_ifdef (WE_HAVE_AESCCM cfg) (we_aes256_ccm_ciph g)
    | _ => (0, out_method None)
    end.

Section Methods.
Variables EVP_MD EVP_PKEY_METHOD : Type.

(** The global digest method pointers [we_digests] reads. *)
Record digest_methods : Type := {
  we_sha1_md : option EVP_MD;
  we_sha224_md : option EVP_MD;
  we_sha256_md : option EVP_MD;
  we_sha384_md : option EVP_MD;
  we_sha512_md : option EVP_MD;
  we_sha3_224_md : option EVP_MD;
  we_sha3_256_md : option EVP_MD;
  we_sha3_384_md : option EVP_MD;
  we_sha3_512_md : option EVP_MD
}.

(** [we_digests]; [digest_is_null] tells whether [digest == NULL]. *)
Definition we_digests (cfg : we_config) (g : digest_methods)
    (digest_is_null : bool) (n : nid) : Z * lookup_out EVP_MD :=
  if digest_is_null
  then (Z.of_nat (length (we_digest_nids cfg)), out_nids (we_digest_nids cfg))
  else
    match n with
    | NID_sha1 => case_ifdef (WE_HAVE_SHA1 cfg) (we_sha1_md g)
    | NID_sha224 => case_ifdef (WE_HAVE_SHA224 cfg) (we_sha224_md g)
    | NID_sha256 => case_ifdef (WE_HAVE_SHA256 cfg) (we_sha256_md g)
    | NID_sha384 => case_ifdef (WE_HAVE_SHA384 cfg) (we_sha384_md g)
    | NID_sha512 => case_ifdef (WE_HAVE_SHA512 cfg) (we_sha512_md g)
    | NID_sha3_224 => case_ifdef (WE_HAVE_SHA3_224 cfg) (we_sha3_224_md g)
    | NID_sha3_256 => case_ifdef (WE_HAVE_SHA3_256 cfg) (we_sha3_256_md g)
    | NID_sha3_384 => case_ifdef (WE_HAVE_SHA3_384 cfg) (we_sha3_384_md g)
    | NID_sha3_512 => case_ifdef (WE_HAVE_SHA3_512 cfg) (we_sha3_512_md g)
    | _ => (0, out_method None)
    end.

(** The global public key method pointers [we_pkey] reads. *)
Record pkey_methods : Type := {
  we_rsa_pkey_method : option EVP_PKEY_METHOD;
  we_ec_method : option EVP_PKEY_METHOD;
  we_ec_p256_method : option EVP_PKEY_METHOD;
  we_ec_p384_method : option EVP_PKEY_METHOD
}.

(** [we_pkey]; the [case] of [NID_X9_62_id_ecPublicKey] stands outside any
    [#ifdef], those of the two curves test [WE_HAVE_ECKEYGEN] and the curve
    only. *)
Definition we_pkey (cfg : we_config) (g : pkey_methods)
    (pkey_is_null : bool) (n : nid) : Z * lookup_out EVP_PKEY_METHOD :=
  if pkey_is_null
  then let '(ret, nids) := we_pkey_get_nids cfg in (ret, out_nids nids)
  else
    match n with
    | NID_rsaEncryption => case_ifdef (WE_HAVE_RSA cfg) (we_rsa_pkey_method g)
    | NID_X9_62_id_ecPublicKey => (1, out_method (we_ec_method g))
    | NID_X9_62_prime256v1 =>
        case_ifdef (WE_HAVE_ECKEYGEN cfg && WE_HAVE_EC_P256 cfg)
          (we_ec_p256_method g)
    | NID_secp384r1 =>
        case_ifdef (WE_HAVE_ECKEYGEN cfg && WE_HAVE_EC_P384 cfg)
          (we_ec_p384_method g)
    | _ => (0, out_method None)
    end.

End Methods.
Arguments we_sha1_md {EVP_MD} _.
Arguments we_digests {EVP_MD} cfg g digest_is_null n.
Arguments we_pkey {EVP_PKEY_METHOD} cfg g pkey_is_null n.

(** *** [we_init_random] *)

Section Random.
Variable Rng : Type.
(** [wc_InitRng(&rng)]: the status and the generator it leaves. *)
Variable wc_InitRng : Rng -> Z * Rng.

(** The globals [we_globalRng] and [we_globalRngInited]. *)
Record rng_state : Type := {
  we_globalRng : Rng;
  we_globalRngInited : Z
}.

Definition we_init_random (st : rng_state) : Z * rng_state :=
  if we_globalRngInited st =? 0 then
    let '(rc, r) := wc_InitRng (we_globalRng st) in
    let ret := if rc =? 0 then 1 else 0 in
    (ret,
     {| we_globalRng := r;
        we_globalRngInited := if ret =? 1 then 1 else we_globalRngInited st |})
  else (1, st).

End Random.
Arguments we_globalRng {Rng} _.
Arguments we_globalRngInited {Rng} _.
Arguments we_init_random {Rng} wc_InitRng st.

(** ** Invariants of a session *)

Section Shape.
Context {W : WolfCrypt}.

(** The arrays [iv] and [tag] have their declared 16 bytes and the two
    lengths stay within them. *)
Definition session_shape (s : we_AesGcm) : Prop :=
  length (iv s) = 16%nat /\ length (tag s) = 16%nat
  /\ 0 <= ivLen s <= 16 /\ 0 <= tagLen s <= 16.

(** What neither a control command nor a cipher call changes, and what
    they keep. *)
Definition session_kept (s s' : we_AesGcm) : Prop :=
  enc s' = enc s /\ init s' = init s
  /\ (tls s = true -> tls s' = true)
  /\ (session_shape s -> session_shape s').

End Shape.

(** ** A stand-in primitive

    Enough of an AEAD to run the engine on concrete inputs: the cipher text is
    the plain text, every tag byte is a checksum of the AAD and the text, and
    decryption refuses any other tag with [AES_GCM_AUTH_E] (-180), leaving
    the output as it was. *)

Definition AES_GCM_AUTH_E : Z := -180.

Definition stub_copy (o i : buffer) : buffer := firstn (length o) (i ++ o).

Definition stub_sum (l : buffer) : byte :=
  to_uchar (fold_left (fun acc b => acc + byte_to_Z b) l 42).

Definition stub_tag (t d i : buffer) : buffer :=
  repeat (stub_sum (d ++ i)) (length t).

Definition stub_tag_ok (t d i : buffer) : bool :=
  forallb (Byte.eqb (stub_sum (d ++ i))) t.

Definition stub_encrypt (a : unit) (o i v t d : buffer)
  : gcm_encrypt_result unit :=
  {| enc_rc := 0; enc_aes := a; enc_out := stub_copy o i; enc_iv := v;
     enc_tag := stub_tag t d i |}.

Definition stub_decrypt (a : unit) (o i v t d : buffer)
  : gcm_decrypt_result unit :=
  if stub_tag_ok t d i
  then {| dec_rc := 0; dec_aes := a; dec_out := stub_copy o i |}
  else {| dec_rc := AES_GCM_AUTH_E; dec_aes := a; dec_out := o |}.

#[export] Instance stub_wolfcrypt : WolfCrypt.
Proof.
  refine {| Aes := unit;
            WC_RNG := unit;
            we_rng := tt;
            openssl_before_3 := true;
            aes_reg := fun _ => repeat x00 16;
            wc_AesGcmSetKey := fun a _ _ => (0, a);
            wc_AesGcmSetExtIV := fun a _ => (0, a);
            wc_AesGcmSetIV := fun a _ _ _ _ => (0, a);
            wc_AesGcmEncrypt_ex := stub_encrypt;
            wc_AesGcmDecrypt := stub_decrypt |}.
  - reflexivity.
  - intros; simpl; unfold stub_copy.
    rewrite length_firstn, length_app; lia.
  - reflexivity.
  - intros; simpl; apply repeat_length.
  - intros; unfold stub_decrypt, stub_copy.
    destruct (stub_tag_ok t d i); simpl; [ | reflexivity ].
    rewrite length_firstn, length_app; lia.
Defined.

(** A session of the stand-in primitive: direction [e], mode [t], nonce [v]
    of 12 bytes, a tag of [tl] zero bytes, and AAD [a] of length [n]. *)
Definition stub_session (e t : bool) (v : buffer) (tl : Z)
    (a : option buffer) (n : Z) : @we_AesGcm stub_wolfcrypt :=
  {| aes := tt; iv := v; ivLen := 12; ivSet := 0;
     tag := repeat x00 16; tagLen := tl; aad := a; aadLen := n;
     init := true; enc := e; tls := t |}.

Definition zero_iv : buffer := repeat x00 16.

(** Bytes 1 to 16, a nonce whose explicit part is 5 to 12. *)
Definition counting_iv : buffer :=
  [x01; x02; x03; x04; x05; x06; x07; x08;
   x09; x0a; x0b; x0c; x0d; x0e; x0f; x10].

Definition stub_ctx (s : @we_AesGcm stub_wolfcrypt)
  : @EVP_CIPHER_CTX stub_wolfcrypt :=
  {| cipher_data := Some s; ctx_iv := repeat x00 16; key_length := 16 |}.

(** The stand-in primitive with a [wc_AesGcmSetExtIV] that refuses every
    nonce with [BAD_FUNC_ARG] (-173). *)
Definition BAD_FUNC_ARG : Z := -173.

Definition refusing_wolfcrypt : WolfCrypt :=
  {| Aes := unit;
     WC_RNG := unit;
     we_rng := tt;
     openssl_before_3 := true;
     aes_reg := fun _ => repeat x00 16;
     wc_AesGcmSetKey := fun a _ _ => (0, a);
     wc_AesGcmSetExtIV := fun a _ => (BAD_FUNC_ARG, a);
     wc_AesGcmSetIV := fun a _ _ _ _ => (0, a);
     wc_AesGcmEncrypt_ex := stub_encrypt;
     wc_AesGcmDecrypt := stub_decrypt;
     aes_reg_length := @aes_reg_length stub_wolfcrypt;
     enc_out_length := @enc_out_length stub_wolfcrypt;
     enc_iv_length := @enc_iv_length stub_wolfcrypt;
     enc_tag_length := @enc_tag_length stub_wolfcrypt;
     dec_out_length := @dec_out_length stub_wolfcrypt |}.

(** A build with every option on. *)
Definition full_config : we_config :=
  {| WE_HAVE_SHA1 := true; WE_HAVE_SHA224 := true; WE_HAVE_SHA256 := true;
     WE_HAVE_SHA384 := true; WE_HAVE_SHA512 := true;
     WE_HAVE_SHA3_224 := true; WE_HAVE_SHA3_256 := true;
     WE_HAVE_SHA3_384 := true; WE_HAVE_SHA3_512 := true;
     WE_HAVE_DES3CBC := true; WE_HAVE_AESECB := true;
     WE_HAVE_AESCBC := true; WE_HAVE_AESCTR := true;
     WE_HAVE_AESGCM := true; WE_HAVE_AESCCM := true;
     WE_HAVE_RSA := true; WE_HAVE_ECC := true; WE_HAVE_ECKEYGEN := true;
     WE_HAVE_EC_P256 := true; WE_HAVE_EC_P384 := true |}.

(** * Properties *)

(** ** Bytes *)

Lemma byte_to_Z_range (b : byte) : 0 <= byte_to_Z b < 256.
Proof.
  unfold byte_to_Z. pose proof (Byte.to_N_bounded b). lia.
Qed.

Lemma byte_to_Z_to_uchar (z : Z) : byte_to_Z (to_uchar z) = z mod 256.
Proof.
  unfold byte_to_Z, to_uchar.
  assert (Hr : 0 <= z mod 256 < 256) by (apply Z.mod_pos_bound; lia).
  destruct (Byte.of_N (Z.to_N (z mod 256))) as [b|] eqn:E.
  - apply Byte.to_of_N in E. rewrite E. lia.
  - apply Byte.of_N_None_iff in E. lia.
Qed.

Lemma to_uchar_byte_to_Z (b : byte) : to_uchar (byte_to_Z b) = b.
Proof.
  unfold to_uchar.
  rewrite Z.mod_small by apply byte_to_Z_range.
  unfold byte_to_Z. rewrite N2Z.id, Byte.of_to_N. reflexivity.
Qed.

Lemma to_uchar_mod (z : Z) : to_uchar (z mod 256) = to_uchar z.
Proof.
  unfold to_uchar. rewrite Z.mod_mod by lia. reflexivity.
Qed.

(** ** Outcomes and buffers *)

Lemma bind_Ok_inv {A B : Type} (r : result A) (k : A -> result B) (b : B) :
  bind r k = Ok b -> exists a, r = Ok a /\ k a = Ok b.
Proof.
  destruct r as [a|]; simpl; intros H; [ eauto | discriminate ].
Qed.

Lemma load_ok (buf : buffer) (off n : Z) :
  0 <= off -> 0 <= n -> off + n <= Z.of_nat (length buf) ->
  load buf off n = Ok (firstn (Z.to_nat n) (skipn (Z.to_nat off) buf)).
Proof.
  intros H1 H2 H3. unfold load, in_bounds.
  assert (E1 : (0 <=? off) = true) by lia.
  assert (E2 : (0 <=? n) = true) by lia.
  assert (E3 : (off + n <=? Z.of_nat (length buf)) = true) by lia.
  rewrite E1, E2, E3. reflexivity.
Qed.

Lemma load_whole (buf : buffer) (n : Z) :
  0 <= n <= Z.of_nat (length buf) ->
  load buf 0 n = Ok (firstn (Z.to_nat n) buf).
Proof.
  intros H. rewrite load_ok by lia. reflexivity.
Qed.

Lemma store_ok (buf : buffer) (off : Z) (data : buffer) :
  0 <= off -> off + Z.of_nat (length data) <= Z.of_nat (length buf) ->
  store buf off data =
  Ok (firstn (Z.to_nat off) buf ++ data
        ++ skipn (Z.to_nat off + length data) buf).
Proof.
  intros H1 H2. unfold store, in_bounds.
  assert (E1 : (0 <=? off) = true) by lia.
  assert (E2 : (0 <=? Z.of_nat (length data)) = true) by lia.
  assert (E3 : (off + Z.of_nat (length data) <=? Z.of_nat (length buf))
               = true) by lia.
  rewrite E1, E2, E3. reflexivity.
Qed.

Lemma to_int_small (z : Z) : - 2 ^ 31 <= z < 2 ^ 31 -> to_int z = z.
Proof.
  intros H. unfold to_int. rewrite Z.mod_small by lia. lia.
Qed.

Lemma to_word32_small (z : Z) : 0 <= z < 2 ^ 32 -> to_word32 z = z.
Proof.
  intros H. unfold to_word32. apply Z.mod_small. lia.
Qed.

Lemma store_whole (buf data : buffer) :
  (length data <= length buf)%nat ->
  store buf 0 data = Ok (data ++ skipn (length data) buf).
Proof.
  intros H. rewrite store_ok by lia. reflexivity.
Qed.

Lemma load_middle (l1 l2 l3 : buffer) :
  load (l1 ++ l2 ++ l3) (Z.of_nat (length l1)) (Z.of_nat (length l2)) = Ok l2.
Proof.
  rewrite load_ok by (rewrite ?length_app; lia).
  rewrite !Nat2Z.id, skipn_app, skipn_all, Nat.sub_diag, skipn_O, app_nil_l.
  rewrite firstn_app, firstn_all, Nat.sub_diag, firstn_O, app_nil_r.
  reflexivity.
Qed.

Lemma store_middle (l1 l2 l3 data : buffer) :
  length data = length l2 ->
  store (l1 ++ l2 ++ l3) (Z.of_nat (length l1)) data = Ok (l1 ++ data ++ l3).
Proof.
  intros Hd. rewrite store_ok by (rewrite ?length_app; lia).
  rewrite Nat2Z.id, firstn_app, firstn_all, Nat.sub_diag, firstn_O, app_nil_r.
  rewrite skipn_app, skipn_all2 by lia. rewrite app_nil_l.
  rewrite skipn_app, skipn_all2 by lia. rewrite app_nil_l.
  replace (length l1 + length data - length l1 - length l2)%nat with 0%nat
    by lia.
  rewrite skipn_O. reflexivity.
Qed.

(** Side conditions on lengths of concatenated and cut buffers. *)
Ltac buf_lia :=
  repeat rewrite ?length_app, ?repeat_length, ?length_firstn, ?length_skipn;
  simpl length; lia.

(** ** The one-shot payload call *)

Section OneShot.
Context {W : WolfCrypt}.

Lemma tls_cipher_disposes (s s' : we_AesGcm) (out out' : option buffer)
    (inp : buffer) (len ret : Z) :
  we_aes_gcm_tls_cipher s out inp len = Ok (ret, s', out') ->
  aad s' = None /\ aadLen s' = 0.
Proof.
  unfold we_aes_gcm_tls_cipher. intros H.
  apply bind_Ok_inv in H. destruct H as [[[r1 s1] o1] [_ H]].
  injection H as _ <- _. split; reflexivity.
Qed.

(** A one-shot payload call on buffers of at least [len] bytes, from a
    session whose regions are valid, returns; it returns [len] and leaves no
    AAD, whatever wolfCrypt answered. *)
Lemma one_shot_payload_returns (alloc : bool) (ctx : EVP_CIPHER_CTX)
    (s : we_AesGcm) (o inp d : buffer) (len : Z) :
  cipher_data ctx = Some s ->
  tls s = false ->
  0 < len < 2 ^ 31 ->
  len <= Z.of_nat (length o) ->
  len <= Z.of_nat (length inp) ->
  length (iv s) = 16%nat ->
  length (tag s) = 16%nat ->
  0 <= ivLen s <= 16 ->
  0 <= tagLen s <= 16 ->
  load_ptr (aad s) (aadLen s) = Ok d ->
  exists s' o',
    we_aes_gcm_cipher alloc ctx (Some o) inp len =
      Ok (len, set_cipher_data ctx s', Some o')
    /\ aad s' = None /\ aadLen s' = 0.
Proof.
  intros Hs Htls Hlen Ho Hi Hiv Htag Hivl Htagl Haad.
  unfold we_aes_gcm_cipher. rewrite Hs, Htls.
  assert (E0 : (len =? 0) = false) by lia.
  assert (E1 : (0 <? len) = true) by lia.
  rewrite E0, E1, (to_int_small len) by lia.
  assert (Hdone : forall r : result (Z * we_AesGcm * buffer),
             (exists x, r = Ok x) ->
             exists s' o',
               (let* (_, s0, o0) := r in
                Ok (len, set_cipher_data ctx (dispose_aad s0), Some o0))
               = Ok (len, set_cipher_data ctx s', Some o')
               /\ aad s' = None /\ aadLen s' = 0).
  { intros r [[[r0 s0] o0] ->]. exists (dispose_aad s0), o0.
    repeat split. }
  apply Hdone. clear Hdone.
  destruct (enc s) eqn:Henc.
  - unfold gcm_encrypt.
    assert (Hext : exists ret s1,
               (if ivSet s =? 0
                then
                  let* p_iv := load (iv s) 0 (ivLen s) in
                  let '(rc, a) := wc_AesGcmSetExtIV (aes s) p_iv in
                  Ok (if negb (rc =? 0) then 0 else 1, set_aes s a)
                else Ok (1, s)) = Ok (ret, s1)
               /\ iv s1 = iv s /\ ivLen s1 = ivLen s /\ tag s1 = tag s
               /\ aad s1 = aad s /\ aadLen s1 = aadLen s).
    { destruct (ivSet s =? 0).
      - rewrite load_whole by lia. cbn [bind].
        destruct (wc_AesGcmSetExtIV (aes s) _) as [rc a].
        eexists _, _. repeat split.
      - eexists _, _. repeat split. }
    destruct Hext as [ret [s1 [-> [Hiv1 [Hivl1 [Htag1 [Haad1 Haadl1]]]]]]].
    cbn [bind]. destruct (ret =? 1) eqn:Eret.
    + rewrite to_word32_small by lia.
      cbn [iv ivLen tag tagLen aad aadLen set_tagLen].
      rewrite Hiv1, Hivl1, Htag1, Haad1, Haadl1.
      change EVP_GCM_TLS_TAG_LEN with 16.
      rewrite !load_whole by lia. cbn [bind]. rewrite Haad. cbn [bind].
      match goal with
      | |- context [wc_AesGcmEncrypt_ex ?a ?x1 ?x2 ?x3 ?x4 ?x5] =>
          set (r := wc_AesGcmEncrypt_ex a x1 x2 x3 x4 x5);
          assert (Hro : length (enc_out r) = length x1)
            by apply enc_out_length;
          assert (Hrv : length (enc_iv r) = length x3)
            by apply enc_iv_length;
          assert (Hrt : length (enc_tag r) = length x4)
            by apply enc_tag_length
      end.
      rewrite length_firstn in Hro, Hrv, Hrt.
      rewrite !store_whole by lia. cbn [bind].
      destruct (negb (enc_rc r =? 0)).
      * cbn [bind]. eexists. reflexivity.
      * change (1 =? 1) with true. cbv iota. unfold XMEMCPY.
        cbn [aes iv ivLen set_tag set_iv set_aes set_tagLen].
        rewrite Hivl1.
        rewrite load_whole by (rewrite aes_reg_length; lia). cbn [bind].
        rewrite store_whole. { cbn [bind]. eexists. reflexivity. }
        rewrite length_firstn, length_app, length_skipn.
        pose proof (aes_reg_length (enc_aes r)). lia.
    + cbn [bind]. rewrite Eret. cbn [bind]. eexists. reflexivity.
  - unfold gcm_decrypt. rewrite to_word32_small by lia.
    rewrite !load_whole by lia. cbn [bind]. rewrite Haad. cbn [bind].
    match goal with
    | |- context [wc_AesGcmDecrypt ?a ?x1 ?x2 ?x3 ?x4 ?x5] =>
        set (r := wc_AesGcmDecrypt a x1 x2 x3 x4 x5);
        assert (Hro : length (dec_out r) = length x1)
          by apply dec_out_length
    end.
    rewrite length_firstn in Hro.
    rewrite store_whole by lia. cbn [bind].
    destruct (negb (dec_rc r =? 0)).
    + cbn [bind]. eexists. reflexivity.
    + change (1 =? 1) with true. cbv iota. unfold XMEMCPY.
      cbn [aes iv ivLen set_aes].
      rewrite load_whole by (rewrite aes_reg_length; lia). cbn [bind].
      rewrite store_whole. { cbn [bind]. eexists. reflexivity. }
      rewrite length_firstn. pose proof (aes_reg_length (dec_aes r)). lia.
Qed.

(** C5 (amended).  A payload call that reaches the cipher - any call of a
    TLS-record session, or a one-shot call with an output buffer and a
    non-zero length - leaves the session with no AAD ([aad] NULL, [aadLen]
    0), whatever wolfCrypt answered; and the one-shot call does return when
    its buffers hold [len] bytes and the regions of the session are
    valid. *)
Theorem payload_call_disposes_aad (alloc : bool) (ctx : EVP_CIPHER_CTX)
    (s : we_AesGcm) (out : option buffer) (inp : buffer) (len : Z) :
  cipher_data ctx = Some s ->
  tls s = true \/ (out <> None /\ 0 < len) ->
  (forall ret ctx' out',
     we_aes_gcm_cipher alloc ctx out inp len = Ok (ret, ctx', out') ->
     exists s', cipher_data ctx' = Some s' /\ aad s' = None /\ aadLen s' = 0)
  /\ (forall o d,
       tls s = false -> out = Some o -> len < 2 ^ 31 ->
       len <= Z.of_nat (length o) -> len <= Z.of_nat (length inp) ->
       length (iv s) = 16%nat -> length (tag s) = 16%nat ->
       0 <= ivLen s <= 16 -> 0 <= tagLen s <= 16 ->
       load_ptr (aad s) (aadLen s) = Ok d ->
       exists ret ctx' out',
         we_aes_gcm_cipher alloc ctx out inp len = Ok (ret, ctx', out')).
Proof.
  intros Hs Hcall. split.
  - intros ret ctx' out'. unfold we_aes_gcm_cipher. rewrite Hs.
    destruct (tls s) eqn:Htls.
    + intros H. apply bind_Ok_inv in H. destruct H as [[[r1 s1] o1] [Ht H]].
      injection H as _ <- _. exists s1. split; [ reflexivity | ].
      eapply tls_cipher_disposes; eassumption.
    + destruct Hcall as [Hcall | [Hout Hlen]]; [ discriminate | ].
      destruct out as [o|]; [ | contradiction ].
      assert (E0 : (len =? 0) = false) by lia.
      assert (E1 : (0 <? len) = true) by lia.
      rewrite E0, E1. intros H.
      apply bind_Ok_inv in H. destruct H as [[[r1 s1] o1] [_ H]].
      injection H as _ <- _. exists (dispose_aad s1).
      repeat split; reflexivity.
  - intros o d Htls -> Hlen Ho Hi Hiv Htag Hivl Htagl Haad.
    destruct Hcall as [Hcall | [_ Hpos]]; [ congruence | ].
    destruct (one_shot_payload_returns alloc ctx s o inp d len)
      as [s' [o' [H _]]]; try assumption; [ lia | ].
    eauto.
Qed.

(** C6 (amended).  In one-shot mode a payload call of length 0 with an output
    buffer returns 0 and changes nothing: neither the session (its pending
    AAD included) nor the output buffer. *)
Theorem zero_length_payload_is_noop (alloc : bool) (ctx : EVP_CIPHER_CTX)
    (s : we_AesGcm) (o inp : buffer) :
  cipher_data ctx = Some s ->
  tls s = false ->
  we_aes_gcm_cipher alloc ctx (Some o) inp 0 = Ok (0, ctx, Some o).
Proof.
  intros Hs Htls. unfold we_aes_gcm_cipher. rewrite Hs, Htls. reflexivity.
Qed.

(** C1.  A one-shot decryption that wolfCrypt refuses (status other than 0,
    as on a tag mismatch) still returns [len], the value of a success, and
    hands back the output buffer as wolfCrypt left it. *)
Theorem decrypt_failure_returns_len (alloc : bool) (ctx : EVP_CIPHER_CTX)
    (s : we_AesGcm) (o inp d : buffer) (len : Z) :
  cipher_data ctx = Some s ->
  tls s = false ->
  enc s = false ->
  0 < len < 2 ^ 31 ->
  len <= Z.of_nat (length o) ->
  len <= Z.of_nat (length inp) ->
  0 <= ivLen s <= Z.of_nat (length (iv s)) ->
  0 <= tagLen s <= Z.of_nat (length (tag s)) ->
  load_ptr (aad s) (aadLen s) = Ok d ->
  let r := wc_AesGcmDecrypt (aes s)
             (firstn (Z.to_nat len) o) (firstn (Z.to_nat len) inp)
             (firstn (Z.to_nat (ivLen s)) (iv s))
             (firstn (Z.to_nat (tagLen s)) (tag s)) d in
  dec_rc r <> 0 ->
  we_aes_gcm_cipher alloc ctx (Some o) inp len =
  Ok (len,
      set_cipher_data ctx (dispose_aad (set_aes s (dec_aes r))),
      Some (dec_out r ++ skipn (Z.to_nat len) o)).
Proof.
  intros Hs Htls Henc Hlen Ho Hi Hiv Htag Haad r Hrc.
  unfold we_aes_gcm_cipher. rewrite Hs, Htls.
  assert (E0 : (len =? 0) = false) by lia.
  assert (E1 : (0 <? len) = true) by lia.
  rewrite E0, E1, Henc. unfold gcm_decrypt.
  rewrite to_word32_small by lia.
  rewrite !load_whole by lia. simpl bind. rewrite Haad. simpl bind.
  fold r.
  assert (Hout : length (dec_out r) = Z.to_nat len).
  { unfold r. rewrite dec_out_length, length_firstn. lia. }
  rewrite store_whole by lia. simpl bind.
  assert (E2 : (dec_rc r =? 0) = false) by lia.
  rewrite E2. simpl. rewrite Hout, to_int_small by lia. reflexivity.
Qed.

(** An AAD-only call in one-shot mode whose allocation succeeds appends the
    input to the stored AAD. *)
Lemma aad_call_appends (ctx : EVP_CIPHER_CTX) (s : we_AesGcm)
    (inp : buffer) :
  cipher_data ctx = Some s ->
  tls s = false ->
  aad_consistent s ->
  (0 < length inp)%nat ->
  aadLen s + Z.of_nat (length inp) < 2 ^ 31 ->
  we_aes_gcm_cipher true ctx None inp (Z.of_nat (length inp)) =
    Ok (0,
        set_cipher_data ctx
          (set_aadLen (set_aad s (Some (aad_bytes s ++ inp)))
             (aadLen s + Z.of_nat (length inp))),
        None).
Proof.
  intros Hs Htls Hc Hn Hsum. unfold aad_consistent in Hc.
  unfold we_aes_gcm_cipher. rewrite Hs, Htls.
  rewrite (to_int_small (Z.of_nat (length inp))) by lia.
  rewrite !to_int_small by lia.
  unfold OPENSSL_realloc.
  assert (E : (0 <? aadLen s + Z.of_nat (length inp)) = true) by lia.
  rewrite E. simpl andb. cbv iota.
  fold (aad_bytes s).
  assert (Hf : firstn (Z.to_nat (aadLen s + Z.of_nat (length inp)))
                 (aad_bytes s
                    ++ repeat x00
                         (Z.to_nat (aadLen s + Z.of_nat (length inp))
                          - length (aad_bytes s)))
               = aad_bytes s ++ repeat x00 (length inp)).
  { replace (Z.to_nat (aadLen s + Z.of_nat (length inp))
             - length (aad_bytes s))%nat with (length inp) by lia.
    apply firstn_all2. buf_lia. }
  rewrite Hf. unfold XMEMCPY.
  rewrite load_whole by lia. simpl bind.
  rewrite Nat2Z.id, firstn_all.
  rewrite store_ok by buf_lia.
  simpl bind.
  replace (Z.to_nat (aadLen s)) with (length (aad_bytes s)) by lia.
  rewrite firstn_app, Nat.sub_diag, firstn_all. simpl firstn.
  rewrite app_nil_r.
  rewrite skipn_all2 by buf_lia.
  rewrite app_nil_r. simpl aadLen. rewrite to_int_small by lia.
  reflexivity.
Qed.


(** C8.  In one-shot mode an AAD-only call of [n > 0] bytes returns 0 when
    the allocation succeeds (the bytes are appended) and 0 again when it
    fails (nothing changes): never [n], and the same value in both cases. *)
Theorem aad_call_returns_zero (ctx : EVP_CIPHER_CTX) (s : we_AesGcm)
    (inp : buffer) :
  cipher_data ctx = Some s ->
  tls s = false ->
  aad_consistent s ->
  (0 < length inp)%nat ->
  aadLen s + Z.of_nat (length inp) < 2 ^ 31 ->
  we_aes_gcm_cipher true ctx None inp (Z.of_nat (length inp)) =
    Ok (0,
        set_cipher_data ctx
          (set_aadLen (set_aad s (Some (aad_bytes s ++ inp)))
             (aadLen s + Z.of_nat (length inp))),
        None)
  /\ we_aes_gcm_cipher false ctx None inp (Z.of_nat (length inp)) =
    Ok (0, ctx, None).
Proof.
  intros Hs Htls Hc Hn Hsum. split.
  - apply aad_call_appends; assumption.
  - unfold we_aes_gcm_cipher. rewrite Hs, Htls. reflexivity.
Qed.

(** The context after an AAD push that succeeds, and after one more. *)
Lemma aad_push_appends (ctx : EVP_CIPHER_CTX) (s : we_AesGcm)
    (chunk : buffer) :
  cipher_data ctx = Some s ->
  tls s = false ->
  aad_consistent s ->
  (0 < length chunk)%nat ->
  aadLen s + Z.of_nat (length chunk) < 2 ^ 31 ->
  aad_push true chunk ctx = Ok (set_cipher_data ctx (with_aad s chunk)).
Proof.
  intros Hs Htls Hc Hn Hsum. unfold aad_push.
  rewrite (aad_call_appends ctx s chunk) by assumption. reflexivity.
Qed.

(** An AAD push whose allocation fails changes nothing. *)
Lemma aad_push_no_memory (ctx : EVP_CIPHER_CTX) (s : we_AesGcm)
    (chunk : buffer) :
  cipher_data ctx = Some s ->
  tls s = false ->
  aad_push false chunk ctx = Ok ctx.
Proof.
  intros Hs Htls. unfold aad_push, we_aes_gcm_cipher.
  rewrite Hs, Htls. reflexivity.
Qed.

Lemma aad_push_again (ctx : EVP_CIPHER_CTX) (s : we_AesGcm)
    (acc chunk : buffer) :
  tls s = false ->
  aad_consistent s ->
  (0 < length chunk)%nat ->
  aadLen s + Z.of_nat (length acc) + Z.of_nat (length chunk) < 2 ^ 31 ->
  aad_push true chunk (set_cipher_data ctx (with_aad s acc)) =
  Ok (set_cipher_data ctx (with_aad s (acc ++ chunk))).
Proof.
  intros Htls Hc Hn Hsum. unfold aad_consistent in Hc.
  rewrite (aad_push_appends _ (with_aad s acc) chunk);
    [ | reflexivity | exact Htls | | exact Hn | exact Hsum ].
  - unfold with_aad, set_cipher_data, set_aadLen, set_aad, aad_bytes.
    cbn [aad aadLen aes iv ivLen ivSet tag tagLen init enc tls
         cipher_data ctx_iv key_length].
    rewrite <- app_assoc, length_app, Nat2Z.inj_add, Z.add_assoc.
    reflexivity.
  - unfold aad_consistent, with_aad, aad_bytes.
    cbn [aad aadLen set_aad set_aadLen]. fold (aad_bytes s).
    rewrite length_app. lia.
Qed.

(** In TLS-record mode a call without output buffer and with fewer than 8
    input bytes is no AAD push: it dereferences NULL (encrypt) or reads the
    explicit IV past the input (decrypt). *)
Lemma aad_push_tls_undefined (alloc : bool) (ctx : EVP_CIPHER_CTX)
    (s : we_AesGcm) (chunk : buffer) :
  cipher_data ctx = Some s ->
  tls s = true ->
  (0 < length chunk < 8)%nat ->
  aad_push alloc chunk ctx = Undefined.
Proof.
  intros Hs Htls Hn. unfold aad_push, we_aes_gcm_cipher.
  rewrite Hs, Htls. unfold we_aes_gcm_tls_cipher.
  assert (E : (Z.of_nat (length chunk) =? 0) = false) by lia.
  rewrite E. cbn [negb]. destruct (enc s).
  - reflexivity.
  - unfold XMEMCPY, load, in_bounds.
    change EVP_GCM_TLS_EXPLICIT_IV_LEN with 8.
    assert (E8 : (0 + 8 <=? Z.of_nat (length chunk)) = false) by lia.
    rewrite E8, andb_false_r. reflexivity.
Qed.

(** C7.  From a session whose [aadLen] is the size of its AAD, three
    AAD-only calls with "ab", "cd" and "ef" followed by a payload call give
    what one AAD-only call with "abcdef" followed by the same payload call
    gives: the same returned value, the same output bytes and the same
    session, tag included.  The allocator serves every request of the two
    runs ([mem = true]) or none ([mem = false]). *)
Theorem aad_accumulation (mem alloc : bool) (ctx : EVP_CIPHER_CTX)
    (s : we_AesGcm) (out : option buffer) (inp : buffer) (len : Z) :
  cipher_data ctx = Some s ->
  aad_consistent s ->
  aadLen s + 6 < 2 ^ 31 ->
  (let* c1 := aad_push mem [x61; x62] ctx in
   let* c2 := aad_push mem [x63; x64] c1 in
   let* c3 := aad_push mem [x65; x66] c2 in
   we_aes_gcm_cipher alloc c3 out inp len)
  = (let* c := aad_push mem [x61; x62; x63; x64; x65; x66] ctx in
     we_aes_gcm_cipher alloc c out inp len).
Proof.
  intros Hs Hc Hsum. destruct (tls s) eqn:Htls.
  - rewrite !(aad_push_tls_undefined mem ctx s)
      by (assumption || simpl; lia).
    reflexivity.
  - destruct mem.
    + rewrite (aad_push_appends ctx s [x61; x62])
        by (assumption || simpl length; lia).
      cbn [bind].
      rewrite (aad_push_again ctx s [x61; x62] [x63; x64])
        by (assumption || simpl length; lia).
      cbn [bind].
      rewrite (aad_push_again ctx s ([x61; x62] ++ [x63; x64]) [x65; x66])
        by (assumption || simpl length; lia).
      cbn [bind].
      rewrite (aad_push_appends ctx s [x61; x62; x63; x64; x65; x66])
        by (assumption || simpl length; lia).
      reflexivity.
    + rewrite !(aad_push_no_memory ctx s) by assumption. cbn [bind].
      rewrite !(aad_push_no_memory ctx s) by assumption. cbn [bind].
      rewrite !(aad_push_no_memory ctx s) by assumption. reflexivity.
Qed.

End OneShot.

(** ** The TLS-record payload call *)

Section TlsRecord.
Context {W : WolfCrypt}.

(** C4 (amended).  An encrypt session in TLS-record mode, called on [len]
    bytes made of 8 bytes, a plaintext [pt] and 16 bytes ([len] at most
    [INT_MAX]), writes bytes 4 to 11 of its IV into the first 8 bytes of the
    output, has wolfCrypt encrypt [pt] into the next [len - 24] bytes and
    write the 16-byte tag into the last 16, leaves the output past [len]
    alone, and returns [len] when wolfCrypt succeeds and 0 when it fails;
    called with length 0 it writes nothing and returns 0.  In both cases
    the AAD is disposed of. *)
Theorem tls_encrypt_framing (alloc : bool) (ctx : EVP_CIPHER_CTX)
    (s : we_AesGcm) (oa om ot orest ia pt irest d : buffer) :
  cipher_data ctx = Some s ->
  tls s = true ->
  enc s = true ->
  length (iv s) = 16%nat ->
  0 <= ivLen s <= 16 ->
  load_ptr (aad s) (aadLen s) = Ok d ->
  length oa = 8%nat ->
  length om = length pt ->
  length ot = 16%nat ->
  length ia = 8%nat ->
  let len := 8 + Z.of_nat (length pt) + 16 in
  len < 2 ^ 31 ->
  let r := wc_AesGcmEncrypt_ex (aes s) om pt
             (firstn (Z.to_nat (ivLen s)) (iv s)) ot d in
  we_aes_gcm_cipher alloc ctx (Some (oa ++ om ++ ot ++ orest))
    (ia ++ pt ++ irest) len =
    Ok (if enc_rc r =? 0 then len else 0,
        set_cipher_data ctx
          (dispose_aad
             (set_iv (set_aes s (enc_aes r))
                (enc_iv r ++ skipn (Z.to_nat (ivLen s)) (iv s)))),
        Some (firstn 8 (skipn 4 (iv s)) ++ enc_out r ++ enc_tag r ++ orest))
  /\ length (enc_out r) = length pt
  /\ length (enc_tag r) = 16%nat
  /\ forall out inp,
       we_aes_gcm_cipher alloc ctx out inp 0 =
       Ok (0, set_cipher_data ctx (dispose_aad s), out).
Proof.
  intros Hs Htls Henc Hiv Hivlen Haad Hoa Hom Hot Hia len Hlen r.
  assert (Hro : length (enc_out r) = length om) by apply enc_out_length.
  assert (Hrt : length (enc_tag r) = length ot) by apply enc_tag_length.
  assert (Hrv : length (enc_iv r) = Z.to_nat (ivLen s)).
  { unfold r. rewrite enc_iv_length, length_firstn. lia. }
  split; [ | split; [ lia | split; [ lia | ] ] ].
  - unfold we_aes_gcm_cipher. rewrite Hs, Htls.
    unfold we_aes_gcm_tls_cipher. rewrite Henc.
    change EVP_GCM_TLS_EXPLICIT_IV_LEN with 8.
    change EVP_GCM_TLS_TAG_LEN with 16.
    change EVP_GCM_TLS_FIXED_IV_LEN with 4.
    assert (E0 : (len =? 0) = false) by lia. rewrite E0. cbn [negb].
    rewrite (to_word32_small len) by lia.
    replace (len - 8 - 16) with (Z.of_nat (length pt)) by lia.
    rewrite (to_word32_small (Z.of_nat (length pt))) by lia.
    cbn [deref bind]. unfold XMEMCPY.
    rewrite (load_ok (iv s) 4 8) by lia. cbn [bind].
    change (Z.to_nat 8) with 8%nat. change (Z.to_nat 4) with 4%nat.
    set (ex := firstn 8 (skipn 4 (iv s))).
    assert (Hex : length ex = 8%nat).
    { unfold ex. rewrite length_firstn, length_skipn. lia. }
    (* the explicit IV replaces [oa] *)
    change (store (oa ++ om ++ ot ++ orest) 0 ex)
      with (store ([] ++ oa ++ om ++ ot ++ orest)
              (Z.of_nat (length (@nil byte))) ex).
    rewrite (store_middle [] oa (om ++ ot ++ orest) ex) by lia.
    cbn [bind app].
    (* the regions handed to wolfCrypt *)
    replace 8 with (Z.of_nat (length ex)) at 1 by lia.
    rewrite <- Hom at 1. rewrite (load_middle ex om (ot ++ orest)).
    cbn [bind].
    replace 8 with (Z.of_nat (length ia)) at 1 by lia.
    rewrite (load_middle ia pt irest). cbn [bind].
    rewrite (load_whole (iv s)) by lia. cbn [bind].
    replace (ex ++ om ++ ot ++ orest) with ((ex ++ om) ++ ot ++ orest)
      by (rewrite <- app_assoc; reflexivity).
    replace (len - 16) with (Z.of_nat (length (ex ++ om)))
      by (rewrite length_app; lia).
    replace 16 with (Z.of_nat (length ot)) at 1 by lia.
    rewrite (load_middle (ex ++ om) ot orest). cbn [bind].
    rewrite Haad. cbn [bind]. fold r.
    (* cipher text, then tag, then the nonce wolfCrypt hands back *)
    replace ((ex ++ om) ++ ot ++ orest) with (ex ++ om ++ ot ++ orest)
      by (rewrite <- app_assoc; reflexivity).
    replace 8 with (Z.of_nat (length ex)) at 1 by lia.
    rewrite (store_middle ex om (ot ++ orest) (enc_out r)) by assumption.
    cbn [bind].
    replace (ex ++ enc_out r ++ ot ++ orest)
      with ((ex ++ enc_out r) ++ ot ++ orest)
      by (rewrite <- app_assoc; reflexivity).
    replace (Z.of_nat (length (ex ++ om)))
      with (Z.of_nat (length (ex ++ enc_out r)))
      by (rewrite !length_app; lia).
    rewrite (store_middle (ex ++ enc_out r) ot orest (enc_tag r))
      by assumption.
    cbn [bind].
    rewrite (store_whole (iv s) (enc_iv r)) by lia. cbn [bind].
    rewrite Hrv, <- app_assoc.
    destruct (enc_rc r =? 0); cbn [negb].
    + change (1 =? 1) with true. cbv iota.
      rewrite (to_int_small len) by lia. reflexivity.
    + reflexivity.
  - intros out inp. unfold we_aes_gcm_cipher. rewrite Hs, Htls.
    unfold we_aes_gcm_tls_cipher. rewrite Henc. reflexivity.
Qed.

End TlsRecord.

(** ** The TLS AAD command *)

Lemma lor_shiftl_8 (h l : Z) :
  0 <= h -> 0 <= l < 256 -> Z.lor (Z.shiftl h 8) l = h * 256 + l.
Proof.
  intros Hh Hl. rewrite Z.shiftl_mul_pow2 by lia.
  change (2 ^ 8) with 256.
  rewrite <- Z.lxor_lor, <- Z.add_nocarry_lxor; try reflexivity.
  all: apply Z.bits_inj'; intros n Hn; rewrite Z.land_spec, Z.bits_0.
  all: destruct (Z.ltb_spec n 8).
  all: try (change 256 with (2 ^ 8);
            rewrite Z.mul_pow2_bits_low by lia; reflexivity).
  all: rewrite (Z.bits_above_log2 l n); [ apply andb_false_r | lia | ].
  all: destruct (Z.eq_dec l 0) as [->|]; [ simpl; lia | ].
  all: apply Z.lt_le_trans with 8; [ apply Z.log2_lt_pow2; lia | lia ].
Qed.

Lemma tls_record_length_range (hdr : buffer) :
  0 <= tls_record_length hdr < 65536.
Proof.
  unfold tls_record_length.
  pose proof (byte_to_Z_range (nth 11 hdr x00)).
  pose proof (byte_to_Z_range (nth 12 hdr x00)). lia.
Qed.

Lemma tls_record_length_encode (pre : buffer) (z : Z) :
  length pre = 11%nat -> 0 <= z < 65536 ->
  tls_record_length (pre ++ be_encode 2 z) = z.
Proof.
  intros Hp Hz. unfold tls_record_length.
  rewrite !app_nth2 by lia. rewrite Hp. simpl.
  rewrite !byte_to_Z_to_uchar.
  rewrite (Z.mod_small (z / 256)) by (split; [ apply Z.div_pos; lia
                                              | apply Z.div_lt_upper_bound; lia ]).
  pose proof (Z.div_mod z 256). lia.
Qed.

Section TlsAad.
Context {W : WolfCrypt}.

(** What the case [EVP_CTRL_AEAD_TLS1_AAD] computes on a 13-byte header once
    [OPENSSL_malloc] succeeded. *)
Lemma ctrl_tls1_aad_13 (s : we_AesGcm) (hdr : buffer) :
  length hdr = 13%nat ->
  let L := tls_record_length hdr in
  ctrl_tls1_aad true s 13 (PtrBuf hdr) =
  if L <? 8 then Ok (0, with_raw_header s hdr)
  else if negb (enc s) && (L - 8 <? 16) then Ok (0, with_raw_header s hdr)
  else
    let L' := if enc s then L - 8 else L - 8 - 16 in
    Ok (16, set_tls (with_raw_header s (firstn 11 hdr ++ be_encode 2 L'))
              true).
Proof.
  intros Hlen L.
  pose proof (tls_record_length_range hdr) as HL. fold L in HL.
  do 14 (destruct hdr as [|? hdr]; try discriminate Hlen). clear Hlen.
  unfold ctrl_tls1_aad.
  change (negb (13 =? EVP_AEAD_TLS1_AAD_LEN)) with false. cbv iota.
  change (OPENSSL_malloc true 13) with (Some (repeat x00 13)). cbv iota.
  cbn [ptr_buf bind].
  match goal with
  | |- context [XMEMCPY _ 0 ?l 0 13] =>
      change (XMEMCPY (repeat x00 13) 0 l 0 13) with (Ok l);
      cbn [bind];
      change (load1 l (13 - 2)) with (Ok (nth 11 l x00));
      change (load1 l (13 - 1)) with (Ok (nth 12 l x00));
      cbn [bind]
  end.
  rewrite lor_shiftl_8 by (try apply byte_to_Z_range;
                           apply Z.le_trans with (1 := proj1 (byte_to_Z_range _));
                           lia).
  match goal with
  | |- context [byte_to_Z (nth 11 ?l x00) * 256 + byte_to_Z (nth 12 ?l x00)] =>
      change (byte_to_Z (nth 11 l x00) * 256 + byte_to_Z (nth 12 l x00))
        with L
  end.
  change EVP_GCM_TLS_EXPLICIT_IV_LEN with 8.
  change EVP_GCM_TLS_TAG_LEN with 16.
  destruct (L <? 8) eqn:E8; [ reflexivity | ].
  rewrite (to_word32_small (L - 8)) by lia.
  cbn [enc set_aadLen set_aad].
  destruct (enc s) eqn:Eenc; cbn [negb andb].
  - change (1 =? 1) with true. cbv iota.
    rewrite Z.shiftr_div_pow2 by lia. change (2 ^ 8) with 256.
    unfold with_raw_header. reflexivity.
  - destruct (L - 8 <? 16) eqn:E16; [ reflexivity | ].
    change (1 =? 1) with true. cbv iota.
    rewrite (to_word32_small (L - 8 - 16)) by lia.
    rewrite Z.shiftr_div_pow2 by lia. change (2 ^ 8) with 256.
    unfold with_raw_header. reflexivity.
Qed.

Lemma set_cipher_data_same (ctx : EVP_CIPHER_CTX) (s : we_AesGcm) :
  cipher_data ctx = Some s -> set_cipher_data ctx s = ctx.
Proof.
  destruct ctx as [d v k]. simpl. intros ->. reflexivity.
Qed.

(** C3 (amended).  On a session, [EVP_CTRL_AEAD_TLS1_AAD] fails (returns 0)
    when the length argument is not 13, when the record length [L] of the
    header is below the explicit-IV size 8, for a decrypt session when
    [L - 8] is below the tag size 16, and when the 13 bytes of the new AAD
    cannot be allocated; otherwise the AAD becomes the header with its
    length field rewritten to [L - 8] (encrypt) or [L - 8 - 16] (decrypt),
    the session is in TLS-record mode, and the command returns 16. *)
Theorem set_tls_aad_spec (ctx : EVP_CIPHER_CTX) (s : we_AesGcm) :
  cipher_data ctx = Some s ->
  (forall alloc arg ptr, arg <> 13 ->
     we_aes_gcm_ctrl alloc ctx EVP_CTRL_AEAD_TLS1_AAD arg ptr =
     Ok (0, ctx, ptr))
  /\ forall hdr, length hdr = 13%nat ->
     let L := tls_record_length hdr in
     let call := fun alloc =>
       we_aes_gcm_ctrl alloc ctx EVP_CTRL_AEAD_TLS1_AAD 13 (PtrBuf hdr) in
     (L < 8 -> forall alloc, exists ctx',
        call alloc = Ok (0, ctx', PtrBuf hdr))
     /\ (enc s = false -> L - 8 < 16 -> forall alloc, exists ctx',
        call alloc = Ok (0, ctx', PtrBuf hdr))
     /\ (exists ctx', call false = Ok (0, ctx', PtrBuf hdr))
     /\ (8 <= L -> (enc s = false -> 16 <= L - 8) ->
        let L' := if enc s then L - 8 else L - 8 - 16 in
        let a := firstn 11 hdr ++ be_encode 2 L' in
        call true =
          Ok (16, set_cipher_data ctx (set_tls (with_raw_header s a) true),
              PtrBuf hdr)
        /\ tls_record_length a = L').
Proof.
  intros Hs. split.
  - intros alloc arg ptr Harg. unfold we_aes_gcm_ctrl, ctrl_tls1_aad.
    rewrite Hs. change EVP_AEAD_TLS1_AAD_LEN with 13.
    assert (E : (arg =? 13) = false) by lia. rewrite E. simpl.
    rewrite set_cipher_data_same by assumption. reflexivity.
  - intros hdr Hlen L call.
    assert (Hcall : call true =
                    let* (ret, s1) := ctrl_tls1_aad true s 13 (PtrBuf hdr) in
                    Ok (ret, set_cipher_data ctx s1, PtrBuf hdr)).
    { unfold call, we_aes_gcm_ctrl. rewrite Hs. reflexivity. }
    assert (Hnomem : call false =
                     Ok (0, set_cipher_data ctx (set_aad s None), PtrBuf hdr)).
    { unfold call, we_aes_gcm_ctrl. rewrite Hs. reflexivity. }
    rewrite (ctrl_tls1_aad_13 s hdr Hlen) in Hcall. fold L in Hcall.
    pose proof (tls_record_length_range hdr) as HL. fold L in HL.
    split; [ | split; [ | split; [ eauto | ] ] ].
    + intros H8 [|]; [ | eauto ].
      assert (E : (L <? 8) = true) by lia. rewrite E in Hcall. eauto.
    + intros Henc H16 [|]; [ | eauto ].
      rewrite Henc in Hcall.
      assert (E : (L - 8 <? 16) = true) by lia. rewrite E in Hcall.
      destruct (L <? 8); cbn [negb andb bind] in Hcall; eauto.
    + intros H8' Hdec L' a. split.
      * assert (E : (L <? 8) = false) by lia. rewrite E in Hcall.
        unfold L', a. destruct (enc s) eqn:Henc; [ exact Hcall | ].
        assert (E' : (L - 8 <? 16) = false)
          by (specialize (Hdec eq_refl); lia).
        rewrite E' in Hcall. exact Hcall.
      * apply tls_record_length_encode.
        -- rewrite length_firstn. lia.
        -- unfold L'.
           destruct (enc s); [ lia | specialize (Hdec eq_refl); lia ].
Qed.

(** C10.  When [EVP_CTRL_AEAD_TLS1_AAD] fails on a 13-byte header because
    its record length is too small, the session has already lost its
    previous AAD: [aad] is the header as received, [aadLen] is 13, and the
    mode is the one it was. *)
Theorem set_tls_aad_failure_not_atomic (ctx : EVP_CIPHER_CTX)
    (s : we_AesGcm) (hdr : buffer) :
  cipher_data ctx = Some s ->
  length hdr = 13%nat ->
  tls_record_length hdr < 8
  \/ (enc s = false /\ tls_record_length hdr - 8 < 16) ->
  exists s',
    we_aes_gcm_ctrl true ctx EVP_CTRL_AEAD_TLS1_AAD 13 (PtrBuf hdr) =
      Ok (0, set_cipher_data ctx s', PtrBuf hdr)
    /\ aad s' = Some hdr /\ aadLen s' = 13 /\ tls s' = tls s.
Proof.
  intros Hs Hlen Hsmall. exists (with_raw_header s hdr).
  split; [ | repeat split ].
  unfold we_aes_gcm_ctrl. rewrite Hs.
  rewrite (ctrl_tls1_aad_13 s hdr Hlen).
  destruct (tls_record_length hdr <? 8) eqn:E8; [ reflexivity | ].
  destruct Hsmall as [H8 | [Henc H16]]; [ lia | ].
  rewrite Henc.
  assert (E : (tls_record_length hdr - 8 <? 16) = true) by lia.
  rewrite E. reflexivity.
Qed.

End TlsAad.

(** ** The nonce counter *)

Lemma be_value_app (l : buffer) (b : byte) :
  be_value (l ++ [b]) = be_value l * 256 + byte_to_Z b.
Proof.
  unfold be_value. rewrite fold_left_app. reflexivity.
Qed.

Lemma be_value_range (l : buffer) : 0 <= be_value l < 256 ^ Z.of_nat (length l).
Proof.
  induction l as [|b l IH] using rev_ind.
  - simpl. unfold be_value. simpl. lia.
  - rewrite be_value_app, length_app. simpl length.
    rewrite Nat2Z.inj_add, Z.pow_add_r by lia.
    change (256 ^ Z.of_nat 1) with 256.
    pose proof (byte_to_Z_range b). nia.
Qed.

Lemma be_encode_length (n : nat) (z : Z) : length (be_encode n z) = n.
Proof.
  revert z. induction n as [|n IH]; intros z; simpl.
  - reflexivity.
  - rewrite length_app, IH. simpl. lia.
Qed.

Lemma to_uchar_add_mul (k z : Z) : to_uchar (k * 256 + z) = to_uchar z.
Proof.
  rewrite <- (to_uchar_mod (k * 256 + z)), <- (to_uchar_mod z).
  rewrite Z.add_comm, Z.mod_add by lia. reflexivity.
Qed.

Lemma be_encode_be_value (l : buffer) : be_encode (length l) (be_value l) = l.
Proof.
  induction l as [|b l IH] using rev_ind.
  - reflexivity.
  - rewrite length_app, Nat.add_comm. simpl length. simpl be_encode.
    rewrite be_value_app. pose proof (byte_to_Z_range b) as Hb.
    rewrite to_uchar_add_mul, to_uchar_byte_to_Z.
    replace ((be_value l * 256 + byte_to_Z b) / 256) with (be_value l).
    + rewrite IH. reflexivity.
    + rewrite Z.div_add_l by lia. rewrite Z.div_small by lia. lia.
Qed.

Lemma be_value_be_encode (n : nat) (z : Z) :
  be_value (be_encode n z) = z mod 256 ^ Z.of_nat n.
Proof.
  revert z. induction n as [|n IH]; intros z.
  - simpl. rewrite Z.mod_1_r. reflexivity.
  - simpl be_encode. rewrite be_value_app, IH, byte_to_Z_to_uchar.
    rewrite Nat2Z.inj_succ, Z.pow_succ_r by lia.
    rewrite Z.rem_mul_r by lia. lia.
Qed.

Lemma load1_middle (l1 l2 : buffer) (b : byte) :
  load1 (l1 ++ b :: l2) (Z.of_nat (length l1)) = Ok b.
Proof.
  unfold load1.
  assert (E : (0 <=? Z.of_nat (length l1))
              && (Z.of_nat (length l1) <? Z.of_nat (length (l1 ++ b :: l2)))
              = true).
  { rewrite length_app. simpl length. apply andb_true_intro.
    split; [ apply Z.leb_le | apply Z.ltb_lt ]; lia. }
  rewrite E, Nat2Z.id. rewrite app_nth2 by lia.
  rewrite Nat.sub_diag. reflexivity.
Qed.

Lemma store1_middle (l1 l2 : buffer) (b b' : byte) :
  store1 (l1 ++ b :: l2) (Z.of_nat (length l1)) b' = Ok (l1 ++ b' :: l2).
Proof.
  unfold store1. rewrite store_ok by buf_lia.
  rewrite Nat2Z.id, firstn_app, Nat.sub_diag, firstn_all. simpl firstn.
  rewrite app_nil_r. simpl length.
  rewrite skipn_app, skipn_all2 by lia.
  replace (length l1 + 1 - length l1)%nat with 1%nat by lia.
  reflexivity.
Qed.

(** The loop over a window [w] that lies inside the buffer: it adds one to
    the big-endian number the window holds and touches nothing else. *)
Lemma iv_gen_loop_window (pre w post : buffer) :
  iv_gen_loop (length w) (Z.of_nat (length pre + length w) - 1)
    (pre ++ w ++ post)
  = Ok (pre ++ be_encode (length w) (be_value w + 1) ++ post).
Proof.
  revert post. induction w as [|b w IH] using rev_ind; intros post.
  - reflexivity.
  - rewrite length_app. simpl length. rewrite Nat.add_1_r.
    replace (Z.of_nat (length pre + S (length w)) - 1)
      with (Z.of_nat (length (pre ++ w))) by (rewrite length_app; lia).
    replace (pre ++ (w ++ [b]) ++ post) with ((pre ++ w) ++ b :: post)
      by (rewrite <- !app_assoc; reflexivity).
    cbn [iv_gen_loop]. rewrite load1_middle. cbn [bind].
    rewrite store1_middle. cbn [bind].
    rewrite byte_to_Z_to_uchar, be_value_app.
    pose proof (byte_to_Z_range b) as Hb.
    pose proof (be_value_range w) as Hw.
    cbn [be_encode].
    replace (be_value w * 256 + byte_to_Z b + 1)
      with (be_value w * 256 + (byte_to_Z b + 1)) by lia.
    rewrite to_uchar_add_mul.
    destruct ((byte_to_Z b + 1) mod 256 =? 0) eqn:E; cbn [negb].
    + assert (Hff : byte_to_Z b + 1 = 256).
      { apply Z.eqb_eq in E.
        destruct (Z.eq_dec (byte_to_Z b) 255) as [->|]; [ reflexivity | ].
        rewrite Z.mod_small in E by lia. lia. }
      replace (Z.of_nat (length (pre ++ w)) - 1)
        with (Z.of_nat (length pre + length w) - 1)
        by (rewrite length_app; lia).
      rewrite <- app_assoc. rewrite IH.
      replace ((be_value w * 256 + (byte_to_Z b + 1)) / 256)
        with (be_value w + 1)
        by (rewrite Hff; replace (be_value w * 256 + 256)
              with ((be_value w + 1) * 256) by lia;
            rewrite Z.div_mul by lia; reflexivity).
      rewrite <- !app_assoc. reflexivity.
    + assert (Hlt : byte_to_Z b + 1 < 256).
      { apply Z.eqb_neq in E.
        destruct (Z.eq_dec (byte_to_Z b) 255) as [Heq|]; [ | lia ].
        rewrite Heq in E. exfalso. apply E. reflexivity. }
      replace ((be_value w * 256 + (byte_to_Z b + 1)) / 256)
        with (be_value w)
        by (rewrite Z.div_add_l by lia; rewrite Z.div_small by lia; lia).
      rewrite be_encode_be_value. rewrite <- !app_assoc. reflexivity.
Qed.

(** The loop started below a run of [k] bytes [xff] that reaches the start
    of the buffer, with more than [k] positions to visit: every byte wraps
    and the next index is -1. *)
Lemma iv_gen_loop_underflow (k n : nat) (post : buffer) :
  (k < n)%nat ->
  iv_gen_loop n (Z.of_nat k - 1) (repeat xff k ++ post) = Undefined.
Proof.
  revert n post. induction k as [|k IH]; intros n post Hk.
  - destruct n as [|n]; [ lia | ]. reflexivity.
  - destruct n as [|n]; [ lia | ].
    replace (repeat xff (S k) ++ post) with (repeat xff k ++ xff :: post)
      by (change (repeat xff (S k)) with (xff :: repeat xff k);
          rewrite (repeat_cons k xff), <- app_assoc; reflexivity).
    replace (Z.of_nat (S k) - 1) with (Z.of_nat (length (repeat xff k)))
      by (rewrite repeat_length; lia).
    cbn [iv_gen_loop]. rewrite load1_middle. cbn [bind].
    rewrite store1_middle. cbn [bind].
    change (to_uchar (byte_to_Z xff + 1)) with x00.
    change (negb (byte_to_Z x00 =? 0)) with false. cbv iota.
    rewrite repeat_length. apply IH. lia.
Qed.

Lemma next_nonce_counter_iv (n : Z) :
  0 <= n < 2 ^ 32 ->
  next_nonce 12 (firstn 8 zero_seed ++ skipn 8 (counter_iv n))
  = counter_iv (n + 1).
Proof.
  intros Hn. unfold next_nonce, counter_iv, zero_seed.
  change (Z.to_nat (12 - 8)) with 4%nat.
  cbn [be_encode app repeat firstn skipn Nat.add].
  match goal with
  | |- context [be_value ?w] =>
      assert (Hv : be_value w = be_value (be_encode 4 n)) by reflexivity
  end.
  rewrite Hv, be_value_be_encode.
  change (256 ^ Z.of_nat 4) with (2 ^ 32).
  rewrite Z.mod_small by lia. reflexivity.
Qed.

Lemma be_value_counter_iv (n : Z) :
  0 <= n < 2 ^ 64 ->
  be_value (firstn 8 (skipn (Z.to_nat (12 - 8)) (counter_iv n))) = n.
Proof.
  intros Hn. unfold counter_iv.
  change (Z.to_nat (12 - 8)) with 4%nat.
  change (skipn 4 (repeat x00 4 ++ be_encode 8 n ++ repeat x00 4))
    with (be_encode 8 n ++ repeat x00 4).
  rewrite firstn_app, be_encode_length, Nat.sub_diag.
  rewrite firstn_all2 by (rewrite be_encode_length; lia).
  simpl firstn. rewrite app_nil_r, be_value_be_encode.
  change (256 ^ Z.of_nat 8) with (2 ^ 64). apply Z.mod_small. lia.
Qed.

(** [next_nonce 12] on a 16-byte buffer: the counter in bytes 4 to 11 grows
    by one modulo [2 ^ 64]; bytes 0 to 3 and 12 to 15 stay. *)
Lemma next_nonce_12 (v : buffer) :
  length v = 16%nat ->
  be_value (firstn 8 (skipn 4 (next_nonce 12 v)))
    = (be_value (firstn 8 (skipn 4 v)) + 1) mod 2 ^ 64
  /\ firstn 4 (next_nonce 12 v) = firstn 4 v
  /\ skipn 12 (next_nonce 12 v) = skipn 12 v.
Proof.
  intros Hv. unfold next_nonce. change (Z.to_nat (12 - 8)) with 4%nat.
  set (c := be_value (firstn 8 (skipn 4 v)) + 1).
  assert (H4 : length (firstn 4 v) = 4%nat) by (rewrite length_firstn; lia).
  assert (H8 : length (be_encode 8 c) = 8%nat) by apply be_encode_length.
  assert (Hc : be_value (be_encode 8 c) = c mod 2 ^ 64)
    by apply be_value_be_encode.
  set (e := be_encode 8 c) in *. set (p := firstn 4 v) in *.
  set (q := skipn (4 + 8) v).
  split; [ | split ].
  - rewrite skipn_app, H4, Nat.sub_diag, skipn_all2 by lia.
    rewrite skipn_O, app_nil_l.
    rewrite firstn_app, H8, Nat.sub_diag, firstn_all2 by lia.
    rewrite firstn_O, app_nil_r. exact Hc.
  - rewrite firstn_app, H4, Nat.sub_diag, firstn_all2 by lia.
    rewrite firstn_O. apply app_nil_r.
  - rewrite skipn_app, H4, skipn_all2 by lia. rewrite app_nil_l.
    rewrite skipn_app, H8, skipn_all2 by lia. rewrite app_nil_l.
    change (12 - 4 - 8)%nat with 0%nat. rewrite skipn_O. reflexivity.
Qed.

Section Nonce.
Context {W : WolfCrypt}.

(** [EVP_CTRL_GCM_IV_GEN] on a session whose counter window lies inside the
    16-byte IV buffer. *)
Lemma ctrl_iv_gen (alloc : bool) (ctx : EVP_CIPHER_CTX) (s : we_AesGcm)
    (seed : buffer) (arg : Z) :
  cipher_data ctx = Some s ->
  length (iv s) = 16%nat ->
  8 <= ivLen s <= 16 ->
  1 <= arg <= 16 ->
  arg <= Z.of_nat (length seed) ->
  we_aes_gcm_ctrl alloc ctx EVP_CTRL_GCM_IV_GEN arg (PtrBuf seed) =
  Ok (1,
      set_cipher_data ctx
        (set_iv s
           (next_nonce (ivLen s)
              (firstn (Z.to_nat arg) seed ++ skipn (Z.to_nat arg) (iv s)))),
      PtrBuf seed).
Proof.
  intros Hs Hiv Hlen Harg Hseed. unfold we_aes_gcm_ctrl. rewrite Hs.
  change GCM_NONCE_MAX_SZ with 16.
  assert (E : (arg <=? 0) || (16 <? arg) = false)
    by (apply orb_false_intro; lia).
  rewrite E. cbn [ptr_buf bind]. unfold XMEMCPY.
  rewrite load_whole by lia. cbn [bind].
  rewrite store_whole by (rewrite length_firstn; lia). cbn [bind].
  replace (length (firstn (Z.to_nat arg) seed)) with (Z.to_nat arg)
    by (rewrite length_firstn; lia).
  set (v := firstn (Z.to_nat arg) seed ++ skipn (Z.to_nat arg) (iv s)).
  assert (Hv : length v = 16%nat).
  { unfold v. rewrite length_app, length_firstn, length_skipn. lia. }
  replace (Z.to_nat (ivLen s - 1 - (ivLen s - 8) + 1)) with 8%nat by lia.
  set (k := Z.to_nat (ivLen s - 8)).
  assert (Hsplit : v = firstn k v ++ firstn 8 (skipn k v) ++ skipn (k + 8) v).
  { rewrite (Nat.add_comm k 8), <- (skipn_skipn 8 k v).
    rewrite firstn_skipn, firstn_skipn. reflexivity. }
  assert (Hw : length (firstn 8 (skipn k v)) = 8%nat)
    by (rewrite length_firstn, length_skipn; lia).
  assert (Hp : length (firstn k v) = k) by (rewrite length_firstn; lia).
  rewrite Hsplit at 1.
  replace (ivLen s - 1)
    with (Z.of_nat (length (firstn k v) + length (firstn 8 (skipn k v))) - 1)
    by lia.
  rewrite <- Hw at 1. rewrite iv_gen_loop_window. cbn [bind].
  rewrite Hw. reflexivity.
Qed.

(** [n] successive commands with the zero seed, from the zero IV. *)
Lemma iv_gen_calls_from_zero (ctx : EVP_CIPHER_CTX) (s : we_AesGcm) (n : N) :
  cipher_data ctx = Some s ->
  ivLen s = 12 ->
  iv s = repeat x00 16 ->
  (n <= 2 ^ 32)%N ->
  iv_gen_calls n zero_seed 8 ctx =
  Ok (set_cipher_data ctx (set_iv s (counter_iv (Z.of_N n)))).
Proof.
  intros Hs Hlen Hiv. induction n as [|n IH] using N.peano_ind; intros Hn.
  - unfold iv_gen_calls. simpl N.iter.
    change (counter_iv (Z.of_N 0)) with (repeat x00 16). rewrite <- Hiv.
    replace (set_iv s (iv s)) with s by (destruct s; reflexivity).
    rewrite set_cipher_data_same by assumption. reflexivity.
  - unfold iv_gen_calls in *. rewrite N.iter_succ, IH by lia. cbn [bind].
    unfold iv_gen_call.
    rewrite (ctrl_iv_gen true _ (set_iv s (counter_iv (Z.of_N n))) zero_seed 8)
      by first [ reflexivity | simpl; lia ].
    cbn [bind]. cbn [ivLen iv set_iv]. rewrite Hlen.
    change (Z.to_nat 8) with 8%nat.
    rewrite next_nonce_counter_iv by lia.
    rewrite N2Z.inj_succ. reflexivity.
Qed.

(** C2 (amended).  On a session with [ivLen = 12] and its 16-byte IV buffer,
    an [EVP_CTRL_GCM_IV_GEN] command with a length argument in 1..16 and a
    seed of at least that many bytes copies the seed over the first bytes of
    the IV, then adds one to the big-endian counter in bytes 4 to 11 with
    carry from byte 11 leftwards, and returns 1.  From the all-zero IV, with
    the all-zero 8-byte seed and argument 8, the call that follows [n]
    earlier ones yields a counter greater by exactly 1, for every
    [n < 2 ^ 32]. *)
Theorem iv_gen_increments_counter (ctx : EVP_CIPHER_CTX) (s : we_AesGcm) :
  cipher_data ctx = Some s ->
  ivLen s = 12 ->
  length (iv s) = 16%nat ->
  (forall alloc seed arg,
     1 <= arg <= 16 -> arg <= Z.of_nat (length seed) ->
     let v := firstn (Z.to_nat arg) seed ++ skipn (Z.to_nat arg) (iv s) in
     we_aes_gcm_ctrl alloc ctx EVP_CTRL_GCM_IV_GEN arg (PtrBuf seed) =
       Ok (1, set_cipher_data ctx (set_iv s (next_nonce 12 v)), PtrBuf seed)
     /\ be_value (firstn 8 (skipn 4 (next_nonce 12 v)))
        = (be_value (firstn 8 (skipn 4 v)) + 1) mod 2 ^ 64
     /\ firstn 4 (next_nonce 12 v) = firstn 4 v
     /\ skipn 12 (next_nonce 12 v) = skipn 12 v)
  /\ (iv s = repeat x00 16 ->
      forall n, (n < 2 ^ 32)%N ->
      exists c1 s1 c2 s2,
        iv_gen_calls n zero_seed 8 ctx = Ok c1
        /\ cipher_data c1 = Some s1
        /\ iv_gen_call zero_seed 8 c1 = Ok c2
        /\ cipher_data c2 = Some s2
        /\ nonce_counter s1 = Z.of_N n
        /\ nonce_counter s2 = nonce_counter s1 + 1).
Proof.
  intros Hs Hlen Hiv. split.
  - intros alloc seed arg Harg Hseed v. split.
    + rewrite (ctrl_iv_gen alloc ctx s seed arg) by (assumption || lia).
      rewrite Hlen. reflexivity.
    + apply next_nonce_12. unfold v.
      rewrite length_app, length_firstn, length_skipn. lia.
  - intros Hzero n Hn.
    pose proof (iv_gen_calls_from_zero ctx s n Hs Hlen Hzero) as H1.
    pose proof (iv_gen_calls_from_zero ctx s (N.succ n) Hs Hlen Hzero) as H2.
    specialize (H1 ltac:(lia)). specialize (H2 ltac:(lia)).
    unfold iv_gen_calls in H2. rewrite N.iter_succ in H2.
    fold (iv_gen_calls n zero_seed 8 ctx) in H2.
    rewrite H1 in H2. cbn [bind] in H2.
    eexists _, _, _, _.
    split; [ exact H1 | ]. split; [ reflexivity | ].
    split; [ exact H2 | ]. split; [ reflexivity | ].
    unfold nonce_counter. cbn [ivLen iv set_iv]. rewrite Hlen.
    rewrite !be_value_counter_iv by lia.
    split; lia.
Qed.

(** C9.  [EVP_CTRL_AEAD_SET_IVLEN] accepts every length from 1 to 16.  With
    a length of at least 8 the loop of [EVP_CTRL_GCM_IV_GEN] stays inside
    the 16-byte IV buffer, whatever the seed; with a length [L] from 1 to 7
    it leaves it: the command with argument [L] and a seed of [L] bytes
    [xff] wraps every byte down to index 0 and then indexes the buffer at
    -1. *)
Theorem iv_gen_short_iv_out_of_bounds (ctx : EVP_CIPHER_CTX)
    (s : we_AesGcm) (L : Z) :
  cipher_data ctx = Some s ->
  length (iv s) = 16%nat ->
  let ctx' := set_cipher_data ctx (set_ivLen s L) in
  (1 <= L <= 16 -> forall alloc ptr,
     we_aes_gcm_ctrl alloc ctx EVP_CTRL_AEAD_SET_IVLEN L ptr =
     Ok (1, ctx', ptr))
  /\ (8 <= L <= 16 -> forall alloc seed arg,
      1 <= arg <= 16 -> arg <= Z.of_nat (length seed) ->
      exists ctx'',
        we_aes_gcm_ctrl alloc ctx' EVP_CTRL_GCM_IV_GEN arg (PtrBuf seed) =
        Ok (1, ctx'', PtrBuf seed))
  /\ (1 <= L <= 7 -> forall alloc,
      we_aes_gcm_ctrl alloc ctx' EVP_CTRL_GCM_IV_GEN L
        (PtrBuf (repeat xff (Z.to_nat L))) = Undefined).
Proof.
  intros Hs Hiv ctx'. split; [ | split ].
  - intros HL alloc ptr. unfold we_aes_gcm_ctrl. rewrite Hs.
    change GCM_NONCE_MAX_SZ with 16.
    assert (E : (L <=? 0) || (16 <? L) = false)
      by (apply orb_false_intro; lia).
    rewrite E. reflexivity.
  - intros HL alloc seed arg Harg Hseed. eexists.
    apply (ctrl_iv_gen alloc ctx' (set_ivLen s L) seed arg);
      first [ reflexivity | assumption ].
  - intros HL alloc. unfold we_aes_gcm_ctrl, ctx'.
    cbn [cipher_data set_cipher_data].
    change GCM_NONCE_MAX_SZ with 16.
    assert (E : (L <=? 0) || (16 <? L) = false)
      by (apply orb_false_intro; lia).
    rewrite E. cbn [ptr_buf bind ivLen iv set_ivLen]. unfold XMEMCPY.
    rewrite load_whole by (rewrite repeat_length; lia). cbn [bind].
    rewrite firstn_all2 by (rewrite repeat_length; lia).
    rewrite store_whole by (rewrite repeat_length; lia). cbn [bind].
    replace (Z.to_nat (L - 1 - (L - 8) + 1)) with 8%nat by lia.
    replace (L - 1) with (Z.of_nat (Z.to_nat L) - 1) by lia.
    rewrite iv_gen_loop_underflow by lia. reflexivity.
Qed.

End Nonce.

(** Closing a side condition on a concrete input. *)
Ltac by_evaluation :=
  first [ reflexivity | lia | discriminate
        | vm_compute; first [ reflexivity | discriminate | lia
                            | split; congruence ] ].

Lemma payload_call_disposes_aad_witness :
  let s := stub_session false false zero_iv 16 (Some [x61; x62]) 2 in
  let s1 := stub_session false false zero_iv 16 None 0 in
  we_aes_gcm_cipher true (stub_ctx s) (Some [x00]) [x41] 1 =
    Ok (1, stub_ctx s1, Some [x00])
  /\ exists s', cipher_data (stub_ctx s1) = Some s'
               /\ aad s' = None /\ aadLen s' = 0.
Proof.
  intros s s1. split; [ reflexivity | ].
  pose proof (payload_call_disposes_aad true (stub_ctx s) s
                (Some [x00]) [x41] 1 eq_refl) as H.
  assert (H0 : tls s = true \/ Some [x00] <> None /\ 0 < 1).
  { right. split; [ discriminate | lia ]. }
  destruct (H H0) as [H1 _].
  apply (H1 1 (stub_ctx s1) (Some [x00])). reflexivity.
Defined.

(** C5, as stated, fails on a one-shot payload call of length 0: the two AAD
    bytes of the session are still there after the call. *)
Lemma zero_length_call_does_not_dispose :
  let s := stub_session false false zero_iv 16 (Some [x61; x62]) 2 in
  we_aes_gcm_cipher true (stub_ctx s) (Some []) [] 0 =
    Ok (0, stub_ctx s, Some [])
  /\ aad s = Some [x61; x62] /\ aadLen s = 2
  /\ ~ (exists ret ctx' out' s',
          we_aes_gcm_cipher true (stub_ctx s) (Some []) [] 0 =
            Ok (ret, ctx', out')
          /\ cipher_data ctx' = Some s' /\ aad s' = None /\ aadLen s' = 0).
Proof.
  intros s. repeat split.
  intros [ret [ctx' [out' [s' [H [Hs [Ha _]]]]]]].
  vm_compute in H. injection H as _ <- _.
  injection Hs as <-. discriminate Ha.
Qed.

Lemma zero_length_payload_is_noop_witness :
  let s := stub_session true false zero_iv 0 (Some [x61; x62; x63]) 3 in
  we_aes_gcm_cipher true (stub_ctx s) (Some [x00]) [] 0 =
    Ok (0, stub_ctx s, Some [x00]).
Proof.
  intros s.
  apply (zero_length_payload_is_noop true (stub_ctx s) s [x00] []);
    reflexivity.
Defined.

(** C6, as stated, fails: after a zero-length payload call of a one-shot
    encrypt session the three pending AAD bytes are not cleared. *)
Lemma zero_length_payload_keeps_aad :
  let s := stub_session true false zero_iv 0 (Some [x61; x62; x63]) 3 in
  exists ctx' s',
    we_aes_gcm_cipher true (stub_ctx s) (Some [x00]) [] 0 =
      Ok (0, ctx', Some [x00])
    /\ cipher_data ctx' = Some s'
    /\ aad s' = Some [x61; x62; x63] /\ aadLen s' = 3.
Proof.
  intros s. exists (stub_ctx s), s. repeat split.
Qed.

Lemma decrypt_failure_returns_len_witness :
  let s := stub_session false false zero_iv 16 None 0 in
  we_aes_gcm_cipher true (stub_ctx s) (Some [x00]) [x41] 1 =
    Ok (1, stub_ctx s, Some [x00]).
Proof.
  intros s.
  apply (decrypt_failure_returns_len true (stub_ctx s) s [x00] [x41] [] 1);
    by_evaluation.
Defined.

Lemma aad_call_returns_zero_witness :
  let s := stub_session true false zero_iv 0 None 0 in
  let s1 := stub_session true false zero_iv 0 (Some [x61; x62]) 2 in
  we_aes_gcm_cipher true (stub_ctx s) None [x61; x62] 2 =
    Ok (0, stub_ctx s1, None)
  /\ we_aes_gcm_cipher false (stub_ctx s) None [x61; x62] 2 =
    Ok (0, stub_ctx s, None).
Proof.
  intros s s1.
  apply (aad_call_returns_zero (stub_ctx s) s [x61; x62]); by_evaluation.
Defined.

Lemma iv_gen_increments_counter_witness :
  let s := stub_session true false zero_iv 0 None 0 in
  exists c1 s1 c2 s2,
    iv_gen_calls 255 zero_seed 8 (stub_ctx s) = Ok c1
    /\ cipher_data c1 = Some s1
    /\ iv_gen_call zero_seed 8 c1 = Ok c2
    /\ cipher_data c2 = Some s2
    /\ nonce_counter s1 = 255
    /\ nonce_counter s2 = nonce_counter s1 + 1.
Proof.
  intros s.
  apply (proj2 (iv_gen_increments_counter (stub_ctx s) s
                  eq_refl eq_refl eq_refl) eq_refl 255%N).
  reflexivity.
Defined.

(** C2, as stated, fails at the call that follows [2 ^ 32] earlier ones: the
    counter was [2 ^ 32]; the seed copy clears its bytes 4 to 7 and the
    command yields 1. *)
Lemma iv_gen_counter_restarts :
  let s := stub_session true false zero_iv 0 None 0 in
  exists c1 s1 c2 s2,
    iv_gen_calls 4294967296 zero_seed 8 (stub_ctx s) = Ok c1
    /\ cipher_data c1 = Some s1
    /\ iv_gen_call zero_seed 8 c1 = Ok c2
    /\ cipher_data c2 = Some s2
    /\ nonce_counter s1 = 4294967296
    /\ nonce_counter s2 = 1.
Proof.
  intros s.
  pose proof (iv_gen_calls_from_zero (stub_ctx s) s 4294967296
                eq_refl eq_refl eq_refl) as H.
  specialize (H ltac:(lia)).
  exists (set_cipher_data (stub_ctx s) (set_iv s (counter_iv 4294967296))).
  eexists _, _, _.
  split; [ exact H | ]. split; [ reflexivity | ].
  split; [ vm_compute; reflexivity | ]. split; [ reflexivity | ].
  split; vm_compute; reflexivity.
Qed.

Lemma iv_gen_short_iv_out_of_bounds_witness :
  let s := stub_session true false zero_iv 0 None 0 in
  let ctx' := set_cipher_data (stub_ctx s) (set_ivLen s 4) in
  we_aes_gcm_ctrl true (stub_ctx s) EVP_CTRL_AEAD_SET_IVLEN 4 PtrNull =
    Ok (1, ctx', PtrNull)
  /\ we_aes_gcm_ctrl true ctx' EVP_CTRL_GCM_IV_GEN 4
       (PtrBuf [xff; xff; xff; xff]) = Undefined.
Proof.
  intros s ctx'.
  pose proof (iv_gen_short_iv_out_of_bounds (stub_ctx s) s 4
                eq_refl eq_refl) as [H1 [_ H3]].
  split.
  - apply H1. lia.
  - apply (H3 ltac:(lia) true).
Defined.

Lemma aad_accumulation_witness :
  let ctx := stub_ctx (stub_session true false zero_iv 0 None 0) in
  (let* c1 := aad_push true [x61; x62] ctx in
   let* c2 := aad_push true [x63; x64] c1 in
   let* c3 := aad_push true [x65; x66] c2 in
   we_aes_gcm_cipher true c3 (Some [x00]) [x41] 1)
  = (let* c := aad_push true [x61; x62; x63; x64; x65; x66] ctx in
     we_aes_gcm_cipher true c (Some [x00]) [x41] 1).
Proof.
  intros ctx.
  apply (aad_accumulation true true ctx
           (stub_session true false zero_iv 0 None 0));
    by_evaluation.
Defined.

Lemma set_tls_aad_spec_witness :
  let s := stub_session true false zero_iv 0 None 0 in
  let hdr := repeat x00 11 ++ [x00; x20] in
  let a := repeat x00 11 ++ [x00; x18] in
  we_aes_gcm_ctrl true (stub_ctx s) EVP_CTRL_AEAD_TLS1_AAD 13 (PtrBuf hdr) =
    Ok (16, stub_ctx (stub_session true true zero_iv 0 (Some a) 13),
        PtrBuf hdr)
  /\ tls_record_length hdr = 32 /\ tls_record_length a = 24.
Proof.
  intros s hdr a.
  pose proof (proj2 (set_tls_aad_spec (stub_ctx s) s eq_refl) hdr eq_refl)
    as [_ [_ [_ H]]].
  split; [ | split; reflexivity ].
  apply H.
  - vm_compute. discriminate.
  - discriminate.
Defined.

(** C3, as stated, fails when [OPENSSL_malloc] returns NULL: the header is
    well formed ([L = 32], encrypt session), yet the command returns 0 and
    the session stays in one-shot mode. *)
Lemma set_tls_aad_without_memory :
  let s := stub_session true false zero_iv 0 None 0 in
  let hdr := repeat x00 11 ++ [x00; x20] in
  tls_record_length hdr = 32
  /\ we_aes_gcm_ctrl false (stub_ctx s) EVP_CTRL_AEAD_TLS1_AAD 13
       (PtrBuf hdr) = Ok (0, stub_ctx s, PtrBuf hdr)
  /\ tls s = false.
Proof.
  intros s hdr. repeat split.
Qed.

Lemma set_tls_aad_failure_not_atomic_witness :
  let s := stub_session false false zero_iv 0 (Some [x61; x62]) 2 in
  let hdr := repeat x00 11 ++ [x00; x05] in
  exists s',
    we_aes_gcm_ctrl true (stub_ctx s) EVP_CTRL_AEAD_TLS1_AAD 13 (PtrBuf hdr) =
      Ok (0, set_cipher_data (stub_ctx s) s', PtrBuf hdr)
    /\ aad s' = Some hdr /\ aadLen s' = 13 /\ tls s' = tls s.
Proof.
  intros s hdr.
  apply (set_tls_aad_failure_not_atomic (stub_ctx s) s hdr).
  - reflexivity.
  - reflexivity.
  - left. reflexivity.
Defined.

Lemma tls_encrypt_framing_witness :
  let s := stub_session true true counting_iv 0 None 0 in
  we_aes_gcm_cipher true (stub_ctx s) (Some (repeat x00 25))
    (repeat x00 8 ++ [x41] ++ repeat x00 16) 25 =
  Ok (25, stub_ctx s,
      Some ([x05; x06; x07; x08; x09; x0a; x0b; x0c] ++ [x41]
              ++ repeat x6b 16)).
Proof.
  intros s.
  apply (proj1 (tls_encrypt_framing true (stub_ctx s) s
                  (repeat x00 8) [x00] (repeat x00 16) []
                  (repeat x00 8) [x41] (repeat x00 16) []
                  eq_refl eq_refl eq_refl eq_refl
                  ltac:(simpl; lia) eq_refl eq_refl eq_refl eq_refl eq_refl
                  ltac:(simpl; lia))).
Defined.

(** C4, as stated, fails on a non-zero length below 24: for [len = 10] the
    size handed to wolfCrypt is [10 - 24] read as a [word32], and the plain
    text it designates lies outside the 10-byte input. *)
Lemma tls_encrypt_short_record_undefined :
  let s := stub_session true true counting_iv 0 None 0 in
  to_word32 (to_word32 10 - EVP_GCM_TLS_EXPLICIT_IV_LEN - EVP_GCM_TLS_TAG_LEN)
    = 4294967282
  /\ we_aes_gcm_cipher true (stub_ctx s) (Some (repeat x00 10))
       (repeat x00 10) 10 = Undefined.
Proof.
  intros s. split; vm_compute; reflexivity.
Qed.

(** * Further properties of [src/aes_gcm.c] *)

Lemma store_length (buf data b : buffer) (off : Z) :
  store buf off data = Ok b -> length b = length buf.
Proof.
  unfold store, in_bounds. intros H.
  destruct ((0 <=? off) && (0 <=? Z.of_nat (length data))
            && (off + Z.of_nat (length data) <=? Z.of_nat (length buf)))
    eqn:E; [ | discriminate ].
  injection H as <-.
  apply andb_prop in E. destruct E as [E E3].
  apply andb_prop in E. destruct E as [E1 E2].
  apply Z.leb_le in E1, E2, E3.
  rewrite !length_app, length_firstn, length_skipn. lia.
Qed.

Lemma load_length (buf b : buffer) (off n : Z) :
  load buf off n = Ok b -> Z.of_nat (length b) = n.
Proof.
  unfold load, in_bounds. intros H.
  destruct ((0 <=? off) && (0 <=? n) && (off + n <=? Z.of_nat (length buf)))
    eqn:E; [ | discriminate ].
  injection H as <-.
  apply andb_prop in E. destruct E as [E E3].
  apply andb_prop in E. destruct E as [E1 E2].
  apply Z.leb_le in E1, E2, E3.
  rewrite length_firstn, length_skipn. lia.
Qed.

Lemma XMEMCPY_length (dst src b : buffer) (doff soff n : Z) :
  XMEMCPY dst doff src soff n = Ok b -> length b = length dst.
Proof.
  unfold XMEMCPY. intros H. apply bind_Ok_inv in H.
  destruct H as [d [_ H]]. eapply store_length; eassumption.
Qed.

Lemma iv_gen_loop_length (n : nat) (i : Z) (v v' : buffer) :
  iv_gen_loop n i v = Ok v' -> length v' = length v.
Proof.
  revert i v. induction n as [|n IH]; intros i v H; simpl in H.
  - injection H as <-. reflexivity.
  - apply bind_Ok_inv in H. destruct H as [b [_ H]].
    apply bind_Ok_inv in H. destruct H as [v1 [Hs H]].
    apply store_length in Hs.
    destruct (negb (byte_to_Z (to_uchar (byte_to_Z b + 1)) =? 0)).
    + injection H as <-. exact Hs.
    + apply IH in H. congruence.
Qed.

(** Inversion of the computations that returned. *)
Ltac ok_inv_all :=
  repeat match goal with
    | H : bind _ _ = Ok _ |- _ =>
        apply bind_Ok_inv in H; destruct H as [? [? H]]; cbv beta zeta in H
    | H : Undefined = Ok _ |- _ => discriminate H
    | H : Ok _ = Ok _ |- _ => injection H; clear H; intros; subst
    | H : (if ?c then _ else _) = Ok _ |- _ => destruct c eqn:?
    | H : (let (_, _) := ?x in _) = Ok _ |- _ => destruct x eqn:?
    | H : match ?x with _ => _ end = Ok _ |- _ => destruct x eqn:?
    end.

(** Lengths of the buffers a returned computation wrote. *)
Ltac lengths :=
  repeat match goal with
    | H : XMEMCPY _ _ _ _ _ = Ok _ |- _ => apply XMEMCPY_length in H
    | H : store _ _ _ = Ok _ |- _ => apply store_length in H
    | H : iv_gen_loop _ _ _ = Ok _ |- _ => apply iv_gen_loop_length in H
    | H : (_ || _) = false |- _ => apply orb_false_elim in H; destruct H
    end.

(** Closing a goal on fields of an updated session. *)
Ltac kept_done :=
  lengths; unfold session_kept, session_shape;
  cbn [enc init tls iv tag ivLen tagLen aad aadLen aes ivSet
       set_aes set_iv set_ivLen set_ivSet set_tag set_tagLen set_aad
       set_aadLen set_tls dispose_aad] in *;
  change GCM_NONCE_MAX_SZ with 16 in *;
  change GCM_NONCE_MID_SZ with 12 in *;
  change AES_BLOCK_SIZE with 16 in *;
  change EVP_GCM_TLS_TAG_LEN with 16 in *;
  repeat split; intros;
  repeat match goal with
    | H : _ /\ _ |- _ => destruct H
    end;
  first [ assumption | reflexivity | congruence | lia ].

Section Invariants.
Context {W : WolfCrypt}.

Lemma session_kept_refl (s : we_AesGcm) : session_kept s s.
Proof.
  unfold session_kept. auto.
Qed.

Lemma ctrl_tls1_aad_kept (alloc : bool) (s s' : we_AesGcm) (arg ret : Z)
    (ptr : ctrl_ptr) :
  ctrl_tls1_aad alloc s arg ptr = Ok (ret, s') -> session_kept s s'.
Proof.
  unfold ctrl_tls1_aad. intros H. cbv zeta in H. ok_inv_all; kept_done.
Qed.

Lemma ctrl_kept (alloc : bool) (ctx ctx' : EVP_CIPHER_CTX) (s : we_AesGcm)
    (type : ctrl_type) (arg ret : Z) (ptr ptr' : ctrl_ptr) :
  cipher_data ctx = Some s ->
  we_aes_gcm_ctrl alloc ctx type arg ptr = Ok (ret, ctx', ptr') ->
  exists s', cipher_data ctx' = Some s' /\ session_kept s s'.
Proof.
  intros Hs H. unfold we_aes_gcm_ctrl in H. rewrite Hs in H.
  destruct type; ok_inv_all;
    try match goal with
      | H : ctrl_tls1_aad _ _ _ _ = Ok _ |- _ =>
          apply ctrl_tls1_aad_kept in H
      end;
    eexists; (split; [ first [ eassumption | reflexivity ] | ]);
    first [ apply session_kept_refl | eassumption | kept_done
          | destruct (ivLen s =? 0) eqn:?; kept_done ].
Qed.

Lemma tls_cipher_kept (s s' : we_AesGcm) (out out' : option buffer)
    (inp : buffer) (len ret : Z) :
  we_aes_gcm_tls_cipher s out inp len = Ok (ret, s', out') ->
  session_kept s s'.
Proof.
  unfold we_aes_gcm_tls_cipher. intros H. cbv zeta in H. ok_inv_all; kept_done.
Qed.

Lemma gcm_encrypt_kept (s s' : we_AesGcm) (o o' inp : buffer) (len ret : Z) :
  gcm_encrypt s o inp len = Ok (ret, s', o') -> session_kept s s'.
Proof.
  unfold gcm_encrypt. intros H. cbv zeta in H. ok_inv_all; kept_done.
Qed.

Lemma gcm_decrypt_kept (s s' : we_AesGcm) (o o' inp : buffer) (len ret : Z) :
  gcm_decrypt s o inp len = Ok (ret, s', o') -> session_kept s s'.
Proof.
  unfold gcm_decrypt. intros H. cbv zeta in H. ok_inv_all; kept_done.
Qed.

Lemma cipher_kept (alloc : bool) (ctx ctx' : EVP_CIPHER_CTX) (s : we_AesGcm)
    (out out' : option buffer) (inp : buffer) (len ret : Z) :
  cipher_data ctx = Some s ->
  we_aes_gcm_cipher alloc ctx out inp len = Ok (ret, ctx', out') ->
  exists s', cipher_data ctx' = Some s' /\ session_kept s s'.
Proof.
  intros Hs H. unfold we_aes_gcm_cipher in H. rewrite Hs in H.
  ok_inv_all;
    try match goal with
      | H : we_aes_gcm_tls_cipher _ _ _ _ = Ok _ |- _ =>
          apply tls_cipher_kept in H
      | H : gcm_encrypt _ _ _ _ = Ok _ |- _ => apply gcm_encrypt_kept in H
      | H : gcm_decrypt _ _ _ _ = Ok _ |- _ => apply gcm_decrypt_kept in H
      end;
    eexists; (split; [ first [ eassumption | reflexivity ] | ]);
    first [ apply session_kept_refl | eassumption | kept_done ].
Qed.

(** X1.  No control command and no cipher call changes the direction of a
    session or its [init] flag, and none leaves TLS-record mode. *)
Theorem direction_and_mode_persist (ctx : EVP_CIPHER_CTX) (s : we_AesGcm) :
  cipher_data ctx = Some s ->
  (forall alloc type arg ptr ret ctx' ptr',
     we_aes_gcm_ctrl alloc ctx type arg ptr = Ok (ret, ctx', ptr') ->
     exists s', cipher_data ctx' = Some s' /\ enc s' = enc s
                /\ init s' = init s /\ (tls s = true -> tls s' = true))
  /\ (forall alloc out inp len ret ctx' out',
       we_aes_gcm_cipher alloc ctx out inp len = Ok (ret, ctx', out') ->
       exists s', cipher_data ctx' = Some s' /\ enc s' = enc s
                  /\ init s' = init s /\ (tls s = true -> tls s' = true)).
Proof.
  intros Hs. split.
  - intros alloc type arg ptr ret ctx' ptr' H.
    destruct (ctrl_kept _ _ _ _ _ _ _ _ _ Hs H) as [s' [Hs' [He [Hi [Ht _]]]]].
    eauto.
  - intros alloc out inp len ret ctx' out' H.
    destruct (cipher_kept _ _ _ _ _ _ _ _ _ Hs H)
      as [s' [Hs' [He [Hi [Ht _]]]]].
    eauto.
Qed.

(** X2.  The shape of a session - 16-byte [iv] and [tag] arrays, [ivLen] and
    [tagLen] between 0 and 16 - is kept by every control command and every
    cipher call that returns. *)
Theorem session_shape_kept (ctx : EVP_CIPHER_CTX) (s : we_AesGcm) :
  cipher_data ctx = Some s ->
  session_shape s ->
  (forall alloc type arg ptr ret ctx' ptr',
     we_aes_gcm_ctrl alloc ctx type arg ptr = Ok (ret, ctx', ptr') ->
     exists s', cipher_data ctx' = Some s' /\ session_shape s')
  /\ (forall alloc out inp len ret ctx' out',
       we_aes_gcm_cipher alloc ctx out inp len = Ok (ret, ctx', out') ->
       exists s', cipher_data ctx' = Some s' /\ session_shape s').
Proof.
  intros Hs Hshape. split.
  - intros alloc type arg ptr ret ctx' ptr' H.
    destruct (ctrl_kept _ _ _ _ _ _ _ _ _ Hs H) as [s' [Hs' [_ [_ [_ Hk]]]]].
    eauto.
  - intros alloc out inp len ret ctx' out' H.
    destruct (cipher_kept _ _ _ _ _ _ _ _ _ Hs H)
      as [s' [Hs' [_ [_ [_ Hk]]]]].
    eauto.
Qed.


End Invariants.

(** ** Initialisation and the simple control commands *)

Section Commands.
Context {W : WolfCrypt}.

(** X4.  [we_aes_gcm_init] on an initialised session, with a key or an IV,
    resets nothing: the direction stays what it was (the [enc] argument is
    not read), and so do the TLS-record mode, the pending AAD, the tag and
    its length. *)
Theorem reinit_keeps_session (ctx ctx' : EVP_CIPHER_CTX) (s : we_AesGcm)
    (key iv_arg : option buffer) (enc_arg ret : Z) :
  cipher_data ctx = Some s ->
  init s = true ->
  key <> None \/ iv_arg <> None ->
  we_aes_gcm_init ctx key iv_arg enc_arg = Ok (ret, ctx') ->
  exists s',
    cipher_data ctx' = Some s' /\ enc s' = enc s /\ tls s' = tls s
    /\ aad s' = aad s /\ aadLen s' = aadLen s
    /\ tag s' = tag s /\ tagLen s' = tagLen s /\ ivSet s' = ivSet s
    /\ init s' = true.
Proof.
  intros Hs Hinit Hgiven H. unfold we_aes_gcm_init in H.
  rewrite Hs, Hinit in H.
  destruct key as [k|], iv_arg as [v|];
    try (destruct Hgiven; congruence);
    cbn [orb negb] in H; cbv zeta in H;
    try match type of H with
      | context [wc_AesGcmSetKey ?x ?y ?z] =>
          destruct (wc_AesGcmSetKey x y z) as [rc a0]
      end;
    ok_inv_all; eexists; (split; [ reflexivity | ]);
    cbn [enc init tls iv tag ivLen tagLen aad aadLen aes ivSet
         set_aes set_iv set_ivLen];
    repeat split; assumption.
Qed.

(** X5.  An IV handed to [we_aes_gcm_init] is cached as 12 bytes whatever
    length [EVP_CTRL_AEAD_SET_IVLEN] configured before: after that command
    with a length [L] and an initialisation with the IV [v] alone, [ivLen]
    is 12 and the first 12 bytes of [iv] are those of [v]. *)
Theorem init_with_iv_sets_length_12 (alloc : bool) (ctx : EVP_CIPHER_CTX)
    (s : we_AesGcm) (L enc_arg : Z) (v : buffer) :
  cipher_data ctx = Some s ->
  length (iv s) = 16%nat ->
  1 <= L <= 16 ->
  (12 <= length v)%nat ->
  exists ctx1 s2,
    we_aes_gcm_ctrl alloc ctx EVP_CTRL_AEAD_SET_IVLEN L PtrNull =
      Ok (1, ctx1, PtrNull)
    /\ we_aes_gcm_init ctx1 None (Some v) enc_arg =
       Ok (1, set_cipher_data ctx1 s2)
    /\ ivLen s2 = 12
    /\ iv s2 = firstn 12 v ++ skipn 12 (iv s).
Proof.
  intros Hs Hiv HL Hv.
  assert (E : (L <=? 0) || (GCM_NONCE_MAX_SZ <? L) = false)
    by (apply orb_false_intro; change GCM_NONCE_MAX_SZ with 16; lia).
  assert (Hcopy : XMEMCPY (iv s) 0 v 0 GCM_NONCE_MID_SZ
                  = Ok (firstn 12 v ++ skipn 12 (iv s))).
  { unfold XMEMCPY. change GCM_NONCE_MID_SZ with 12.
    rewrite load_whole by lia. cbn [bind].
    rewrite store_whole by (rewrite length_firstn; lia).
    rewrite length_firstn.
    replace (Nat.min (Z.to_nat 12) (length v)) with 12%nat by lia.
    reflexivity. }
  destruct (init s) eqn:Ei;
    (eexists _, _; split; [ | split; [ | split ] ];
     [ unfold we_aes_gcm_ctrl; rewrite Hs, E; reflexivity
     | unfold we_aes_gcm_init; cbn [cipher_data set_cipher_data];
       cbn [init set_ivLen]; rewrite Ei;
       cbn [orb negb init set_ivLen iv ivLen Z.eqb Pos.eqb];
       rewrite Hcopy; reflexivity
     | reflexivity
     | reflexivity ]).
Qed.

End Commands.

(** ** Failing commands, and the tag commands *)

Section TagCommands.
Context {W : WolfCrypt}.

(** X6.  A control command other than [EVP_CTRL_AEAD_TLS1_AAD] and
    [EVP_CTRL_GCM_SET_IV_FIXED] that returns 0 has changed nothing: the
    context and the caller's buffer are as they were.  This includes every
    command on a context without cipher data and every unknown command. *)
Theorem failed_command_changes_nothing (alloc : bool) (ctx ctx' : EVP_CIPHER_CTX)
    (type : ctrl_type) (arg : Z) (ptr ptr' : ctrl_ptr) :
  type <> EVP_CTRL_AEAD_TLS1_AAD ->
  type <> EVP_CTRL_GCM_SET_IV_FIXED ->
  we_aes_gcm_ctrl alloc ctx type arg ptr = Ok (0, ctx', ptr') ->
  ctx' = ctx /\ ptr' = ptr.
Proof.
  intros Haad Hfixed H. unfold we_aes_gcm_ctrl in H.
  destruct (cipher_data ctx) as [s|]; [ | injection H; auto ].
  destruct type; try congruence; ok_inv_all;
    first [ split; reflexivity | discriminate ].
Qed.

(** X7.  [EVP_CTRL_AEAD_GET_IVLEN] reports what
    [EVP_CTRL_AEAD_SET_IVLEN] stored: after a length in [1, 16] it is that
    length; a length outside is refused and the reported length is the
    session's earlier one. *)
Theorem iv_length_round_trip (alloc : bool) (ctx : EVP_CIPHER_CTX)
    (s : we_AesGcm) (L v0 : Z) :
  cipher_data ctx = Some s ->
  exists ctx1,
    we_aes_gcm_ctrl alloc ctx EVP_CTRL_AEAD_SET_IVLEN L PtrNull =
      Ok ((if (1 <=? L) && (L <=? 16) then 1 else 0), ctx1, PtrNull)
    /\ we_aes_gcm_ctrl alloc ctx1 EVP_CTRL_GET_IVLEN 0 (PtrInt v0) =
       Ok (1, ctx1,
           PtrInt (if (1 <=? L) && (L <=? 16) then L else ivLen s)).
Proof.
  intros Hs. unfold we_aes_gcm_ctrl. rewrite Hs.
  change GCM_NONCE_MAX_SZ with 16.
  destruct ((L <=? 0) || (16 <? L)) eqn:E.
  - assert (E' : (1 <=? L) && (L <=? 16) = false).
    { apply andb_false_iff. apply orb_true_iff in E.
      destruct E as [E | E];
        [ left; apply Z.leb_gt; apply Z.leb_le in E; lia
        | right; apply Z.leb_gt; apply Z.ltb_lt in E; lia ]. }
    rewrite E'. exists ctx. rewrite Hs. split; reflexivity.
  - assert (E' : (1 <=? L) && (L <=? 16) = true).
    { apply orb_false_iff in E. destruct E as [E1 E2].
      apply Z.leb_gt in E1. apply Z.ltb_ge in E2.
      apply andb_true_iff. split; apply Z.leb_le; lia. }
    rewrite E'. eexists. split; [ reflexivity | ]. reflexivity.
Qed.

(** X8.  On an encrypt session [EVP_CTRL_AEAD_SET_TAG] stores no tag bytes
    but raises the tag length, so a following [EVP_CTRL_AEAD_GET_TAG] of at
    most that length succeeds and hands out the bytes the tag field held
    already, whether or not anything was encrypted. *)
Theorem set_tag_then_get_tag_on_encrypt (alloc : bool) (ctx : EVP_CIPHER_CTX)
    (s : we_AesGcm) (n m : Z) (ptr : ctrl_ptr) (dst : buffer) :
  cipher_data ctx = Some s ->
  enc s = true ->
  length (tag s) = 16%nat ->
  1 <= m <= n -> n <= 16 ->
  m <= Z.of_nat (length dst) ->
  exists ctx1,
    we_aes_gcm_ctrl alloc ctx EVP_CTRL_AEAD_SET_TAG n ptr = Ok (1, ctx1, ptr)
    /\ we_aes_gcm_ctrl alloc ctx1 EVP_CTRL_AEAD_GET_TAG m (PtrBuf dst) =
       Ok (1, ctx1, PtrBuf (firstn (Z.to_nat m) (tag s)
                            ++ skipn (Z.to_nat m) dst)).
Proof.
  intros Hs He Ht Hm Hn Hd.
  assert (E1 : (n <=? 0) || (AES_BLOCK_SIZE <? n) = false)
    by (apply orb_false_intro; change AES_BLOCK_SIZE with 16; lia).
  assert (E2 : (m <=? 0) || (n <? m) = false)
    by (apply orb_false_intro; lia).
  eexists. split.
  - unfold we_aes_gcm_ctrl. rewrite Hs, E1, He. reflexivity.
  - unfold we_aes_gcm_ctrl. cbn [cipher_data set_cipher_data].
    cbn [enc tagLen tag set_tagLen]. rewrite He. cbn [negb orb].
    rewrite E2. cbn [ptr_buf bind]. unfold XMEMCPY.
    rewrite load_whole by lia. cbn [bind].
    rewrite store_whole by (rewrite length_firstn; lia).
    rewrite length_firstn.
    replace (Nat.min (Z.to_nat m) (length (tag s))) with (Z.to_nat m) by lia.
    reflexivity.
Qed.

(** X9.  [EVP_CTRL_AEAD_GET_TAG] returns 0, whatever length is asked for,
    on a decrypt session and on a session whose tag length is 0 (as after
    initialisation, until an encryption or a tag-length command). *)
Theorem get_tag_refused (alloc : bool) (ctx : EVP_CIPHER_CTX) (s : we_AesGcm)
    (arg : Z) (ptr : ctrl_ptr) :
  cipher_data ctx = Some s ->
  enc s = false \/ tagLen s = 0 ->
  we_aes_gcm_ctrl alloc ctx EVP_CTRL_AEAD_GET_TAG arg ptr = Ok (0, ctx, ptr).
Proof.
  intros Hs H. unfold we_aes_gcm_ctrl. rewrite Hs.
  destruct H as [H | H].
  - rewrite H. reflexivity.
  - rewrite H. destruct (enc s); cbn [negb orb]; [ | reflexivity ].
    destruct (arg <=? 0) eqn:E; [ reflexivity | ].
    apply Z.leb_gt in E. cbn [orb].
    replace (0 <? arg) with true by (symmetry; apply Z.ltb_lt; lia).
    reflexivity.
Qed.

End TagCommands.

(** ** One-shot calls and the tag *)

Lemma XMEMCPY_whole (dst src : buffer) (n : Z) :
  0 <= n -> n <= Z.of_nat (length src) -> n <= Z.of_nat (length dst) ->
  XMEMCPY dst 0 src 0 n =
  Ok (firstn (Z.to_nat n) src ++ skipn (Z.to_nat n) dst).
Proof.
  intros H0 Hs Hd. unfold XMEMCPY. rewrite load_whole by lia. cbn [bind].
  rewrite store_whole by (rewrite length_firstn; lia).
  rewrite length_firstn.
  replace (Nat.min (Z.to_nat n) (length src)) with (Z.to_nat n) by lia.
  reflexivity.
Qed.

Lemma firstn_app_exact {A : Type} (n : nat) (l1 l2 : list A) :
  length l1 = n -> firstn n (l1 ++ l2) = l1.
Proof.
  intros <-. rewrite firstn_app, Nat.sub_diag, firstn_O, app_nil_r.
  apply firstn_all.
Qed.

Section OneShotTag.
Context {W : WolfCrypt}.

(** X10.  On a decrypt session the tag that [EVP_CTRL_AEAD_SET_TAG] stored is
    the tag of the next one-shot call: wolfCrypt is asked to check exactly
    the [n] bytes given, against the first [len] bytes of the input; the call
    returns [len] and the output holds what wolfCrypt produced. *)
Theorem decrypt_checks_the_set_tag (alloc : bool) (ctx : EVP_CIPHER_CTX)
    (s : we_AesGcm) (n len : Z) (t o inp d : buffer) :
  cipher_data ctx = Some s ->
  tls s = false -> enc s = false ->
  length (iv s) = 16%nat -> length (tag s) = 16%nat ->
  0 <= ivLen s <= 16 ->
  1 <= n <= 16 -> n <= Z.of_nat (length t) ->
  0 < len < 2 ^ 31 ->
  len <= Z.of_nat (length o) -> len <= Z.of_nat (length inp) ->
  load_ptr (aad s) (aadLen s) = Ok d ->
  let r := wc_AesGcmDecrypt (aes s) (firstn (Z.to_nat len) o)
             (firstn (Z.to_nat len) inp) (firstn (Z.to_nat (ivLen s)) (iv s))
             (firstn (Z.to_nat n) t) d in
  exists ctx1 s2,
    we_aes_gcm_ctrl alloc ctx EVP_CTRL_AEAD_SET_TAG n (PtrBuf t) =
      Ok (1, ctx1, PtrBuf t)
    /\ we_aes_gcm_cipher alloc ctx1 (Some o) inp len =
       Ok (len, set_cipher_data ctx1 s2,
           Some (dec_out r ++ skipn (Z.to_nat len) o))
    /\ aes s2 = dec_aes r /\ tagLen s2 = n.
Proof.
  intros Hs Htls He Hiv Htag Hivl Hn Ht Hlen Ho Hi Haad r.
  assert (E1 : (n <=? 0) || (AES_BLOCK_SIZE <? n) = false)
    by (apply orb_false_intro; change AES_BLOCK_SIZE with 16; lia).
  assert (E0 : (len =? 0) = false) by lia.
  assert (E2 : (0 <? len) = true) by lia.
  assert (Hro : length (dec_out r) = Z.to_nat len).
  { unfold r. rewrite dec_out_length, length_firstn. lia. }
  assert (Hcall : exists s2,
    we_aes_gcm_cipher alloc
      (set_cipher_data ctx
         (set_tagLen
            (set_tag s (firstn (Z.to_nat n) t ++ skipn (Z.to_nat n) (tag s)))
            n))
      (Some o) inp len =
    Ok (len,
        set_cipher_data
          (set_cipher_data ctx
             (set_tagLen
                (set_tag s
                   (firstn (Z.to_nat n) t ++ skipn (Z.to_nat n) (tag s)))
                n)) s2,
        Some (dec_out r ++ skipn (Z.to_nat len) o))
    /\ aes s2 = dec_aes r /\ tagLen s2 = n).
  { unfold we_aes_gcm_cipher. cbn [cipher_data set_cipher_data].
    cbn [tls enc set_tagLen set_tag]. rewrite Htls, He, E0, E2.
    unfold gcm_decrypt. rewrite to_word32_small, to_int_small by lia.
    cbn [iv ivLen tag tagLen aad aadLen aes set_tagLen set_tag].
    rewrite !load_whole
      by (rewrite ?length_app, ?length_firstn, ?length_skipn; lia).
    cbn [bind]. rewrite Haad. cbn [bind].
    rewrite firstn_app_exact by (rewrite length_firstn; lia).
    fold r. rewrite store_whole by lia. cbn [bind]. rewrite Hro.
    destruct (negb (dec_rc r =? 0)).
    - cbn [bind]. eexists. split; [ reflexivity | split; reflexivity ].
    - change (1 =? 1) with true. cbv iota.
      cbn [aes iv ivLen set_aes set_tagLen set_tag].
      rewrite XMEMCPY_whole by (rewrite ?aes_reg_length; lia).
      cbn [bind]. eexists. split; [ reflexivity | split; reflexivity ]. }
  destruct Hcall as [s2 Hcall].
  eexists _, s2. split; [ | exact Hcall ].
  unfold we_aes_gcm_ctrl. rewrite Hs, E1, He. cbn [ptr_buf bind].
  rewrite XMEMCPY_whole by lia. reflexivity.
Qed.

(** X11.  After a one-shot encryption that reaches wolfCrypt (the IV was set
    before, or [wc_AesGcmSetExtIV] accepts it), [EVP_CTRL_AEAD_GET_TAG]
    with any length [m] in [1, 16] hands out the first [m] bytes of the tag
    wolfCrypt computed; the output holds wolfCrypt's cipher text.  This does
    not depend on the answer of [wc_AesGcmEncrypt_ex]. *)
Theorem encrypt_then_get_tag (alloc : bool) (ctx : EVP_CIPHER_CTX)
    (s : we_AesGcm) (len : Z) (o inp d : buffer) :
  cipher_data ctx = Some s ->
  tls s = false -> enc s = true ->
  length (iv s) = 16%nat -> length (tag s) = 16%nat ->
  0 <= ivLen s <= 16 ->
  0 < len < 2 ^ 31 ->
  len <= Z.of_nat (length o) -> len <= Z.of_nat (length inp) ->
  load_ptr (aad s) (aadLen s) = Ok d ->
  let x := wc_AesGcmSetExtIV (aes s) (firstn (Z.to_nat (ivLen s)) (iv s)) in
  (ivSet s = 0 -> fst x = 0) ->
  let r := wc_AesGcmEncrypt_ex (if ivSet s =? 0 then snd x else aes s)
             (firstn (Z.to_nat len) o) (firstn (Z.to_nat len) inp)
             (firstn (Z.to_nat (ivLen s)) (iv s)) (tag s) d in
  exists ctx1,
    we_aes_gcm_cipher alloc ctx (Some o) inp len =
      Ok (len, ctx1, Some (enc_out r ++ skipn (Z.to_nat len) o))
    /\ forall (m : Z) (dst : buffer),
         1 <= m <= 16 -> m <= Z.of_nat (length dst) ->
         we_aes_gcm_ctrl alloc ctx1 EVP_CTRL_AEAD_GET_TAG m (PtrBuf dst) =
         Ok (1, ctx1, PtrBuf (firstn (Z.to_nat m) (enc_tag r)
                              ++ skipn (Z.to_nat m) dst)).
Proof.
  intros Hs Htls He Hiv Htag Hivl Hlen Ho Hi Haad x Hx r.
  assert (E0 : (len =? 0) = false) by lia.
  assert (E2 : (0 <? len) = true) by lia.
  assert (Hro : length (enc_out r) = Z.to_nat len).
  { unfold r. rewrite enc_out_length, length_firstn. lia. }
  assert (Hrt : length (enc_tag r) = 16%nat).
  { unfold r. rewrite enc_tag_length. exact Htag. }
  assert (Hrv : (length (enc_iv r) <= 16)%nat).
  { unfold r. rewrite enc_iv_length, length_firstn. lia. }
  assert (Hget : forall s2,
            enc s2 = true -> tagLen s2 = 16 -> tag s2 = enc_tag r ->
            forall (m : Z) (dst : buffer),
              1 <= m <= 16 -> m <= Z.of_nat (length dst) ->
              we_aes_gcm_ctrl alloc (set_cipher_data ctx s2)
                EVP_CTRL_AEAD_GET_TAG m (PtrBuf dst) =
              Ok (1, set_cipher_data ctx s2,
                  PtrBuf (firstn (Z.to_nat m) (enc_tag r)
                          ++ skipn (Z.to_nat m) dst))).
  { intros s2 H1 H2 H3 m dst Hm Hd. unfold we_aes_gcm_ctrl.
    cbn [cipher_data set_cipher_data]. rewrite H1, H2, H3.
    assert (E : (m <=? 0) || (16 <? m) = false)
      by (apply orb_false_intro; lia).
    cbn [negb orb]. rewrite E. cbn [ptr_buf bind].
    rewrite XMEMCPY_whole by lia. reflexivity. }
  assert (Hfirst : exists s1,
            (if ivSet s =? 0
             then
               let* p_iv := load (iv s) 0 (ivLen s) in
               let '(rc, a) := wc_AesGcmSetExtIV (aes s) p_iv in
               Ok (if negb (rc =? 0) then 0 else 1, set_aes s a)
             else Ok (1, s)) = Ok (1, s1)
            /\ s1 = set_aes s (if ivSet s =? 0 then snd x else aes s)).
  { destruct (ivSet s =? 0) eqn:E.
    - rewrite load_whole by lia. cbn [bind]. fold x.
      apply Z.eqb_eq in E. specialize (Hx E).
      destruct x as [rc a]. cbn [fst snd] in *. subst rc.
      eexists. split; reflexivity.
    - exists s. split; [ reflexivity | destruct s; reflexivity ]. }
  destruct Hfirst as [s1 [Hfirst Hs1]].
  unfold we_aes_gcm_cipher. rewrite Hs, Htls, E0, E2, He.
  unfold gcm_encrypt. rewrite Hfirst. cbn [bind].
  change (1 =? 1) with true. cbv iota.
  rewrite to_word32_small, to_int_small by lia.
  cbn [iv ivLen tag tagLen aad aadLen aes set_tagLen].
  rewrite Hs1. cbn [iv ivLen tag tagLen aad aadLen aes set_aes].
  change EVP_GCM_TLS_TAG_LEN with 16.
  rewrite !load_whole by lia. cbn [bind]. rewrite Haad. cbn [bind].
  replace (firstn (Z.to_nat 16) (tag s)) with (tag s)
    by (symmetry; apply firstn_all2; lia).
  fold r. rewrite !store_whole by lia. cbn [bind].
  rewrite Hro, Hrt.
  replace (skipn 16 (tag s)) with (@nil byte)
    by (symmetry; apply skipn_all2; lia).
  rewrite app_nil_r.
  destruct (negb (enc_rc r =? 0)).
  - cbn [bind]. eexists. split; [ reflexivity | ].
    apply Hget; reflexivity || exact He.
  - change (1 =? 1) with true. cbv iota.
    cbn [aes iv ivLen set_tag set_iv set_aes set_tagLen].
    rewrite XMEMCPY_whole
      by (rewrite ?aes_reg_length, ?length_app, ?length_skipn; lia).
    cbn [bind]. eexists. split; [ reflexivity | ].
    apply Hget; reflexivity || exact He.
Qed.

(** X12.  When [wc_AesGcmSetExtIV] refuses the IV of an encrypt session,
    the one-shot call encrypts nothing: the output buffer, the IV and the tag
    are as before and the tag length is not raised; the AAD is dropped all
    the same and the call returns [len]. *)
Theorem encrypt_with_refused_iv (alloc : bool) (ctx : EVP_CIPHER_CTX)
    (s : we_AesGcm) (len : Z) (o inp : buffer) :
  cipher_data ctx = Some s ->
  tls s = false -> enc s = true -> ivSet s = 0 ->
  0 <= ivLen s <= Z.of_nat (length (iv s)) ->
  0 < len < 2 ^ 31 ->
  let x := wc_AesGcmSetExtIV (aes s) (firstn (Z.to_nat (ivLen s)) (iv s)) in
  fst x <> 0 ->
  we_aes_gcm_cipher alloc ctx (Some o) inp len =
  Ok (len, set_cipher_data ctx (dispose_aad (set_aes s (snd x))), Some o).
Proof.
  intros Hs Htls He Hset Hivl Hlen x Hx.
  assert (E0 : (len =? 0) = false) by lia.
  assert (E2 : (0 <? len) = true) by lia.
  unfold we_aes_gcm_cipher. rewrite Hs, Htls, E0, E2, He.
  unfold gcm_encrypt. rewrite Hset. change (0 =? 0) with true. cbv iota.
  rewrite load_whole by lia. cbn [bind]. fold x.
  destruct x as [rc a]. cbn [fst snd] in *.
  assert (E : (rc =? 0) = false) by (apply Z.eqb_neq; exact Hx).
  rewrite E. cbn [negb bind]. change (0 =? 1) with false. cbv iota.
  cbn [bind]. rewrite to_int_small by lia. reflexivity.
Qed.

End OneShotTag.

(** ** TLS records *)

Section TlsRecordMore.
Context {W : WolfCrypt}.

(** X13.  A decrypt session in TLS-record mode, called on [len] bytes made
    of an 8-byte explicit IV, a cipher text [ct] and a 16-byte tag, copies
    the explicit IV into bytes 4 to 11 of its IV, has wolfCrypt decrypt [ct]
    under that IV and check the trailing tag, writes the plaintext at offset
    8 of the output and leaves the first 8 bytes and everything after the
    plaintext alone.  It returns 0 when wolfCrypt fails; on success the
    plaintext length before OpenSSL 3 and [len] from OpenSSL 3 on.  The AAD
    is disposed of either way. *)
Theorem tls_decrypt_framing (alloc : bool) (ctx : EVP_CIPHER_CTX)
    (s : we_AesGcm) (oa om orest ia ct it irest d : buffer) :
  cipher_data ctx = Some s ->
  tls s = true ->
  enc s = false ->
  length (iv s) = 16%nat ->
  0 <= ivLen s <= 16 ->
  load_ptr (aad s) (aadLen s) = Ok d ->
  length oa = 8%nat ->
  length om = length ct ->
  length ia = 8%nat ->
  length it = 16%nat ->
  let len := 8 + Z.of_nat (length ct) + 16 in
  len < 2 ^ 31 ->
  let iv1 := firstn 4 (iv s) ++ ia ++ skipn 12 (iv s) in
  let r := wc_AesGcmDecrypt (aes s) om ct
             (firstn (Z.to_nat (ivLen s)) iv1) it d in
  we_aes_gcm_cipher alloc ctx (Some (oa ++ om ++ orest))
    (ia ++ ct ++ it ++ irest) len =
    Ok (if dec_rc r =? 0
        then (if openssl_before_3 then Z.of_nat (length ct) else len)
        else 0,
        set_cipher_data ctx
          (dispose_aad (set_aes (set_iv s iv1) (dec_aes r))),
        Some (oa ++ dec_out r ++ orest))
  /\ length (dec_out r) = length ct.
Proof.
  intros Hs Htls Henc Hiv Hivlen Haad Hoa Hom Hia Hit len Hlen iv1 r.
  assert (Hro : length (dec_out r) = length om) by apply dec_out_length.
  assert (Hiv1 : length iv1 = 16%nat).
  { unfold iv1. rewrite !length_app, length_firstn, length_skipn. lia. }
  split; [ | lia ].
  unfold we_aes_gcm_cipher. rewrite Hs, Htls.
  unfold we_aes_gcm_tls_cipher. rewrite Henc.
  change EVP_GCM_TLS_EXPLICIT_IV_LEN with 8.
  change EVP_GCM_TLS_TAG_LEN with 16.
  change EVP_GCM_TLS_FIXED_IV_LEN with 4.
  assert (E0 : (len =? 0) = false) by lia. rewrite E0. cbn [negb].
  rewrite (to_word32_small len) by lia.
  replace (len - 8 - 16) with (Z.of_nat (length ct)) by lia.
  rewrite (to_word32_small (Z.of_nat (length ct))) by lia.
  (* the explicit IV goes from the input into the IV *)
  unfold XMEMCPY.
  rewrite (load_whole (ia ++ ct ++ it ++ irest) 8)
    by (rewrite length_app; lia).
  change (Z.to_nat 8) with 8%nat.
  rewrite (firstn_app_exact 8 ia) by assumption. cbn [bind].
  rewrite (store_ok (iv s) 4 ia) by lia. cbn [bind].
  change (Z.to_nat 4) with 4%nat. rewrite Hia.
  change (4 + 8)%nat with 12%nat. fold iv1.
  cbn [deref bind iv ivLen aad aadLen aes set_iv].
  (* the regions handed to wolfCrypt *)
  replace 8 with (Z.of_nat (length oa)) at 1 by lia.
  rewrite <- Hom at 1. rewrite (load_middle oa om orest). cbn [bind].
  replace 8 with (Z.of_nat (length ia)) at 1 by lia.
  rewrite (load_middle ia ct (it ++ irest)). cbn [bind].
  rewrite (load_whole iv1) by lia. cbn [bind].
  replace (ia ++ ct ++ it ++ irest) with ((ia ++ ct) ++ it ++ irest)
    by (rewrite <- app_assoc; reflexivity).
  replace (len - 16) with (Z.of_nat (length (ia ++ ct)))
    by (rewrite length_app; lia).
  replace 16 with (Z.of_nat (length it)) at 1 by lia.
  rewrite (load_middle (ia ++ ct) it irest). cbn [bind].
  rewrite Haad. cbn [bind]. fold r.
  (* the plaintext *)
  replace 8 with (Z.of_nat (length oa)) at 1 by lia.
  rewrite (store_middle oa om orest (dec_out r)) by assumption.
  cbn [bind].
  destruct (dec_rc r =? 0); cbn [negb].
  - change (1 =? 1) with true. cbv iota.
    rewrite (to_int_small len), (to_int_small (Z.of_nat (length ct)))
      by lia.
    reflexivity.
  - reflexivity.
Qed.

(** X14.  In TLS-record mode a call with a length between 1 and 23, less
    than the explicit IV and the tag together, is undefined in both
    directions: the payload length wraps around to about [2 ^ 32] and the
    region handed to wolfCrypt lies outside the output buffer. *)
Theorem tls_short_record_undefined (alloc : bool) (ctx : EVP_CIPHER_CTX)
    (s : we_AesGcm) (out : option buffer) (inp : buffer) (len : Z) :
  cipher_data ctx = Some s ->
  tls s = true ->
  0 < len < 24 ->
  (forall o, out = Some o -> Z.of_nat (length o) < 2 ^ 32 - 16) ->
  we_aes_gcm_cipher alloc ctx out inp len = Undefined.
Proof.
  intros Hs Htls Hlen Hout.
  unfold we_aes_gcm_cipher. rewrite Hs, Htls.
  unfold we_aes_gcm_tls_cipher.
  change EVP_GCM_TLS_EXPLICIT_IV_LEN with 8.
  change EVP_GCM_TLS_TAG_LEN with 16.
  change EVP_GCM_TLS_FIXED_IV_LEN with 4.
  assert (E0 : (len =? 0) = false) by lia. rewrite E0. cbn [negb].
  rewrite (to_word32_small len) by lia.
  assert (Ew : to_word32 (len - 8 - 16) = len - 24 + 2 ^ 32).
  { unfold to_word32.
    replace (len - 8 - 16) with (len - 24 + 2 ^ 32 + (-1) * 2 ^ 32) by lia.
    rewrite Z.mod_add by lia. apply Z.mod_small. lia. }
  rewrite Ew.
  assert (Hload : forall o : buffer,
            Z.of_nat (length o) < 2 ^ 32 - 16 ->
            load o 8 (len - 24 + 2 ^ 32) = Undefined).
  { intros o Ho. unfold load, in_bounds.
    assert (E : (8 + (len - 24 + 2 ^ 32) <=? Z.of_nat (length o)) = false)
      by (apply Z.leb_gt; lia).
    rewrite E, andb_false_r. reflexivity. }
  destruct (enc s).
  - destruct out as [o|]; [ | reflexivity ].
    cbn [deref bind].
    destruct (XMEMCPY o 0 (iv s) 4 8) as [o1|] eqn:Ecopy; [ | reflexivity ].
    cbn [bind]. rewrite Hload; [ reflexivity | ].
    rewrite (XMEMCPY_length _ _ _ _ _ _ Ecopy). apply Hout. reflexivity.
  - destruct (XMEMCPY (iv s) 4 inp 0 8) as [v|]; [ | reflexivity ].
    cbn [bind]. destruct out as [o|]; [ | reflexivity ].
    cbn [deref bind]. rewrite Hload; [ reflexivity | ].
    apply Hout. reflexivity.
Qed.

(** X15.  In TLS-record mode a call with a non-zero length and no output
    buffer is undefined in both directions: the AAD-only call of the one-shot
    mode does not exist there. *)
Theorem tls_call_needs_output (alloc : bool) (ctx : EVP_CIPHER_CTX)
    (s : we_AesGcm) (inp : buffer) (len : Z) :
  cipher_data ctx = Some s ->
  tls s = true ->
  len <> 0 ->
  we_aes_gcm_cipher alloc ctx None inp len = Undefined.
Proof.
  intros Hs Htls Hlen.
  unfold we_aes_gcm_cipher. rewrite Hs, Htls.
  unfold we_aes_gcm_tls_cipher.
  assert (E0 : (len =? 0) = false) by (apply Z.eqb_neq; exact Hlen).
  rewrite E0. cbn [negb].
  destruct (enc s).
  - reflexivity.
  - destruct (XMEMCPY _ _ _ _ _); reflexivity.
Qed.

End TlsRecordMore.

(** ** The AAD of a TLS record, and the bookkeeping of the AAD *)

Lemma to_int_add_to_int (a l : Z) : to_int (a + to_int l) = to_int (a + l).
Proof.
  unfold to_int.
  replace (a + ((l + 2 ^ 31) mod 2 ^ 32 - 2 ^ 31) + 2 ^ 31)
    with (a + (l + 2 ^ 31) mod 2 ^ 32) by lia.
  rewrite Zplus_mod_idemp_r.
  replace (a + (l + 2 ^ 31)) with (a + l + 2 ^ 31) by lia. reflexivity.
Qed.

Lemma OPENSSL_realloc_length (ok : bool) (old : option buffer) (p : buffer)
    (num : Z) :
  OPENSSL_realloc ok old num = Some p -> Z.of_nat (length p) = num.
Proof.
  unfold OPENSSL_realloc. destruct (ok && (0 <? num)) eqn:E; [ | discriminate ].
  intros H. injection H as <-. apply andb_prop in E. destruct E as [_ E].
  apply Z.ltb_lt in E.
  rewrite length_firstn, length_app, repeat_length. lia.
Qed.

Lemma OPENSSL_malloc_length (ok : bool) (p : buffer) (num : Z) :
  OPENSSL_malloc ok num = Some p -> Z.of_nat (length p) = num.
Proof.
  unfold OPENSSL_malloc. destruct (ok && (0 <? num)) eqn:E; [ | discriminate ].
  intros H. injection H as <-. apply andb_prop in E. destruct E as [_ E].
  apply Z.ltb_lt in E. rewrite repeat_length. lia.
Qed.

Section TlsAadMore.
Context {W : WolfCrypt}.

(** X16.  The two ends of a TLS connection authenticate the same 13 bytes:
    for a record with 8 bytes of explicit IV and [L - 8] bytes of payload,
    [EVP_CTRL_AEAD_TLS1_AAD] on the encrypt side, whose header announces
    [L], and on the decrypt side, whose header announces [L + 16] for the
    tag, store the same AAD, with length field [L - 8]; it is what the next
    payload call hands to wolfCrypt. *)
Theorem tls_aad_same_on_both_sides (ctx_e ctx_d : EVP_CIPHER_CTX)
    (s_e s_d : we_AesGcm) (pre : buffer) (L : Z) :
  cipher_data ctx_e = Some s_e ->
  cipher_data ctx_d = Some s_d ->
  enc s_e = true ->
  enc s_d = false ->
  length pre = 11%nat ->
  8 <= L -> L + 16 < 65536 ->
  let a := pre ++ be_encode 2 (L - 8) in
  let hdr_e := pre ++ be_encode 2 L in
  let hdr_d := pre ++ be_encode 2 (L + 16) in
  we_aes_gcm_ctrl true ctx_e EVP_CTRL_AEAD_TLS1_AAD 13 (PtrBuf hdr_e) =
    Ok (16, set_cipher_data ctx_e (set_tls (with_raw_header s_e a) true),
        PtrBuf hdr_e)
  /\ we_aes_gcm_ctrl true ctx_d EVP_CTRL_AEAD_TLS1_AAD 13 (PtrBuf hdr_d) =
     Ok (16, set_cipher_data ctx_d (set_tls (with_raw_header s_d a) true),
         PtrBuf hdr_d)
  /\ tls_record_length a = L - 8
  /\ forall s : we_AesGcm,
       let s' := set_tls (with_raw_header s a) true in
       load_ptr (aad s') (aadLen s') = Ok a.
Proof.
  intros He Hd Eenc Edec Hpre H8 H16 a hdr_e hdr_d.
  assert (Hlen : forall z, length (pre ++ be_encode 2 z) = 13%nat)
    by (intros z; rewrite length_app, be_encode_length; lia).
  assert (Hfst : forall z, firstn 11 (pre ++ be_encode 2 z) = pre)
    by (intros z; apply firstn_app_exact; exact Hpre).
  split; [ | split; [ | split ] ].
  - unfold we_aes_gcm_ctrl. rewrite He.
    rewrite (ctrl_tls1_aad_13 s_e hdr_e (Hlen L)). unfold hdr_e.
    rewrite tls_record_length_encode, Hfst, Eenc by lia.
    assert (E : (L <? 8) = false) by lia. rewrite E. reflexivity.
  - unfold we_aes_gcm_ctrl. rewrite Hd.
    rewrite (ctrl_tls1_aad_13 s_d hdr_d (Hlen (L + 16))). unfold hdr_d.
    rewrite tls_record_length_encode, Hfst, Edec by lia.
    assert (E : (L + 16 <? 8) = false) by lia.
    assert (E' : (L + 16 - 8 <? 16) = false) by lia.
    rewrite E, E'. cbn [negb andb bind].
    replace (L + 16 - 8 - 16) with (L - 8) by lia. reflexivity.
  - apply tls_record_length_encode; [ exact Hpre | lia ].
  - intros s s'. unfold s', with_raw_header.
    cbn [aad aadLen set_tls set_aadLen set_aad load_ptr].
    rewrite load_whole by (unfold a; rewrite Hlen; lia).
    rewrite firstn_all2 by (unfold a; rewrite Hlen; simpl; lia).
    reflexivity.
Qed.

Lemma ctrl_tls1_aad_consistent (s s' : we_AesGcm) (arg ret : Z)
    (ptr : ctrl_ptr) :
  ctrl_tls1_aad true s arg ptr = Ok (ret, s') ->
  aad_consistent s -> aad_consistent s'.
Proof.
  unfold ctrl_tls1_aad. intros H Hc. cbv zeta in H.
  destruct (negb (arg =? EVP_AEAD_TLS1_AAD_LEN)) eqn:E.
  { injection H as _ <-. exact Hc. }
  apply negb_false_iff, Z.eqb_eq in E. subst arg.
  destruct (OPENSSL_malloc true EVP_AEAD_TLS1_AAD_LEN) as [p|] eqn:Ep;
    [ | discriminate ].
  apply OPENSSL_malloc_length in Ep. unfold store1 in H.
  ok_inv_all; lengths; unfold aad_consistent, aad_bytes;
    cbn [aad aadLen set_tls set_aad set_aadLen]; lia.
Qed.


End TlsAadMore.

(** ** The nonce commands *)

(** [next_nonce n] on a 16-byte buffer, for any [n] from 8 to 16: the
    counter in bytes [n - 8 .. n - 1] grows by one modulo [2 ^ 64] and all
    other bytes stay. *)
Lemma next_nonce_window (n : Z) (v : buffer) :
  length v = 16%nat ->
  8 <= n <= 16 ->
  let k := Z.to_nat (n - 8) in
  be_value (firstn 8 (skipn k (next_nonce n v)))
    = (be_value (firstn 8 (skipn k v)) + 1) mod 2 ^ 64
  /\ firstn k (next_nonce n v) = firstn k v
  /\ skipn (k + 8) (next_nonce n v) = skipn (k + 8) v
  /\ length (next_nonce n v) = 16%nat.
Proof.
  intros Hv Hn k. unfold next_nonce. fold k.
  assert (Hk : (k <= 8)%nat) by (unfold k; lia).
  set (c := be_value (firstn 8 (skipn k v)) + 1).
  assert (Hp : length (firstn k v) = k) by (rewrite length_firstn; lia).
  assert (H8 : length (be_encode 8 c) = 8%nat) by apply be_encode_length.
  assert (Hc : be_value (be_encode 8 c) = c mod 2 ^ 64)
    by apply be_value_be_encode.
  set (e := be_encode 8 c) in *. set (p := firstn k v) in *.
  set (q := skipn (k + 8) v).
  split; [ | split; [ | split ] ].
  - rewrite skipn_app, Hp, Nat.sub_diag, skipn_all2 by lia.
    rewrite skipn_O, app_nil_l.
    rewrite firstn_app, H8, Nat.sub_diag, firstn_all2 by lia.
    rewrite firstn_O, app_nil_r. exact Hc.
  - rewrite firstn_app, Hp, Nat.sub_diag, firstn_all2 by lia.
    rewrite firstn_O. apply app_nil_r.
  - rewrite skipn_app, Hp, skipn_all2 by lia. rewrite app_nil_l.
    rewrite skipn_app, H8, skipn_all2 by lia. rewrite app_nil_l.
    replace (k + 8 - k - 8)%nat with 0%nat by lia. rewrite skipn_O.
    reflexivity.
  - rewrite !length_app, Hp, H8. unfold q. rewrite length_skipn. lia.
Qed.

Section NonceMore.
Context {W : WolfCrypt}.

Lemma iv_gen_calls_count (ctx : EVP_CIPHER_CTX) (s : we_AesGcm)
    (seed : buffer) (arg : Z) (n : N) :
  cipher_data ctx = Some s ->
  length (iv s) = 16%nat ->
  8 <= ivLen s <= 16 ->
  1 <= arg <= ivLen s - 8 ->
  arg <= Z.of_nat (length seed) ->
  exists c' s',
    iv_gen_calls n seed arg ctx = Ok c'
    /\ cipher_data c' = Some s'
    /\ ivLen s' = ivLen s
    /\ length (iv s') = 16%nat
    /\ nonce_counter s' = (nonce_counter s + Z.of_N n) mod 2 ^ 64.
Proof.
  intros Hs Hiv Hlen Harg Hseed.
  induction n as [|n IH] using N.peano_ind.
  - exists ctx, s. split; [ reflexivity | ].
    split; [ exact Hs | ]. split; [ reflexivity | ]. split; [ exact Hiv | ].
    rewrite Z.add_0_r. symmetry. apply Z.mod_small. unfold nonce_counter.
    match goal with
    | |- 0 <= be_value ?w < _ =>
        pose proof (be_value_range w) as Hr;
        assert (Hw : length w = 8%nat)
          by (rewrite length_firstn, length_skipn; lia);
        rewrite Hw in Hr; change (256 ^ Z.of_nat 8) with (2 ^ 64) in Hr;
        exact Hr
    end.
  - destruct IH as [c1 [s1 [Hcalls [Hs1 [Hl1 [Hiv1 Hc1]]]]]].
    unfold iv_gen_calls in *. rewrite N.iter_succ, Hcalls. cbn [bind].
    unfold iv_gen_call.
    rewrite (ctrl_iv_gen true c1 s1 seed arg) by (assumption || lia).
    cbn [bind].
    set (v := firstn (Z.to_nat arg) seed ++ skipn (Z.to_nat arg) (iv s1)).
    assert (Hv : length v = 16%nat).
    { unfold v. rewrite length_app, length_firstn, length_skipn. lia. }
    assert (Hl1' : 8 <= ivLen s1 <= 16) by lia.
    destruct (next_nonce_window (ivLen s1) v Hv Hl1') as [Hn1 [_ [_ Hn4]]].
    eexists _, _. split; [ reflexivity | ].
    split; [ reflexivity | ]. split; [ exact Hl1 | ].
    split; [ exact Hn4 | ].
    unfold nonce_counter at 1. cbn [ivLen iv set_iv]. rewrite Hn1.
    assert (Hwin : skipn (Z.to_nat (ivLen s1 - 8)) v
                   = skipn (Z.to_nat (ivLen s1 - 8)) (iv s1)).
    { unfold v. rewrite skipn_app, length_firstn.
      rewrite skipn_all2 by (rewrite length_firstn; lia).
      rewrite app_nil_l, skipn_skipn. f_equal. lia. }
    rewrite Hwin. fold (nonce_counter s1). rewrite Hc1.
    rewrite Zplus_mod_idemp_l, N2Z.inj_succ. f_equal. lia.
Qed.

(** X18.  When the seed of [EVP_CTRL_GCM_IV_GEN] ends before the counter
    window (its length is at most [ivLen - 8]), the last 8 bytes of the
    nonce are a counter modulo [2 ^ 64]: [n] successive commands add [n],
    and the nonce differs from the first one for every [n] from 1 to
    [2 ^ 64 - 1]. *)
Theorem iv_gen_counts_modulo_2_64 (ctx : EVP_CIPHER_CTX) (s : we_AesGcm)
    (seed : buffer) (arg : Z) (n : N) :
  cipher_data ctx = Some s ->
  length (iv s) = 16%nat ->
  8 <= ivLen s <= 16 ->
  1 <= arg <= ivLen s - 8 ->
  arg <= Z.of_nat (length seed) ->
  exists c' s',
    iv_gen_calls n seed arg ctx = Ok c'
    /\ cipher_data c' = Some s'
    /\ nonce_counter s' = (nonce_counter s + Z.of_N n) mod 2 ^ 64
    /\ ((0 < n < 2 ^ 64)%N -> iv s' <> iv s).
Proof.
  intros Hs Hiv Hlen Harg Hseed.
  destruct (iv_gen_calls_count ctx s seed arg n Hs Hiv Hlen Harg Hseed)
    as [c' [s' [Hcalls [Hs' [Hl' [Hiv' Hc']]]]]].
  exists c', s'. split; [ exact Hcalls | ]. split; [ exact Hs' | ].
  split; [ exact Hc' | ].
  intros Hn Heq.
  assert (Hsame : nonce_counter s' = nonce_counter s)
    by (unfold nonce_counter; rewrite Heq, Hl'; reflexivity).
  rewrite Hsame in Hc'.
  assert (Hr : 0 <= nonce_counter s < 2 ^ 64).
  { unfold nonce_counter.
    match goal with
    | |- 0 <= be_value ?w < _ =>
        pose proof (be_value_range w) as Hr;
        assert (Hw : length w = 8%nat)
          by (rewrite length_firstn, length_skipn; lia);
        rewrite Hw in Hr; change (256 ^ Z.of_nat 8) with (2 ^ 64) in Hr;
        exact Hr
    end. }
  assert (Hn' : 0 < Z.of_N n < 2 ^ 64).
  { destruct Hn as [Hn1 Hn2]. split; [ lia | ].
    change (2 ^ 64) with (Z.of_N (2 ^ 64)). lia. }
  destruct (Z_lt_le_dec (nonce_counter s + Z.of_N n) (2 ^ 64)) as [Hlt | Hge].
  - rewrite Z.mod_small in Hc' by lia. lia.
  - replace (nonce_counter s + Z.of_N n)
      with (nonce_counter s + Z.of_N n - 2 ^ 64 + 1 * 2 ^ 64) in Hc' by lia.
    rewrite Z.mod_add in Hc' by lia.
    rewrite Z.mod_small in Hc' by lia. lia.
Qed.

(** X19.  [EVP_CTRL_GCM_SET_IV_FIXED] leaves the same nonce in the session
    and in the IV of the OpenSSL context.  An IV length of 0 becomes 12
    first, and stays 12 when the command fails.  With argument -1 the nonce
    is the caller's bytes and [ivSet] is not touched; with another argument
    it is the nonce wolfCrypt generated and [ivSet] becomes 1, or, when
    [wc_AesGcmSetIV] fails, both IVs stay as they were and the command
    returns 0. *)
Theorem set_iv_fixed_copies_nonce (alloc : bool) (ctx : EVP_CIPHER_CTX)
    (s : we_AesGcm) :
  cipher_data ctx = Some s ->
  length (iv s) = 16%nat ->
  length (ctx_iv ctx) = 16%nat ->
  0 <= ivLen s <= 16 ->
  let L := if ivLen s =? 0 then 12 else ivLen s in
  let n := Z.to_nat L in
  (forall src, L <= Z.of_nat (length src) ->
     we_aes_gcm_ctrl alloc ctx EVP_CTRL_GCM_SET_IV_FIXED (-1) (PtrBuf src) =
     Ok (1,
         set_ctx_iv
           (set_cipher_data ctx
              (set_iv (set_ivLen s L) (firstn n src ++ skipn n (iv s))))
           (firstn n src ++ skipn n (ctx_iv ctx)),
         PtrBuf src))
  /\ (forall arg ptr, arg <> -1 ->
        let x := wc_AesGcmSetIV (aes s) L ptr arg we_rng in
        let reg := aes_reg (snd x) in
        we_aes_gcm_ctrl alloc ctx EVP_CTRL_GCM_SET_IV_FIXED arg ptr =
        if fst x =? 0
        then Ok (1,
                 set_ctx_iv
                   (set_cipher_data ctx
                      (set_iv (set_ivSet (set_aes (set_ivLen s L) (snd x)) 1)
                         (firstn n reg ++ skipn n (iv s))))
                   (firstn n reg ++ skipn n (ctx_iv ctx)),
                 ptr)
        else Ok (0, set_cipher_data ctx (set_aes (set_ivLen s L) (snd x)),
                 ptr)).
Proof.
  intros Hs Hiv Hciv Hlen L n.
  assert (HL : 1 <= L <= 16) by (unfold L; destruct (ivLen s =? 0) eqn:E; lia).
  assert (Hdef : (if ivLen s =? 0 then set_ivLen s GCM_NONCE_MID_SZ else s)
                 = set_ivLen s L).
  { unfold L. change GCM_NONCE_MID_SZ with 12.
    destruct (ivLen s =? 0) eqn:E; [ reflexivity | ].
    destruct s; reflexivity. }
  split.
  - intros src Hsrc. unfold we_aes_gcm_ctrl. rewrite Hs, Hdef.
    change (-1 =? -1) with true. cbv iota. cbn [ptr_buf bind].
    cbn [iv ivLen set_ivLen].
    rewrite !XMEMCPY_whole by lia. reflexivity.
  - intros arg ptr Harg x reg. unfold we_aes_gcm_ctrl. rewrite Hs, Hdef.
    assert (E : (arg =? -1) = false) by (apply Z.eqb_neq; exact Harg).
    rewrite E. cbn [ivLen aes set_ivLen]. fold x.
    destruct x as [rc a] eqn:Ex. cbn [fst snd] in *.
    destruct (rc =? 0); cbn [negb]; [ | reflexivity ].
    cbn [iv ivLen aes set_ivLen set_aes set_ivSet].
    assert (Hreg : Z.of_nat (length reg) = 16) by apply aes_reg_length.
    fold reg. rewrite (XMEMCPY_whole (iv s) reg L) by lia. cbn [bind].
    rewrite XMEMCPY_whole
      by (rewrite ?length_app, ?length_firstn, ?length_skipn; lia).
    rewrite firstn_app_exact by (rewrite length_firstn; lia).
    reflexivity.
Qed.

End NonceMore.

(** * Properties of the registration and of [src/internal.c] *)

(** ** [we_init_aesgcm_meth] and [we_init_aesgcm_meths] *)

(** The setters [we_init_aesgcm_meth] calls. *)
Lemma we_init_aesgcm_meth_ok (ok : nid -> meth_call -> bool) (n : nid)
    (k : Z) :
  forallb (ok n) (tl meth_calls) = true ->
  we_init_aesgcm_meth ok
    {| meth_nid := n; meth_block_size := 1; meth_key_len := k;
       meth_iv_length := 0; meth_flags := []; meth_init := None;
       meth_do_cipher := None; meth_ctrl := None;
       meth_impl_ctx_size := None |}
  = (1, gcm_method n k).
Proof.
  cbn [forallb tl meth_calls]. intros H.
  repeat (apply andb_prop in H; destruct H as [? H]).
  unfold we_init_aesgcm_meth, meth_set. cbn.
  repeat match goal with
    | E : ok n ?c = true |- context [ok n ?c] => rewrite E; cbn
    end.
  reflexivity.
Qed.

Lemma we_init_aesgcm_meth_fails (ok : nid -> meth_call -> bool)
    (m : EVP_CIPHER) :
  forallb (ok (meth_nid m)) (tl meth_calls) = false ->
  fst (we_init_aesgcm_meth ok m) = 0.
Proof.
  cbn [forallb tl meth_calls]. intros H.
  unfold we_init_aesgcm_meth, meth_set.
  repeat match goal with
    | |- context [ok (meth_nid m) ?c] =>
        destruct (ok (meth_nid m) c); [ | reflexivity ];
        cbn [Z.eqb Pos.eqb meth_nid with_iv_length with_flags with_init
             with_do_cipher with_ctrl with_impl_ctx_size]
    end.
  discriminate H.
Qed.

(** One method: created and filled in, or the run has failed. *)
Lemma init_meth_if_new (ok : nid -> meth_call -> bool) (n : nid) (k : Z) :
  let c := EVP_CIPHER_meth_new ok n 1 k in
  let r := init_meth_if ok (match c with None => 0 | Some _ => 1 end) c in
  if forallb (ok n) meth_calls
  then r = (1, Some (gcm_method n k))
  else fst r = 0.
Proof.
  cbn zeta. unfold EVP_CIPHER_meth_new.
  change (forallb (ok n) meth_calls)
    with (ok n call_meth_new && forallb (ok n) (tl meth_calls)).
  destruct (ok n call_meth_new); cbn [andb]; [ | reflexivity ].
  unfold init_meth_if. change (1 =? 1) with true. cbv iota.
  destruct (forallb (ok n) (tl meth_calls)) eqn:E.
  - rewrite (we_init_aesgcm_meth_ok ok n k E). reflexivity.
  - match goal with
    | |- context [we_init_aesgcm_meth ok ?m] =>
        pose proof (we_init_aesgcm_meth_fails ok m E) as Hf;
        destruct (we_init_aesgcm_meth ok m) as [r m']
    end.
    exact Hf.
Qed.

Lemma we_init_aesgcm_meths_cases (ok : nid -> meth_call -> bool)
    (g : gcm_methods) :
  we_init_aesgcm_meths ok g =
  if all_calls_ok ok
  then (1, {| we_aes128_gcm_ciph :=
                Some (gcm_method NID_aes_128_gcm AES_128_KEY_SIZE);
              we_aes192_gcm_ciph :=
                Some (gcm_method NID_aes_192_gcm AES_192_KEY_SIZE);
              we_aes256_gcm_ciph :=
                Some (gcm_method NID_aes_256_gcm AES_256_KEY_SIZE) |})
  else (0, {| we_aes128_gcm_ciph := None; we_aes192_gcm_ciph := None;
              we_aes256_gcm_ciph := None |}).
Proof.
  unfold we_init_aesgcm_meths, all_calls_ok. cbn [forallb gcm_nids].
  rewrite andb_true_r.
  pose proof (init_meth_if_new ok NID_aes_128_gcm AES_128_KEY_SIZE) as H1.
  pose proof (init_meth_if_new ok NID_aes_192_gcm AES_192_KEY_SIZE) as H2.
  pose proof (init_meth_if_new ok NID_aes_256_gcm AES_256_KEY_SIZE) as H3.
  cbn zeta in H1, H2, H3.
  destruct (forallb (ok NID_aes_128_gcm) meth_calls).
  - rewrite H1. change (1 =? 1) with true. cbv iota.
    destruct (forallb (ok NID_aes_192_gcm) meth_calls).
    + destruct (EVP_CIPHER_meth_new ok NID_aes_192_gcm 1 AES_192_KEY_SIZE)
        as [m2|]; [ | discriminate H2 ].
      rewrite H2. change (1 =? 1) with true. cbv iota.
      destruct (forallb (ok NID_aes_256_gcm) meth_calls).
      * destruct (EVP_CIPHER_meth_new ok NID_aes_256_gcm 1 AES_256_KEY_SIZE)
          as [m3|]; [ | discriminate H3 ].
        rewrite H3. reflexivity.
      * destruct (init_meth_if ok _ (EVP_CIPHER_meth_new ok NID_aes_256_gcm _ _))
          as [r3 c3].
        cbn [fst andb] in *. subst r3. reflexivity.
    + destruct (init_meth_if ok _ (EVP_CIPHER_meth_new ok NID_aes_192_gcm _ _))
        as [r2 c2].
      cbn [fst andb] in *. subst r2. reflexivity.
  - destruct (init_meth_if ok _ (EVP_CIPHER_meth_new ok NID_aes_128_gcm _ _))
      as [r1 c1].
    cbn [fst andb] in *. subst r1. reflexivity.
Qed.

(** X20.  [we_init_aesgcm_meths] registers all three methods or none.  It
    returns 1 exactly when each of the 21 calls into OpenSSL succeeds, and
    then each global points to a method with the key size of its NID, IV
    length 12, the AES-GCM flags and the three functions of [aes_gcm.c]; it
    returns 0 otherwise, and then all three globals are NULL, whatever they
    pointed to before. *)
Theorem gcm_methods_all_or_nothing (ok : nid -> meth_call -> bool)
    (g : gcm_methods) :
  let r := we_init_aesgcm_meths ok g in
  (all_calls_ok ok = true /\ fst r = 1
   /\ we_aes128_gcm_ciph (snd r) = Some (gcm_method NID_aes_128_gcm 16)
   /\ we_aes192_gcm_ciph (snd r) = Some (gcm_method NID_aes_192_gcm 24)
   /\ we_aes256_gcm_ciph (snd r) = Some (gcm_method NID_aes_256_gcm 32))
  \/ (all_calls_ok ok = false /\ fst r = 0
      /\ we_aes128_gcm_ciph (snd r) = None
      /\ we_aes192_gcm_ciph (snd r) = None
      /\ we_aes256_gcm_ciph (snd r) = None).
Proof.
  cbn zeta. rewrite we_init_aesgcm_meths_cases.
  destruct (all_calls_ok ok); [ left | right ]; repeat split.
Qed.

(** X21.  The look-up of an AES-GCM method succeeds whether or not the
    registration did: with AES-GCM compiled in, [we_ciphers] returns 1 for
    each of the three NIDs, with the registered method when
    [we_init_aesgcm_meths] succeeded and with a NULL method when it
    failed. *)
Theorem gcm_lookup_after_registration (cfg : we_config)
    (ok : nid -> meth_call -> bool) (g0 : gcm_methods) (cm : cipher_methods)
    (n : nid) :
  WE_HAVE_AESGCM cfg = true ->
  In n gcm_nids ->
  we_gcm_ciphs cm = snd (we_init_aesgcm_meths ok g0) ->
  exists m,
    we_ciphers cfg cm false n = (1, out_method m)
    /\ (all_calls_ok ok = false -> m = None)
    /\ (all_calls_ok ok = true ->
        exists k, m = Some (gcm_method n k)
                  /\ In (n, k) [(NID_aes_128_gcm, 16); (NID_aes_192_gcm, 24);
                                (NID_aes_256_gcm, 32)]).
Proof.
  intros Hcfg Hn Hcm. rewrite we_init_aesgcm_meths_cases in Hcm.
  unfold we_ciphers, case_ifdef. rewrite Hcfg, Hcm.
  destruct Hn as [<- | [<- | [<- | []]]];
    (eexists; split; [ reflexivity | ]);
    destruct (all_calls_ok ok); cbn [snd we_aes128_gcm_ciph
      we_aes192_gcm_ciph we_aes256_gcm_ciph];
    (split; [ intros; first [ reflexivity | discriminate ] | ]);
    intros; try discriminate;
    eexists; (split; [ reflexivity | ]); simpl; auto.
Qed.

(** ** [we_init_random] *)

(** X22.  The global generator is initialised at most once.  A call of
    [we_init_random] that returns 1 leaves [we_globalRngInited] set, and
    every later call returns 1 without touching the generator, whatever
    [wc_InitRng] would answer; a call that does not return 1 returns 0,
    because [wc_InitRng] failed, and leaves the flag at 0, so that the next
    call tries again. *)
Theorem init_random_once (Rng : Type) (wc_InitRng later : Rng -> Z * Rng)
    (st : rng_state Rng) :
  let r := we_init_random wc_InitRng st in
  (fst r = 1 ->
   we_globalRngInited (snd r) <> 0
   /\ we_init_random later (snd r) = (1, snd r))
  /\ (fst r <> 1 ->
      fst r = 0
      /\ we_globalRngInited (snd r) = 0
      /\ fst (wc_InitRng (we_globalRng st)) <> 0
      /\ snd r = {| we_globalRng := snd (wc_InitRng (we_globalRng st));
                    we_globalRngInited := 0 |}).
Proof.
  cbn zeta. unfold we_init_random.
  destruct (we_globalRngInited st =? 0) eqn:E.
  - apply Z.eqb_eq in E.
    destruct (wc_InitRng (we_globalRng st)) as [rc g].
    cbn [fst snd]. destruct (rc =? 0) eqn:Erc.
    + change (1 =? 1) with true. cbv iota.
      cbn [we_globalRngInited]. change (1 =? 0) with false. cbv iota.
      split; [ intros _; split; [ discriminate | reflexivity ] | ].
      intros H. exfalso. apply H. reflexivity.
    + change (0 =? 1) with false. cbv iota. rewrite E.
      split; [ discriminate | ]. intros _.
      apply Z.eqb_neq in Erc. repeat split. exact Erc.
  - cbn [fst snd]. rewrite E. split.
    + intros _. split; [ apply Z.eqb_neq; exact E | reflexivity ].
    + intros H. exfalso. apply H. reflexivity.
Qed.

(** ** The look-up functions *)

Lemma In_ifdef {A : Type} (b : bool) (x : A) (l : list A) :
  In x (ifdef b l) <-> b = true /\ In x l.
Proof.
  destruct b; simpl; intuition discriminate.
Qed.

(** After the choice of the NID, one build option decides a look-up. *)
Ltac lookup_case :=
  unfold case_ifdef; cbn [andb];
  repeat match goal with
    | |- context [if ?b then _ else _] => destruct b eqn:?
    end;
  cbn [fst snd andb] in *;
  intuition (try discriminate; try congruence).

(** X23.  [we_ciphers] accepts exactly the NIDs of the list it reports: with
    [cipher] not NULL it returns 1 for a NID of [we_cipher_nids] and, for
    any other, returns 0 and stores NULL; with [cipher] NULL it returns the
    number of entries of that list, in which no NID occurs twice. *)
Theorem ciphers_lookup_agrees_with_list (cfg : we_config)
    (g : cipher_methods) (n : nid) :
  (fst (we_ciphers cfg g false n) = 1 <-> In n (we_cipher_nids cfg))
  /\ (~ In n (we_cipher_nids cfg) ->
      we_ciphers cfg g false n = (0, out_method None))
  /\ we_ciphers cfg g true n =
     (Z.of_nat (length (we_cipher_nids cfg)), out_nids (we_cipher_nids cfg))
  /\ NoDup (we_cipher_nids cfg).
Proof.
  split; [ | split; [ | split; [ reflexivity | ] ] ].
  - unfold we_cipher_nids. rewrite !in_app_iff, !In_ifdef.
    destruct n; cbn [we_ciphers In]; lookup_case.
  - unfold we_cipher_nids. rewrite !in_app_iff, !In_ifdef.
    destruct n; cbn [we_ciphers In]; lookup_case.
  - unfold we_cipher_nids, ifdef.
    destruct (WE_HAVE_DES3CBC cfg), (WE_HAVE_AESECB cfg),
      (WE_HAVE_AESCBC cfg), (WE_HAVE_AESCTR cfg), (WE_HAVE_AESGCM cfg),
      (WE_HAVE_AESCCM cfg); cbn [app];
      repeat (constructor; [ simpl; intuition discriminate | ]);
      constructor.
Qed.

Lemma nid_hash_type_injective (cfg : we_config) (n n' : nid) :
  nid_hash_type cfg n <> WC_HASH_TYPE_NONE ->
  nid_hash_type cfg n' = nid_hash_type cfg n -> n' = n.
Proof.
  intros Hn Heq.
  destruct n; cbn [nid_hash_type] in *; try congruence;
    match type of Hn with
    | context [if ?b then _ else _] => destruct b; [ | congruence ]
    end;
    destruct n'; cbn [nid_hash_type] in Heq; try reflexivity;
    try discriminate Heq;
    match type of Heq with
    | context [if ?b then _ else _] => destruct b; discriminate Heq
    end.
Qed.

(** X24.  [we_digests] accepts exactly the NIDs of [we_digest_nids], and
    these are the NIDs [we_nid_to_wc_hash_oid] maps to a hash type of their
    own: for any other NID it asks wolfCrypt for the OID of
    [WC_HASH_TYPE_NONE], and two different listed NIDs get two different hash
    types. *)
Theorem digests_lookup_agrees_with_list (EVP_MD : Type) (cfg : we_config)
    (g : digest_methods EVP_MD) (wc_HashGetOID : wc_HashType -> Z) (n : nid) :
  (fst (we_digests cfg g false n) = 1 <-> In n (we_digest_nids cfg))
  /\ (~ In n (we_digest_nids cfg) ->
      we_digests cfg g false n = (0, out_method None)
      /\ we_nid_to_wc_hash_oid wc_HashGetOID cfg n =
         wc_HashGetOID WC_HASH_TYPE_NONE)
  /\ (In n (we_digest_nids cfg) ->
      nid_hash_type cfg n <> WC_HASH_TYPE_NONE
      /\ forall n', nid_hash_type cfg n' = nid_hash_type cfg n -> n' = n).
Proof.
  unfold we_nid_to_wc_hash_oid.
  assert (Hlisted : In n (we_digest_nids cfg) ->
                    nid_hash_type cfg n <> WC_HASH_TYPE_NONE).
  { unfold we_digest_nids. rewrite !in_app_iff, !In_ifdef.
    destruct n; cbn [nid_hash_type In]; lookup_case. }
  split; [ | split ].
  - unfold we_digest_nids. rewrite !in_app_iff, !In_ifdef.
    destruct n; cbn [we_digests In]; lookup_case.
  - unfold we_digest_nids. rewrite !in_app_iff, !In_ifdef.
    destruct n; cbn [we_digests nid_hash_type In]; lookup_case.
  - intros H. split; [ exact (Hlisted H) | ].
    intros n'. apply nid_hash_type_injective. exact (Hlisted H).
Qed.


(** ** The further properties on concrete inputs *)

Lemma direction_and_mode_persist_witness :
  let s := stub_session true false zero_iv 0 None 0 in
  we_aes_gcm_ctrl true (stub_ctx s) EVP_CTRL_AEAD_SET_IVLEN 8 PtrNull =
    Ok (1, stub_ctx (set_ivLen s 8), PtrNull)
  /\ exists s', cipher_data (stub_ctx (set_ivLen s 8)) = Some s'
                /\ enc s' = enc s /\ init s' = init s
                /\ (tls s = true -> tls s' = true).
Proof.
  intros s. split; [ reflexivity | ].
  apply (proj1 (direction_and_mode_persist (stub_ctx s) s eq_refl)
           true EVP_CTRL_AEAD_SET_IVLEN 8 PtrNull 1
           (stub_ctx (set_ivLen s 8)) PtrNull).
  reflexivity.
Defined.

Lemma session_shape_kept_witness :
  let s := stub_session true false zero_iv 0 None 0 in
  let s1 := stub_session true false zero_iv 0 (Some [x61]) 1 in
  session_shape s
  /\ we_aes_gcm_cipher true (stub_ctx s) None [x61] 1 =
     Ok (0, stub_ctx s1, None)
  /\ exists s', cipher_data (stub_ctx s1) = Some s' /\ session_shape s'.
Proof.
  intros s s1.
  assert (Hshape : session_shape s).
  { unfold session_shape. simpl. repeat split; lia. }
  split; [ exact Hshape | ]. split; [ reflexivity | ].
  apply (proj2 (session_shape_kept (stub_ctx s) s eq_refl Hshape)
           true None [x61] 1 0 (stub_ctx s1) None).
  reflexivity.
Defined.


Lemma reinit_keeps_session_witness :
  let s := stub_session false false zero_iv 16 (Some [x61]) 1 in
  let v := repeat x01 12 in
  let s1 := stub_session false false (v ++ repeat x00 4) 16 (Some [x61]) 1 in
  we_aes_gcm_init (stub_ctx s) None (Some v) 1 = Ok (1, stub_ctx s1)
  /\ exists s',
       cipher_data (stub_ctx s1) = Some s' /\ enc s' = enc s
       /\ tls s' = tls s /\ aad s' = aad s /\ aadLen s' = aadLen s
       /\ tag s' = tag s /\ tagLen s' = tagLen s /\ ivSet s' = ivSet s
       /\ init s' = true.
Proof.
  intros s v s1. split; [ reflexivity | ].
  apply (reinit_keeps_session (stub_ctx s) (stub_ctx s1) s None (Some v) 1 1).
  - reflexivity.
  - reflexivity.
  - right. discriminate.
  - reflexivity.
Defined.

Lemma init_with_iv_sets_length_12_witness :
  let s := stub_session true false zero_iv 0 None 0 in
  let v := repeat x01 16 in
  exists ctx1 s2,
    we_aes_gcm_ctrl true (stub_ctx s) EVP_CTRL_AEAD_SET_IVLEN 16 PtrNull =
      Ok (1, ctx1, PtrNull)
    /\ we_aes_gcm_init ctx1 None (Some v) 1 =
       Ok (1, set_cipher_data ctx1 s2)
    /\ ivLen s2 = 12
    /\ iv s2 = firstn 12 v ++ skipn 12 (iv s).
Proof.
  intros s v.
  apply (init_with_iv_sets_length_12 true (stub_ctx s) s 16 1 v).
  - reflexivity.
  - reflexivity.
  - lia.
  - simpl. lia.
Defined.

Lemma failed_command_changes_nothing_witness :
  let s := stub_session true false zero_iv 0 None 0 in
  we_aes_gcm_ctrl true (stub_ctx s) EVP_CTRL_AEAD_SET_IVLEN 17 PtrNull =
    Ok (0, stub_ctx s, PtrNull)
  /\ (stub_ctx s = stub_ctx s /\ PtrNull = PtrNull).
Proof.
  intros s. split; [ reflexivity | ].
  apply (failed_command_changes_nothing true (stub_ctx s) (stub_ctx s)
           EVP_CTRL_AEAD_SET_IVLEN 17 PtrNull PtrNull).
  - discriminate.
  - discriminate.
  - reflexivity.
Defined.

Lemma iv_length_round_trip_witness :
  let s := stub_session true false zero_iv 0 None 0 in
  exists ctx1,
    we_aes_gcm_ctrl true (stub_ctx s) EVP_CTRL_AEAD_SET_IVLEN 7 PtrNull =
      Ok ((if (1 <=? 7) && (7 <=? 16) then 1 else 0), ctx1, PtrNull)
    /\ we_aes_gcm_ctrl true ctx1 EVP_CTRL_GET_IVLEN 0 (PtrInt 0) =
       Ok (1, ctx1,
           PtrInt (if (1 <=? 7) && (7 <=? 16) then 7 else ivLen s)).
Proof.
  intros s.
  apply (iv_length_round_trip true (stub_ctx s) s 7 0). reflexivity.
Defined.

Lemma set_tag_then_get_tag_on_encrypt_witness :
  let s := stub_session true false zero_iv 0 None 0 in
  let dst := repeat xff 4 in
  exists ctx1,
    we_aes_gcm_ctrl true (stub_ctx s) EVP_CTRL_AEAD_SET_TAG 16 PtrNull =
      Ok (1, ctx1, PtrNull)
    /\ we_aes_gcm_ctrl true ctx1 EVP_CTRL_AEAD_GET_TAG 4 (PtrBuf dst) =
       Ok (1, ctx1, PtrBuf (firstn (Z.to_nat 4) (tag s)
                            ++ skipn (Z.to_nat 4) dst)).
Proof.
  intros s dst.
  apply (set_tag_then_get_tag_on_encrypt true (stub_ctx s) s 16 4 PtrNull dst).
  - reflexivity.
  - reflexivity.
  - reflexivity.
  - lia.
  - lia.
  - simpl. lia.
Defined.

Lemma get_tag_refused_witness :
  let s := stub_session true false zero_iv 0 None 0 in
  let ptr := PtrBuf (repeat x00 16) in
  we_aes_gcm_ctrl true (stub_ctx s) EVP_CTRL_AEAD_GET_TAG 16 ptr =
  Ok (0, stub_ctx s, ptr).
Proof.
  intros s ptr.
  apply (get_tag_refused true (stub_ctx s) s 16 ptr).
  - reflexivity.
  - right. reflexivity.
Defined.

Lemma decrypt_checks_the_set_tag_witness :
  let s := stub_session false false zero_iv 0 None 0 in
  let t := repeat x6b 16 in
  let r := wc_AesGcmDecrypt (aes s) (firstn (Z.to_nat 1) [x00])
             (firstn (Z.to_nat 1) [x41])
             (firstn (Z.to_nat (ivLen s)) (iv s))
             (firstn (Z.to_nat 16) t) [] in
  exists ctx1 s2,
    we_aes_gcm_ctrl true (stub_ctx s) EVP_CTRL_AEAD_SET_TAG 16 (PtrBuf t) =
      Ok (1, ctx1, PtrBuf t)
    /\ we_aes_gcm_cipher true ctx1 (Some [x00]) [x41] 1 =
       Ok (1, set_cipher_data ctx1 s2,
           Some (dec_out r ++ skipn (Z.to_nat 1) [x00]))
    /\ aes s2 = dec_aes r /\ tagLen s2 = 16.
Proof.
  intros s t.
  apply (decrypt_checks_the_set_tag true (stub_ctx s) s 16 1 t
           [x00] [x41] []).
  - reflexivity.
  - reflexivity.
  - reflexivity.
  - reflexivity.
  - reflexivity.
  - simpl. lia.
  - lia.
  - simpl. lia.
  - lia.
  - simpl. lia.
  - simpl. lia.
  - reflexivity.
Defined.

Lemma encrypt_then_get_tag_witness :
  let s := stub_session true false zero_iv 0 None 0 in
  exists ctx1,
    we_aes_gcm_cipher true (stub_ctx s) (Some [x00]) [x41] 1 =
      Ok (1, ctx1, Some [x41])
    /\ we_aes_gcm_ctrl true ctx1 EVP_CTRL_AEAD_GET_TAG 4
         (PtrBuf (repeat x00 4)) =
       Ok (1, ctx1, PtrBuf (repeat x6b 4)).
Proof.
  intros s.
  pose proof (encrypt_then_get_tag true (stub_ctx s) s 1 [x00] [x41] []
                eq_refl eq_refl eq_refl eq_refl eq_refl) as H.
  assert (H1 : 0 <= ivLen s <= 16) by (simpl; lia).
  assert (H2 : 0 < 1 < 2 ^ 31) by lia.
  assert (H3 : 1 <= Z.of_nat (length [x00])) by (simpl; lia).
  assert (H4 : 1 <= Z.of_nat (length [x41])) by (simpl; lia).
  specialize (H H1 H2 H3 H4 eq_refl). cbv zeta in H.
  destruct (H (fun _ => eq_refl)) as [ctx1 [Hcall Htag]].
  exists ctx1. split; [ exact Hcall | ].
  apply (Htag 4 (repeat x00 4)).
  - lia.
  - simpl. lia.
Defined.

Lemma encrypt_with_refused_iv_witness :
  let s :=
    @Build_we_AesGcm refusing_wolfcrypt tt zero_iv 12 0 (repeat x00 16) 0
      (Some [x61]) 1 true true false in
  let ctx :=
    @Build_EVP_CIPHER_CTX refusing_wolfcrypt (Some s) (repeat x00 16) 16 in
  @we_aes_gcm_cipher refusing_wolfcrypt true ctx (Some [x00]) [x41] 1 =
  Ok (1, set_cipher_data ctx (dispose_aad s), Some [x00]).
Proof.
  intros s ctx.
  apply (@encrypt_with_refused_iv refusing_wolfcrypt true ctx s 1
           [x00] [x41]).
  - reflexivity.
  - reflexivity.
  - reflexivity.
  - reflexivity.
  - simpl. lia.
  - lia.
  - vm_compute. discriminate.
Defined.

Lemma tls_decrypt_framing_witness :
  let s := stub_session false true counting_iv 0 None 0 in
  let ia := repeat x11 8 in
  let iv1 := [x01; x02; x03; x04] ++ ia ++ [x0d; x0e; x0f; x10] in
  we_aes_gcm_cipher true (stub_ctx s) (Some (repeat x00 9))
    (ia ++ [x41] ++ repeat x6b 16) 25 =
  Ok (1, stub_ctx (stub_session false true iv1 0 None 0),
      Some (repeat x00 8 ++ [x41])).
Proof.
  intros s ia iv1.
  apply (proj1 (tls_decrypt_framing true (stub_ctx s) s
                  (repeat x00 8) [x00] [] ia [x41] (repeat x6b 16) [] []
                  eq_refl eq_refl eq_refl eq_refl
                  ltac:(simpl; lia) eq_refl eq_refl eq_refl eq_refl eq_refl
                  ltac:(simpl; lia))).
Defined.

Lemma tls_short_record_undefined_witness :
  let s := stub_session false true counting_iv 0 None 0 in
  we_aes_gcm_cipher true (stub_ctx s) (Some (repeat x00 10))
    (repeat x00 10) 10 = Undefined.
Proof.
  intros s.
  apply (tls_short_record_undefined true (stub_ctx s) s
           (Some (repeat x00 10)) (repeat x00 10) 10).
  - reflexivity.
  - reflexivity.
  - lia.
  - intros o H. injection H as <-. simpl. lia.
Defined.

Lemma tls_call_needs_output_witness :
  let s := stub_session true true counting_iv 0 None 0 in
  we_aes_gcm_cipher true (stub_ctx s) None (repeat x00 25) 25 = Undefined.
Proof.
  intros s.
  apply (tls_call_needs_output true (stub_ctx s) s (repeat x00 25) 25).
  - reflexivity.
  - reflexivity.
  - discriminate.
Defined.

Lemma tls_aad_same_on_both_sides_witness :
  let s_e := stub_session true false zero_iv 0 None 0 in
  let s_d := stub_session false false zero_iv 0 None 0 in
  let pre := repeat x00 11 in
  let a := pre ++ [x00; x18] in
  we_aes_gcm_ctrl true (stub_ctx s_e) EVP_CTRL_AEAD_TLS1_AAD 13
    (PtrBuf (pre ++ [x00; x20])) =
    Ok (16, stub_ctx (stub_session true true zero_iv 0 (Some a) 13),
        PtrBuf (pre ++ [x00; x20]))
  /\ we_aes_gcm_ctrl true (stub_ctx s_d) EVP_CTRL_AEAD_TLS1_AAD 13
       (PtrBuf (pre ++ [x00; x30])) =
     Ok (16, stub_ctx (stub_session false true zero_iv 0 (Some a) 13),
         PtrBuf (pre ++ [x00; x30])).
Proof.
  intros s_e s_d pre a.
  pose proof (tls_aad_same_on_both_sides (stub_ctx s_e) (stub_ctx s_d)
                s_e s_d pre 32 eq_refl eq_refl eq_refl eq_refl eq_refl)
    as H.
  assert (H1 : 8 <= 32) by lia.
  assert (H2 : 32 + 16 < 65536) by lia.
  destruct (H H1 H2) as [He [Hd _]].
  split; [ exact He | exact Hd ].
Defined.


Lemma iv_gen_counts_modulo_2_64_witness :
  let s := stub_session true false zero_iv 0 None 0 in
  let seed := [x01; x02; x03; x04] in
  exists c' s',
    iv_gen_calls 1000 seed 4 (stub_ctx s) = Ok c'
    /\ cipher_data c' = Some s'
    /\ nonce_counter s' = (nonce_counter s + Z.of_N 1000) mod 2 ^ 64
    /\ ((0 < 1000 < 2 ^ 64)%N -> iv s' <> iv s).
Proof.
  intros s seed.
  apply (iv_gen_counts_modulo_2_64 (stub_ctx s) s seed 4 1000).
  - reflexivity.
  - reflexivity.
  - simpl. lia.
  - simpl. lia.
  - simpl. lia.
Defined.

Lemma set_iv_fixed_copies_nonce_witness :
  let s := stub_session true false zero_iv 0 None 0 in
  let v := firstn 12 counting_iv ++ skipn 12 zero_iv in
  we_aes_gcm_ctrl true (stub_ctx s) EVP_CTRL_GCM_SET_IV_FIXED (-1)
    (PtrBuf counting_iv) =
  Ok (1,
      set_ctx_iv (set_cipher_data (stub_ctx s) (set_iv (set_ivLen s 12) v)) v,
      PtrBuf counting_iv).
Proof.
  intros s v.
  assert (H1 : 0 <= ivLen s <= 16) by (simpl; lia).
  pose proof (set_iv_fixed_copies_nonce true (stub_ctx s) s
                eq_refl eq_refl eq_refl H1) as H.
  cbv zeta in H. destruct H as [H _].
  apply (H counting_iv). simpl. lia.
Defined.

Lemma gcm_lookup_after_registration_witness :
  let ok := fun (_ : nid) (_ : meth_call) => true in
  let g0 := {| we_aes128_gcm_ciph := None; we_aes192_gcm_ciph := None;
               we_aes256_gcm_ciph := None |} in
  let cm :=
    {| we_des3_cbc_ciph := None;
       we_aes128_ecb_ciph := None; we_aes192_ecb_ciph := None;
       we_aes256_ecb_ciph := None;
       we_aes128_cbc_ciph := None; we_aes192_cbc_ciph := None;
       we_aes256_cbc_ciph := None;
       we_aes128_ctr_ciph := None; we_aes192_ctr_ciph := None;
       we_aes256_ctr_ciph := None;
       we_gcm_ciphs := snd (we_init_aesgcm_meths ok g0);
       we_aes128_ccm_ciph := None; we_aes192_ccm_ciph := None;
       we_aes256_ccm_ciph := None |} in
  exists m,
    we_ciphers full_config cm false NID_aes_256_gcm = (1, out_method m)
    /\ (all_calls_ok ok = false -> m = None)
    /\ (all_calls_ok ok = true ->
        exists k, m = Some (gcm_method NID_aes_256_gcm k)
                  /\ In (NID_aes_256_gcm, k)
                       [(NID_aes_128_gcm, 16); (NID_aes_192_gcm, 24);
                        (NID_aes_256_gcm, 32)]).
Proof.
  intros ok g0 cm.
  apply (gcm_lookup_after_registration full_config ok g0 cm NID_aes_256_gcm).
  - reflexivity.
  - right. right. left. reflexivity.
  - reflexivity.
Defined.

Lemma init_random_once_witness :
  let st := {| we_globalRng := 0%nat; we_globalRngInited := 0 |} in
  let first := fun r : nat => (0, S r) in
  let later := fun r : nat => (-1, r) in
  we_init_random first st = (1, {| we_globalRng := 1%nat;
                                   we_globalRngInited := 1 |})
  /\ we_globalRngInited (snd (we_init_random first st)) <> 0
  /\ we_init_random later (snd (we_init_random first st))
     = (1, snd (we_init_random first st)).
Proof.
  intros st first later. split; [ reflexivity | ].
  apply (proj1 (init_random_once nat first later st)). reflexivity.
Defined.

Lemma ciphers_lookup_agrees_with_list_witness :
  let cm :=
    {| we_des3_cbc_ciph := None;
       we_aes128_ecb_ciph := None; we_aes192_ecb_ciph := None;
       we_aes256_ecb_ciph := None;
       we_aes128_cbc_ciph := None; we_aes192_cbc_ciph := None;
       we_aes256_cbc_ciph := None;
       we_aes128_ctr_ciph := None; we_aes192_ctr_ciph := None;
       we_aes256_ctr_ciph := None;
       we_gcm_ciphs := {| we_aes128_gcm_ciph := None;
                          we_aes192_gcm_ciph := None;
                          we_aes256_gcm_ciph := None |};
       we_aes128_ccm_ciph := None; we_aes192_ccm_ciph := None;
       we_aes256_ccm_ciph := None |} in
  In NID_des_ede3_cbc (we_cipher_nids full_config)
  /\ we_ciphers full_config cm false (NID_other 0) = (0, out_method None).
Proof.
  intros cm.
  pose proof (ciphers_lookup_agrees_with_list full_config cm NID_des_ede3_cbc)
    as [H _].
  pose proof (ciphers_lookup_agrees_with_list full_config cm (NID_other 0))
    as [_ [H0 _]].
  split.
  - apply (proj1 H). reflexivity.
  - apply H0. simpl. intuition discriminate.
Defined.

Lemma digests_lookup_agrees_with_list_witness :
  let dm : digest_methods unit :=
    {| we_sha1_md := None; we_sha224_md := None; we_sha256_md := None;
       we_sha384_md := None; we_sha512_md := None; we_sha3_224_md := None;
       we_sha3_256_md := None; we_sha3_384_md := None;
       we_sha3_512_md := None |} in
  In NID_sha1 (we_digest_nids full_config)
  /\ we_nid_to_wc_hash_oid (fun _ => -1) full_config NID_aes_128_gcm = -1.
Proof.
  intros dm.
  pose proof (digests_lookup_agrees_with_list unit full_config dm
                (fun _ => -1) NID_sha1) as [H _].
  pose proof (digests_lookup_agrees_with_list unit full_config dm
                (fun _ => -1) NID_aes_128_gcm) as [_ [H0 _]].
  split.
  - apply (proj1 H). reflexivity.
  - apply H0. simpl. intuition discriminate.
Defined.

